(** * UNETPyTorch.V2.ModelModules: the architecture-assembly logic

    A shallow embedding of [src/UNETPyTorch/V2/ModelModules.py].  The
    Python classes [ConvSet], [DownSample], [UpSample], [UNET] and
    [ResNet] are records; their [__init__] methods are functions into an
    error monad (assertions and index errors are results), and their
    [forward] methods are functions into a state-and-error monad over an
    abstract tensor framework.

    The tensor framework (PyTorch) is not part of the sources: a module
    built by a factory is represented by the call that built it (the
    factory and its arguments), and what such a module does to a tensor is
    a parameter of the development, the class [Framework]. *)

From stdpp Require Import gmap strings list fin_maps.
From Stdlib Require Import ZArith QArith Lia.

Local Open Scope Z_scope.

(** ** Python exceptions and the error monad *)

Inductive exn : Type :=
  | AssertionError
  | IndexError
  | TypeError
  | AttributeError
  | FrameworkError.

Inductive Res (A : Type) : Type :=
  | Ok (a : A)
  | Raise (e : exn).

Arguments Ok {A} a.
Arguments Raise {A} e.

Definition Res_bind {A B : Type} (c : Res A) (k : A → Res B) : Res B :=
  match c with
  | Ok a => k a
  | Raise e => Raise e
  end.

Declare Scope res_scope.
Delimit Scope res_scope with res.
Notation "'let!' x ':=' c 'in' k" := (Res_bind c (fun x => k))
  (at level 10, x pattern, c at level 100, k at level 200) : res_scope.

Local Open Scope res_scope.

Definition py_assert (b : bool) : Res unit :=
  if b then Ok tt else Raise AssertionError.

Fixpoint mapM {A B : Type} (f : A → Res B) (l : list A) : Res (list B) :=
  match l with
  | [] => Ok []
  | x :: l' =>
      let! y := f x in
      let! ys := mapM f l' in
      Ok (y :: ys)
  end.

(** ** Python sequences of integers *)

(** [len(l)] as a Python integer. *)
Definition len {A : Type} (l : list A) : Z := Z.of_nat (length l).

(** [l[i]]: a negative index counts from the end, an index out of range
    raises [IndexError]. *)
Definition py_index (l : list Z) (i : Z) : Res Z :=
  let j := if i <? 0 then len l + i else i in
  if (0 <=? j) && (j <? len l) then
    match l !! Z.to_nat j with
    | Some x => Ok x
    | None => Raise IndexError
    end
  else Raise IndexError.

(** [l[i] = v], with the same index rules. *)
Definition py_setitem (l : list Z) (i : Z) (v : Z) : Res (list Z) :=
  let j := if i <? 0 then len l + i else i in
  if (0 <=? j) && (j <? len l) then Ok (<[Z.to_nat j := v]> l)
  else Raise IndexError.

(** [range(n)] and [range(start, stop, -1)]. *)
Definition py_range (n : Z) : list Z :=
  Z.of_nat <$> seq 0 (Z.to_nat n).

Definition py_range_down (start stop : Z) : list Z :=
  (fun k => start - Z.of_nat k) <$> seq 0 (Z.to_nat (start - stop)).

(** ** Keyword arguments of the attention module *)

(** Values stored in an argument dictionary: the constructors here only
    ever store integers; anything else a caller put there is opaque. *)
Inductive pyval : Type :=
  | PyInt (z : Z)
  | PyObj (tag : string).

Abbreviation kwargs := (gmap string pyval).

(** [EmbedAttnUtils] is not among the sources.  Its dataclass
    [AttentionArgs] is represented by the map of its fields, which is what
    [asdict] returns; assigning one of its attributes updates that map. *)
Record AttentionArgs : Type := { fields : kwargs }.

Definition asdict (a : AttentionArgs) : kwargs := fields a.

Definition setattr (a : AttentionArgs) (k : string) (v : pyval) : AttentionArgs :=
  {| fields := <[k := v]> (fields a) |}.

(** What a caller may pass as [attention_args], [up_attn_args] or
    [conv_attn_args]: [None], a [dict], an [AttentionArgs], or some other
    object (which the [isinstance] tests treat like [None]). *)
Inductive attn_args : Type :=
  | ArgNone
  | ArgDict (d : kwargs)
  | ArgData (a : AttentionArgs)
  | ArgOther.

(** The attention module, built by unpacking a dictionary into the
    keyword arguments of [Attention]: the module is the call that built it. *)
Inductive AttentionModule : Type :=
  | Attention (kw : kwargs).

(** The [isinstance] chain that sets [self.attention]. *)
Definition make_attention (x : attn_args) : option AttentionModule :=
  match x with
  | ArgDict d => Some (Attention d)
  | ArgData r => Some (Attention (asdict r))
  | _ => None
  end.

(** The three assignments every constructor makes before it hands the
    arguments on. *)
Definition set_attn_channels (a : attn_args) (enc skip inter : Z) : attn_args :=
  match a with
  | ArgDict d =>
      ArgDict (<["spatial_inter_channels" := PyInt inter]>
                (<["skip_channels" := PyInt skip]>
                  (<["enc_channels" := PyInt enc]> d)))
  | ArgData r =>
      ArgData (setattr (setattr (setattr r "enc_channels" (PyInt enc))
                                "skip_channels" (PyInt skip))
                       "spatial_inter_channels" (PyInt inter))
  | _ => a
  end.

(** ** Layers *)

(** A layer is the constructor call that made it.  [lead] is the extra
    leading positional argument of a factory call: [None] when the factory
    was called without it, [Some d] when it was called with [d] first.
    [padding] of a convolution is [None] when the keyword was not given. *)
Inductive Layer : Type :=
  | Conv (lead : option Z) (in_channels out_channels : Z)
         (kernel_size : Z) (padding : option Z) (stride : Z)
  | BatchNorm (lead : option Z) (num_features : Z)
  | MaxPool (lead : option Z) (kernel_size stride : Z)
  | ConvTranspose (lead : option Z) (in_channels out_channels : Z)
                  (kernel_size stride : Z)
  | ReLU (inplace : bool)
  | Dropout (p : Q)
  | Linear (in_features out_features : Z)
  | DiffPosEmbeds (count theta : Z)
  | Identity
  | Custom (name : string).

(** [nn.Sequential] and [nn.ModuleList] are lists. *)
Abbreviation Sequential := (list Layer).

(** The leading argument the factories get for [dims] dimensions. *)
Definition lead_arg (dims : Z) : option Z :=
  if dims <=? 3 then None else Some dims.

(** ** The tensor framework *)

(** What the framework does is a parameter.  A module call may change the
    framework's state [World] (random number generator, running
    statistics) and may fail; tensor operations are pure and may fail. *)
Class Framework (Tensor World : Type) : Type := {
  (** [layer(x)] *)
  apply_layer : Layer → Tensor → World → option (Tensor * World);
  (** [layer(None)] *)
  apply_layer_none : Layer → World → option (Tensor * World);
  (** [attention(x)] and [attention(x, y)] *)
  apply_attention :
    AttentionModule → Tensor → option Tensor → World → option (Tensor * World);
  (** [x.reshape(x.shape[0], x.shape[1], -1)] *)
  flatten_spatial : Tensor → option Tensor;
  (** [reshape_like x y]: [x] reshaped to the shape of [y] *)
  reshape_like : Tensor → Tensor → option Tensor;
  (** [x[(...,) + (None,) * dims]] *)
  expand_dims : Tensor → Z → option Tensor;
  (** [x + y] *)
  tensor_add : Tensor → Tensor → option Tensor;
  (** [torch.cat([x, y], 1)] *)
  cat_channels : Tensor → Tensor → option Tensor
}.

(** ** The state-and-error monad of [forward] and of construction over a
    store *)

Definition M (S A : Type) : Type := S → Res (A * S).

Definition ret {S A : Type} (a : A) : M S A := fun s => Ok (a, s).

Definition bind {S A B : Type} (c : M S A) (k : A → M S B) : M S B :=
  fun s =>
    match c s with
    | Ok (a, s') => k a s'
    | Raise e => Raise e
    end.

Definition raise {S A : Type} (e : exn) : M S A := fun _ => Raise e.

Definition lift_res {S A : Type} (r : Res A) : M S A :=
  fun s =>
    match r with
    | Ok a => Ok (a, s)
    | Raise e => Raise e
    end.

(** A framework call that fails raises [FrameworkError]. *)
Definition stateful {S A : Type} (f : S → option (A * S)) : M S A :=
  fun s =>
    match f s with
    | Some r => Ok r
    | None => Raise FrameworkError
    end.

Definition pure_op {S A : Type} (o : option A) : M S A :=
  fun s =>
    match o with
    | Some a => Ok (a, s)
    | None => Raise FrameworkError
    end.

Declare Scope m_scope.
Delimit Scope m_scope with M.
Notation "'run!' x ':=' c 'in' k" := (bind c (fun x => k))
  (at level 10, x pattern, c at level 100, k at level 200) : m_scope.

(** [l[i]] on a list of modules, for a non-negative [i]. *)
Definition module_at {A : Type} (l : list A) (i : nat) : Res A :=
  match l !! i with
  | Some x => Ok x
  | None => Raise IndexError
  end.

Section Calls.
Context {Tensor World : Type} {F : Framework Tensor World}.
Local Open Scope m_scope.

Definition call (l : Layer) (x : Tensor) : M World Tensor :=
  stateful (apply_layer l x).

(** [nn.Sequential.forward]: the layers in order. *)
Fixpoint call_seq (ls : Sequential) (x : Tensor) : M World Tensor :=
  match ls with
  | [] => ret x
  | l :: ls' =>
      run! y := call l x in
      call_seq ls' y
  end.

(** A sequential module called on an argument that may be [None]. *)
Definition call_seq_arg (ls : Sequential) (x : option Tensor)
  : M World (option Tensor) :=
  match x with
  | Some t =>
      run! y := call_seq ls t in
      ret (Some y)
  | None =>
      match ls with
      | [] => ret None
      | l :: ls' =>
          run! y := stateful (apply_layer_none l) in
          run! z := call_seq ls' y in
          ret (Some z)
      end
  end.

(** A module attribute that is [None] cannot be called. *)
Definition call_opt_seq (m : option Sequential) (x : Tensor) : M World Tensor :=
  match m with
  | Some ls => call_seq ls x
  | None => raise TypeError
  end.

Definition call_opt (m : option Layer) (x : Tensor) : M World Tensor :=
  match m with
  | Some l => call l x
  | None => raise TypeError
  end.

(** [for blk in blocks: x = blk(x)] *)
Fixpoint call_blocks (blocks : list Sequential) (x : Tensor) : M World Tensor :=
  match blocks with
  | [] => ret x
  | b :: bs =>
      run! y := call_seq b x in
      call_blocks bs y
  end.

(** Attention over one tensor: flatten the spatial axes, attend, and
    restore the shape. *)
Definition self_attend (a : AttentionModule) (x : Tensor) : M World Tensor :=
  run! flat := pure_op (flatten_spatial x) in
  run! x_attn := stateful (apply_attention a flat None) in
  pure_op (reshape_like x_attn x).

(** [for m in modules: state = step(m, state)] *)
Fixpoint loopM {A St : Type} (step : A → St → M World St)
    (modules : list A) (st : St) : M World St :=
  match modules with
  | [] => ret st
  | m :: ms =>
      run! st' := step m st in
      loopM step ms st'
  end.
End Calls.

(** ** ConvSet *)

Module ConvSet.

Record t : Type := {
  dimensions : Z;
  conv_list : list Sequential;
  need_time : bool;
  embed_adjuster : option Sequential;
  attention : option AttentionModule;
  need_res : bool;
  res_match : option Sequential;
  res_act : option Layer
}.

(** The arguments of [__init__].  The factories [conv_function] and
    [bn_function] are the constructors [Conv] and [BatchNorm] of [Layer];
    [act_function] is [None] or a module of the caller's, known by its
    name. *)
Record args : Type := {
  channel_sequence : list Z;
  kernel_sequence : list Z;
  padding_sequence : list Z;
  dims : Z;
  stride : Z;
  act_function : option string;
  use_time : bool;
  time_embed_count : Z;
  attention_args : attn_args;
  use_residual : bool
}.

(** One pass of the loop over [range(len(channel_sequence) - 1)]. *)
Definition conv_block (a : args) (i : Z) : Res Sequential :=
  let cur_stride := if i =? 1 then stride a else 1 in
  let! layers :=
    if dims a <=? 3 then
      let! c_in := py_index (channel_sequence a) i in
      let! c_out := py_index (channel_sequence a) (i + 1) in
      let! k := py_index (kernel_sequence a) i in
      let! p := py_index (padding_sequence a) i in
      let! c_bn := py_index (channel_sequence a) (i + 1) in
      Ok (Conv None c_in c_out k (Some p) cur_stride, BatchNorm None c_bn)
    else
      let! c_in := py_index (channel_sequence a) i in
      let! c_out := py_index (channel_sequence a) (i + 1) in
      let! k := py_index (kernel_sequence a) i in
      let! p := py_index (padding_sequence a) i in
      let! c_bn := py_index (channel_sequence a) (i + 1) in
      Ok (Conv (Some (dims a)) c_in c_out k (Some p) cur_stride,
          BatchNorm (Some (dims a)) c_bn) in
  Ok [layers.1; layers.2;
      match act_function a with
      | Some f => Custom f
      | None => ReLU true
      end].

Definition make_res_match (a : args) : Res Sequential :=
  if dims a <=? 3 then
    let! c0 := py_index (channel_sequence a) 0 in
    let! cl := py_index (channel_sequence a) (-1) in
    let! cb := py_index (channel_sequence a) (-1) in
    Ok [Conv None c0 cl 1 None (stride a); BatchNorm None cb]
  else
    let! c0 := py_index (channel_sequence a) 0 in
    let! cl := py_index (channel_sequence a) (-1) in
    let! cb := py_index (channel_sequence a) (-1) in
    Ok [Conv (Some (dims a)) c0 cl 1 None (stride a);
        BatchNorm (Some (dims a)) cb].

Definition init (a : args) : Res t :=
  let! _ := py_assert (3 <=? len (channel_sequence a)) in
  let! _ := py_assert (2 <=? len (kernel_sequence a)) in
  let! _ := py_assert (2 <=? len (padding_sequence a)) in
  let! _ := py_assert ((len (kernel_sequence a) =? len (padding_sequence a))
                       && (len (padding_sequence a) =? len (channel_sequence a) - 1)) in
  let! blocks := mapM (conv_block a) (py_range (len (channel_sequence a) - 1)) in
  let! adjuster :=
    if use_time a then
      let! c2 := py_index (channel_sequence a) 2 in
      Ok (Some [Linear (time_embed_count a) c2; ReLU false])
    else Ok None in
  let attn := make_attention (attention_args a) in
  let! res :=
    if use_residual a then
      let! m := make_res_match a in
      Ok (Some m, Some (ReLU true))
    else Ok (None, None) in
  Ok {| dimensions := dims a;
        conv_list := blocks;
        need_time := use_time a;
        embed_adjuster := adjuster;
        attention := attn;
        need_res := use_residual a;
        res_match := res.1;
        res_act := res.2 |}.

Section Forward.
Context {Tensor World : Type} {F : Framework Tensor World}.
Local Open Scope m_scope.

(** The part of [forward] under [if self.need_time]. *)
Definition add_time (c : t) (conv_batch : Tensor) (time_embed : option Tensor)
  : M World Tensor :=
  match time_embed with
  | None => raise AssertionError
  | Some te =>
      run! adjusted := call_opt_seq (embed_adjuster c) te in
      run! adjusted := pure_op (expand_dims adjusted (dimensions c)) in
      pure_op (tensor_add conv_batch adjusted)
  end.

(** The part of [forward] under [if self.need_res]. *)
Definition add_residual (c : t) (batch conv_batch : Tensor) : M World Tensor :=
  run! res_batch := call_opt_seq (res_match c) batch in
  run! sum := pure_op (tensor_add conv_batch res_batch) in
  call_opt (res_act c) sum.

Definition forward (c : t) (batch : Tensor) (time_embed : option Tensor)
  : M World Tensor :=
  run! first := lift_res (module_at (conv_list c) 0) in
  run! conv_batch := call_seq first batch in
  run! conv_batch :=
    if need_time c then add_time c conv_batch time_embed
    else ret conv_batch in
  run! conv_batch := call_blocks (drop 1 (conv_list c)) conv_batch in
  run! conv_batch :=
    match attention c with
    | Some a => self_attend a conv_batch
    | None => ret conv_batch
    end in
  if need_res c then add_residual c batch conv_batch
  else ret conv_batch.
End Forward.

End ConvSet.

(** ** DownSample *)

Module DownSample.

Record t : Type := {
  conv : ConvSet.t;
  pool : Layer
}.

Record args : Type := {
  channel_sequence : list Z;
  kernel_sequence : list Z;
  padding_sequence : list Z;
  dims : Z;
  conv_act_fn : option string;
  conv_time : bool;
  conv_time_embed_count : Z;
  conv_attn_args : attn_args;
  conv_residual : bool
}.

(** The arguments of the call to [ConvSet]; [stride] keeps its default. *)
Definition conv_args (a : args) : ConvSet.args :=
  {| ConvSet.channel_sequence := channel_sequence a;
     ConvSet.kernel_sequence := kernel_sequence a;
     ConvSet.padding_sequence := padding_sequence a;
     ConvSet.dims := dims a;
     ConvSet.stride := 1;
     ConvSet.act_function := conv_act_fn a;
     ConvSet.use_time := conv_time a;
     ConvSet.time_embed_count := conv_time_embed_count a;
     ConvSet.attention_args := conv_attn_args a;
     ConvSet.use_residual := conv_residual a |}.

Definition init (a : args) : Res t :=
  let! c := ConvSet.init (conv_args a) in
  let p :=
    if dims a <=? 3 then MaxPool None 2 2
    else MaxPool (Some (dims a)) 2 2 in
  Ok {| conv := c; pool := p |}.

Section Forward.
Context {Tensor World : Type} {F : Framework Tensor World}.
Local Open Scope m_scope.

Definition forward (d : t) (batch : Tensor) (time_embed : option Tensor)
  : M World (Tensor * Tensor) :=
  run! conv_batch := ConvSet.forward (conv d) batch time_embed in
  run! encoded_batch := call (pool d) conv_batch in
  ret (conv_batch, encoded_batch).
End Forward.

End DownSample.

(** ** UpSample *)

Module UpSample.

Record t : Type := {
  attention : option AttentionModule;
  upscaler : Sequential;
  conv : ConvSet.t
}.

Record args : Type := {
  channel_sequence : list Z;
  kernel_sequence : list Z;
  padding_sequence : list Z;
  dims : Z;
  up_drop_perc : Q;
  attention_args : attn_args;
  conv_act_fn : option string;
  conv_time : bool;
  conv_time_embed_count : Z;
  conv_attn_args : attn_args;
  conv_residual : bool
}.

(** The arguments of the call to [ConvSet]; [stride] keeps its default. *)
Definition conv_args (a : args) : ConvSet.args :=
  {| ConvSet.channel_sequence := channel_sequence a;
     ConvSet.kernel_sequence := kernel_sequence a;
     ConvSet.padding_sequence := padding_sequence a;
     ConvSet.dims := dims a;
     ConvSet.stride := 1;
     ConvSet.act_function := conv_act_fn a;
     ConvSet.use_time := conv_time a;
     ConvSet.time_embed_count := conv_time_embed_count a;
     ConvSet.attention_args := conv_attn_args a;
     ConvSet.use_residual := conv_residual a |}.

(** [up_drop_perc > 0] *)
Definition positive_rate (p : Q) : bool := negb (Qle_bool p 0).

Definition init (a : args) : Res t :=
  let attn := make_attention (attention_args a) in
  let! layers :=
    if dims a <=? 3 then
      let! c0 := py_index (channel_sequence a) 0 in
      let! cl := py_index (channel_sequence a) (-1) in
      let! cb := py_index (channel_sequence a) (-1) in
      Ok (ConvTranspose None c0 cl 2 2, BatchNorm None cb)
    else
      let! c0 := py_index (channel_sequence a) 0 in
      let! cl := py_index (channel_sequence a) (-1) in
      let! cb := py_index (channel_sequence a) (-1) in
      Ok (ConvTranspose (Some (dims a)) c0 cl 2 2,
          BatchNorm (Some (dims a)) cb) in
  let up := [layers.1; layers.2; ReLU true] in
  let up := if positive_rate (up_drop_perc a)
            then up ++ [Dropout (up_drop_perc a)] else up in
  let! c := ConvSet.init (conv_args a) in
  Ok {| attention := attn; upscaler := up; conv := c |}.

Section Forward.
Context {Tensor World : Type} {F : Framework Tensor World}.
Local Open Scope m_scope.

(** The part of [forward] under [if self.attention is not None]: the
    gate takes the decoder tensor and the skip tensor, and its result,
    in the skip's shape, replaces the skip. *)
Definition gate_skip (a : AttentionModule) (cur skip : Tensor) : M World Tensor :=
  run! cur_flat := pure_op (flatten_spatial cur) in
  run! skip_flat := pure_op (flatten_spatial skip) in
  run! attn_skip := stateful (apply_attention a cur_flat (Some skip_flat)) in
  pure_op (reshape_like attn_skip skip).

Definition forward (u : t) (cur skip : Tensor) (time_embed : option Tensor)
  : M World Tensor :=
  run! skip :=
    match attention u with
    | Some a => gate_skip a cur skip
    | None => ret skip
    end in
  run! cur_upscaled := call_seq (upscaler u) cur in
  run! combined := pure_op (cat_channels cur_upscaled skip) in
  ConvSet.forward (conv u) combined time_embed.
End Forward.

End UpSample.

(** ** UNET *)

(** [isinstance(x, dict) or isinstance(x, AttentionArgs)] *)
Definition is_attn_args (x : attn_args) : bool :=
  match x with
  | ArgDict _ | ArgData _ => true
  | _ => false
  end.

(** The block that prepares [cur_conv_attn] in [create_downsampler] and
    [create_upsampler]: the caller's object is updated in place and handed
    on; the result is the updated object and the argument to pass. *)
Definition prepare_conv_attn (conv_attn_args : attn_args) (cur_seq : list Z)
  : Res (attn_args * attn_args) :=
  if is_attn_args conv_attn_args then
    let! e := py_index cur_seq (-1) in
    let! k := py_index cur_seq (-1) in
    let! h := py_index cur_seq (-1) in
    let updated := set_attn_channels conv_attn_args e k (h / 2) in
    Ok (updated, updated)
  else Ok (conv_attn_args, ArgNone).

(** [for x in xs: state = step(state, x)] while building a network. *)
Fixpoint foldM {A St : Type} (step : St → A → Res St) (xs : list A) (st : St)
  : Res St :=
  match xs with
  | [] => Ok st
  | x :: xs' =>
      let! st' := step st x in
      foldM step xs' st'
  end.

(** [skip_connections.pop()] *)
Definition py_pop {A : Type} (l : list A) : Res (A * list A) :=
  match last l with
  | Some x => Ok (x, removelast l)
  | None => Raise IndexError
  end.

Module UNET.

Record t : Type := {
  data_dimensions : Z;
  in_layer : Layer;
  need_denoise : bool;
  time_embeds : option Sequential;
  down_samplers : list DownSample.t;
  bottle_neck : ConvSet.t;
  bottle_neck_attn : option AttentionModule;
  up_samplers : list UpSample.t;
  out_layer : Layer
}.

(** The two argument objects [up_attn_args] and [conv_attn_args] are
    updated in place during construction; they are taken to be distinct
    objects, and [init] returns them as they are afterwards. *)
Record args : Type := {
  in_channels : Z;
  channel_list : list Z;
  arg_in_layer : option string;
  arg_out_layer : option string;
  data_dims : Z;
  denoise_diff : bool;
  denoise_embed_count : Z;
  up_drop_perc : Q;
  up_attn_args : attn_args;
  conv_act_fn : option string;
  conv_attn_args : attn_args;
  conv_residual : bool
}.

(** The arguments of the call to [DownSample] in [create_downsampler]. *)
Definition down_args (a : args) (cur_seq : list Z) (cur_conv_attn : attn_args)
  : DownSample.args :=
  {| DownSample.channel_sequence := cur_seq;
     DownSample.kernel_sequence := [3; 3];
     DownSample.padding_sequence := [1; 1];
     DownSample.dims := data_dims a;
     DownSample.conv_act_fn := conv_act_fn a;
     DownSample.conv_time := denoise_diff a;
     DownSample.conv_time_embed_count := denoise_embed_count a;
     DownSample.conv_attn_args := cur_conv_attn;
     DownSample.conv_residual := conv_residual a |}.

(** The arguments of the call to [UpSample] in [create_upsampler]. *)
Definition up_args (a : args) (cur_seq : list Z)
    (cur_up_attn cur_conv_attn : attn_args) : UpSample.args :=
  {| UpSample.channel_sequence := cur_seq;
     UpSample.kernel_sequence := [3; 3];
     UpSample.padding_sequence := [1; 1];
     UpSample.dims := data_dims a;
     UpSample.up_drop_perc := up_drop_perc a;
     UpSample.attention_args := cur_up_attn;
     UpSample.conv_act_fn := conv_act_fn a;
     UpSample.conv_time := denoise_diff a;
     UpSample.conv_time_embed_count := denoise_embed_count a;
     UpSample.conv_attn_args := cur_conv_attn;
     UpSample.conv_residual := conv_residual a |}.

Definition create_downsampler (a : args) (cur_seq : list Z)
    (conv_attn_args : attn_args) : Res (DownSample.t * attn_args) :=
  let! prepared := prepare_conv_attn conv_attn_args cur_seq in
  let! d := DownSample.init (down_args a cur_seq prepared.2) in
  Ok (d, prepared.1).

Definition create_upsampler (a : args) (cur_seq : list Z) (cur_index : Z)
    (up_attn_args conv_attn_args : attn_args)
  : Res (UpSample.t * (attn_args * attn_args)) :=
  let! gate :=
    if is_attn_args up_attn_args && (1 <? cur_index) then
      let! e := py_index cur_seq 0 in
      let! k := py_index cur_seq (-1) in
      let! h := py_index cur_seq (-1) in
      let updated := set_attn_channels up_attn_args e k h in
      Ok (updated, updated)
    else Ok (up_attn_args, ArgNone) in
  let! prepared := prepare_conv_attn conv_attn_args cur_seq in
  let! u := UpSample.init (up_args a cur_seq gate.2 prepared.2) in
  Ok (u, (gate.1, prepared.1)).

(** One pass of the loop that creates the down samplers. *)
Definition down_pass (a : args) (st : list DownSample.t * attn_args) (i : Z)
  : Res (list DownSample.t * attn_args) :=
  let! cur_in_channels :=
    if i =? 0 then Ok (in_channels a) else py_index (channel_list a) (i - 1) in
  let! c1 := py_index (channel_list a) i in
  let! c2 := py_index (channel_list a) i in
  let! r := create_downsampler a [cur_in_channels; c1; c2] st.2 in
  Ok (st.1 ++ [r.1], r.2).

(** One pass of the loop that creates the up samplers. *)
Definition up_pass (a : args)
    (st : list UpSample.t * (attn_args * attn_args)) (i : Z)
  : Res (list UpSample.t * (attn_args * attn_args)) :=
  let! c0 := py_index (channel_list a) i in
  let! c1 := py_index (channel_list a) (i - 1) in
  let! c2 := py_index (channel_list a) (i - 1) in
  let! r := create_upsampler a [c0; c1; c2] i st.2.1 st.2.2 in
  Ok (st.1 ++ [r.1], r.2).

Definition init (a : args) : Res (t * (attn_args * attn_args)) :=
  let time :=
    if denoise_diff a then
      Some [DiffPosEmbeds (denoise_embed_count a) 10000;
            Linear (denoise_embed_count a) (denoise_embed_count a);
            ReLU true]
    else None in
  let! downs :=
    foldM (down_pass a) (py_range (len (channel_list a) - 1))
          ([], conv_attn_args a) in
  let! b0 := py_index (channel_list a) (-2) in
  let! b1 := py_index (channel_list a) (-1) in
  let! b2 := py_index (channel_list a) (-1) in
  let! neck := ConvSet.init
    {| ConvSet.channel_sequence := [b0; b1; b2];
       ConvSet.kernel_sequence := [3; 3];
       ConvSet.padding_sequence := [1; 1];
       ConvSet.dims := data_dims a;
       ConvSet.stride := 1;
       ConvSet.act_function := conv_act_fn a;
       ConvSet.use_time := denoise_diff a;
       ConvSet.time_embed_count := denoise_embed_count a;
       ConvSet.attention_args := ArgNone;
       ConvSet.use_residual := conv_residual a |} in
  let! up_attn :=
    if is_attn_args (up_attn_args a) then
      let! e := py_index (channel_list a) (-1) in
      let! k := py_index (channel_list a) (-1) in
      let! h := py_index (channel_list a) (-1) in
      Ok (set_attn_channels (up_attn_args a) e k (h / 2))
    else Ok (up_attn_args a) in
  let neck_attn := make_attention up_attn in
  let! ups :=
    foldM (up_pass a) (py_range_down (len (channel_list a) - 1) 0)
          ([], (up_attn, downs.2)) in
  Ok ({| data_dimensions := data_dims a;
         in_layer := match arg_in_layer a with Some l => Custom l | None => Identity end;
         need_denoise := denoise_diff a;
         time_embeds := time;
         down_samplers := downs.1;
         bottle_neck := neck;
         bottle_neck_attn := neck_attn;
         up_samplers := ups.1;
         out_layer := match arg_out_layer a with Some l => Custom l | None => Identity end |},
      ups.2).

Section Forward.
Context {Tensor World : Type} {F : Framework Tensor World}.
Local Open Scope m_scope.

(** [time_embed] as [forward] computes it. *)
Definition get_time_embed (u : t) (time_step : option Tensor)
  : M World (option Tensor) :=
  if need_denoise u then
    match time_embeds u with
    | Some te => call_seq_arg te time_step
    | None => raise AttributeError
    end
  else ret None.

(** The body of the loop over [self.down_samplers]; the state is
    [(skip_connections, cur_down)]. *)
Definition down_step (time_embed : option Tensor) (d : DownSample.t)
    (st : list Tensor * Tensor) : M World (list Tensor * Tensor) :=
  run! r := DownSample.forward d st.2 time_embed in
  ret (st.1 ++ [r.1], r.2).

(** The body of the loop over [self.up_samplers]; the state is
    [(skip_connections, cur_up)]. *)
Definition up_step (time_embed : option Tensor) (u : UpSample.t)
    (st : list Tensor * Tensor) : M World (list Tensor * Tensor) :=
  run! popped := lift_res (py_pop st.1) in
  run! cur_up := UpSample.forward u st.2 popped.1 time_embed in
  ret (popped.2, cur_up).

Definition forward (u : t) (batch : Tensor) (time_step : option Tensor)
  : M World Tensor :=
  run! cur_down := call (in_layer u) batch in
  run! time_embed := get_time_embed u time_step in
  run! st := loopM (down_step time_embed) (down_samplers u) ([], cur_down) in
  run! cur_up := ConvSet.forward (bottle_neck u) st.2 time_embed in
  run! cur_up :=
    match bottle_neck_attn u with
    | Some a => self_attend a cur_up
    | None => ret cur_up
    end in
  run! st' := loopM (up_step time_embed) (up_samplers u) (st.1, cur_up) in
  call (out_layer u) st'.2.
End Forward.

End UNET.

(** ** ResNet *)

(** The channel lists a caller gives to [ResNet] are Python list objects,
    which [create_resnet_layer] updates in place: they live in a store and
    are passed by reference.  The kernel and padding sequences are only
    read and are passed by value. *)
Abbreviation loc := nat (only parsing).
Abbreviation store := (gmap nat (list Z)) (only parsing).

(** The state of a construction: the store of list objects, and the
    object [self.conv_attn_args], which is updated in place as well. *)
Abbreviation build_state := (gmap nat (list Z) * attn_args)%type.

Definition read_list (l : loc) : M build_state (list Z) :=
  fun s =>
    match s.1 !! l with
    | Some v => Ok (v, s)
    | None => Raise TypeError
    end.

Definition write_list (l : loc) (v : list Z) : M build_state unit :=
  fun s => Ok (tt, (<[l := v]> s.1, s.2)).

Definition get_attn : M build_state attn_args :=
  fun s => Ok (s.2, s).

Definition put_attn (x : attn_args) : M build_state unit :=
  fun s => Ok (tt, (s.1, x)).

(** [for x in xs: acc = step(acc, x)] over the construction state. *)
Fixpoint foldS {S A St : Type} (step : St → A → M S St) (xs : list A) (st : St)
  : M S St :=
  match xs with
  | [] => ret st
  | x :: xs' => bind (step st x) (foldS step xs')
  end.

(** [zip] of four lists. *)
Fixpoint zip4 {A B C D : Type} (la : list A) (lb : list B) (lc : list C)
    (ld : list D) : list (A * B * C * D) :=
  match la, lb, lc, ld with
  | x :: la', y :: lb', z :: lc', w :: ld' =>
      (x, y, z, w) :: zip4 la' lb' lc' ld'
  | _, _, _, _ => []
  end.

Module ResNet.

Record t : Type := {
  data_dimensions : Z;
  conv_act_fn : option string;
  conv_residual : bool;
  denoise_embed_count : Z;
  in_layer : Layer;
  need_denoise : bool;
  time_embeds : option Sequential;
  res_net_layers : list (list ConvSet.t);
  out_layer : Layer
}.

Record args : Type := {
  layer_channels_list : list loc;
  layer_kernels_list : list (list Z);
  layer_paddings_list : list (list Z);
  layer_set_list : list Z;
  arg_in_layer : option string;
  arg_out_layer : option string;
  data_dims : Z;
  denoise_diff : bool;
  arg_denoise_embed_count : Z;
  arg_conv_act_fn : option string;
  arg_conv_residual : bool
}.

Section Build.
Local Open Scope m_scope.

(** The arguments of the calls to [ConvSet] in [create_resnet_layer]. *)
Definition conv_args (a : args) (channels kernel_sequence padding_sequence : list Z)
    (stride : Z) (attn : attn_args) : ConvSet.args :=
  {| ConvSet.channel_sequence := channels;
     ConvSet.kernel_sequence := kernel_sequence;
     ConvSet.padding_sequence := padding_sequence;
     ConvSet.dims := data_dims a;
     ConvSet.stride := stride;
     ConvSet.act_function := arg_conv_act_fn a;
     ConvSet.use_time := denoise_diff a;
     ConvSet.time_embed_count := arg_denoise_embed_count a;
     ConvSet.attention_args := attn;
     ConvSet.use_residual := arg_conv_residual a |}.

(** The [ConvSet] call of [create_resnet_layer], on the current value
    of the channel list and of [self.conv_attn_args]. *)
Definition make_conv_set (a : args) (channel_sequence : loc)
    (kernel_sequence padding_sequence : list Z) (stride : Z)
  : M build_state ConvSet.t :=
  run! channels := read_list channel_sequence in
  run! attn := get_attn in
  lift_res (ConvSet.init
    (conv_args a channels kernel_sequence padding_sequence stride attn)).

Definition create_resnet_layer (a : args) (channel_sequence : loc)
    (kernel_sequence padding_sequence : list Z) (set_count stride : Z)
  : M build_state (list ConvSet.t) :=
  run! attn := get_attn in
  run! _ :=
    if is_attn_args attn then
      run! channels := read_list channel_sequence in
      run! e := lift_res (py_index channels (-1)) in
      run! k := lift_res (py_index channels (-1)) in
      run! h := lift_res (py_index channels (-1)) in
      put_attn (set_attn_channels attn e k (h / 2))
    else ret tt in
  run! first := make_conv_set a channel_sequence kernel_sequence
                  padding_sequence stride in
  run! channels := read_list channel_sequence in
  run! last_channel := lift_res (py_index channels (-1)) in
  run! channels' := lift_res (py_setitem channels 0 last_channel) in
  run! _ := write_list channel_sequence channels' in
  foldS (fun set_list (_ : Z) =>
           run! c := make_conv_set a channel_sequence kernel_sequence
                       padding_sequence 1 in
           ret (set_list ++ [c]))
        (py_range (set_count - 1)) [first].

(** One pass of the loop over the zipped lists; the state is
    [(res_net_layers, first_layer_made)]. *)
Definition layer_pass (a : args) (st : list (list ConvSet.t) * bool)
    (p : loc * list Z * list Z * Z)
  : M build_state (list (list ConvSet.t) * bool) :=
  let '(channels, kernels, paddings, set_count) := p in
  let cur_stride := if negb st.2 then 1 else 2 in
  run! layer := create_resnet_layer a channels kernels paddings set_count
                  cur_stride in
  ret (st.1 ++ [layer], true).

Definition init (a : args) : M build_state t :=
  run! _ := lift_res (py_assert
    ((len (layer_channels_list a) =? len (layer_kernels_list a))
     && (len (layer_kernels_list a) =? len (layer_paddings_list a))
     && (len (layer_paddings_list a) =? len (layer_set_list a)))) in
  let time :=
    if denoise_diff a then
      Some [DiffPosEmbeds (arg_denoise_embed_count a) 10000;
            Linear (arg_denoise_embed_count a) (arg_denoise_embed_count a);
            ReLU true]
    else None in
  run! st := foldS (layer_pass a)
               (zip4 (layer_channels_list a) (layer_kernels_list a)
                     (layer_paddings_list a) (layer_set_list a))
               ([], false) in
  ret {| data_dimensions := data_dims a;
         conv_act_fn := arg_conv_act_fn a;
         conv_residual := arg_conv_residual a;
         denoise_embed_count := arg_denoise_embed_count a;
         in_layer := match arg_in_layer a with Some l => Custom l | None => Identity end;
         need_denoise := denoise_diff a;
         time_embeds := time;
         res_net_layers := st.1;
         out_layer := match arg_out_layer a with Some l => Custom l | None => Identity end |}.
End Build.

Section Forward.
Context {Tensor World : Type} {F : Framework Tensor World}.
Local Open Scope m_scope.

Definition get_time_embed (r : t) (time_step : option Tensor)
  : M World (option Tensor) :=
  if need_denoise r then
    match time_embeds r with
    | Some te => call_seq_arg te time_step
    | None => raise AttributeError
    end
  else ret None.

(** [for conv_set in section: batch_res = conv_set(batch_res, time_embed)] *)
Definition run_section (time_embed : option Tensor) (section : list ConvSet.t)
    (batch_res : Tensor) : M World Tensor :=
  loopM (fun conv_set x => ConvSet.forward conv_set x time_embed)
        section batch_res.

Definition forward (r : t) (batch : Tensor) (time_step : option Tensor)
  : M World Tensor :=
  run! batch_in := call (in_layer r) batch in
  run! time_embed := get_time_embed r time_step in
  run! batch_res := loopM (run_section time_embed) (res_net_layers r) batch_in in
  call (out_layer r) batch_res.
End Forward.

End ResNet.

(** ** Two frameworks to run the model on *)

(** *** Symbolic tensors

    A tensor is the expression that computed it; every call succeeds, and
    the framework's state counts the module calls made so far. *)
Inductive term : Type :=
  | Input (name : string)
  | TCall (l : Layer) (x : term)
  | TCallNone (l : Layer)
  | TAttend (a : AttentionModule) (x : term)
  | TGate (a : AttentionModule) (x y : term)
  | TFlatten (x : term)
  | TReshapeLike (x y : term)
  | TExpand (x : term) (dims : Z)
  | TAdd (x y : term)
  | TCat (x y : term).

#[export] Instance Symbolic : Framework term nat := {|
  apply_layer l x w := Some (TCall l x, S w);
  apply_layer_none l w := Some (TCallNone l, S w);
  apply_attention a x y w :=
    Some (match y with Some y' => TGate a x y' | None => TAttend a x end, S w);
  flatten_spatial x := Some (TFlatten x);
  reshape_like x y := Some (TReshapeLike x y);
  expand_dims x d := Some (TExpand x d);
  tensor_add x y := Some (TAdd x y);
  cat_channels x y := Some (TCat x y)
|}.

(** *** Shapes

    A tensor is its shape, batch axis first and channel axis second, under
    the shape rules of the default factories of [torch.nn] (convolution
    with dilation 1 and one group).  The modules of [EmbedAttnUtils] are
    not covered: calling them fails. *)
Module Shapes.

Definition product (s : list Z) : Z := foldr Z.mul 1 s.

(** Output length of a window operation along one axis. *)
Definition window (kernel pad stride n : Z) : option Z :=
  let out := (n + 2 * pad - kernel) / stride + 1 in
  if (0 <? stride) && (0 <? out) then Some out else None.

Fixpoint windows (kernel pad stride : Z) (spatial : list Z) : option (list Z) :=
  match spatial with
  | [] => Some []
  | n :: rest =>
      match window kernel pad stride n, windows kernel pad stride rest with
      | Some m, Some ms => Some (m :: ms)
      | _, _ => None
      end
  end.

Definition layer_shape (l : Layer) (s : list Z) : option (list Z) :=
  match l, s with
  | Conv _ cin cout k p st, b :: c :: spatial =>
      if c =? cin then
        match windows k (default 0 p) st spatial with
        | Some sp => Some (b :: cout :: sp)
        | None => None
        end
      else None
  | BatchNorm _ f, b :: c :: spatial =>
      if c =? f then Some s else None
  | MaxPool _ k st, b :: c :: spatial =>
      match windows k 0 st spatial with
      | Some sp => Some (b :: c :: sp)
      | None => None
      end
  | ConvTranspose _ cin cout k st, b :: c :: spatial =>
      if (c =? cin) && (0 <? st)
      then Some (b :: cout :: ((fun n => (n - 1) * st + k) <$> spatial))
      else None
  | ReLU _, _ => Some s
  | Dropout _, _ => Some s
  | Identity, _ => Some s
  | Custom _, _ => Some s
  | Linear fin fout, _ =>
      match last s with
      | Some n => if n =? fin then Some (removelast s ++ [fout]) else None
      | None => None
      end
  | _, _ => None
  end.

(** Broadcasting along one axis: equal lengths, or one of them 1. *)
Definition broadcast_axis (a b : Z) : option Z :=
  if a =? b then Some a
  else if a =? 1 then Some b
  else if b =? 1 then Some a
  else None.

(** Broadcasting of two shapes given last axis first. *)
Fixpoint broadcast_rev (x y : list Z) : option (list Z) :=
  match x, y with
  | [], _ => Some y
  | _, [] => Some x
  | a :: x', b :: y' =>
      match broadcast_axis a b, broadcast_rev x' y' with
      | Some d, Some r => Some (d :: r)
      | _, _ => None
      end
  end.

Definition broadcast (x y : list Z) : option (list Z) :=
  reverse <$> broadcast_rev (reverse x) (reverse y).

Definition cat1 (x y : list Z) : option (list Z) :=
  match x, y with
  | b :: c :: sx, b' :: c' :: sy =>
      if decide (b = b' ∧ sx = sy) then Some (b :: (c + c') :: sx) else None
  | _, _ => None
  end.

#[export] Instance framework : Framework (list Z) unit := {|
  apply_layer l x w :=
    match layer_shape l x with
    | Some s => Some (s, w)
    | None => None
    end;
  apply_layer_none l w := None;
  apply_attention a x y w := None;
  flatten_spatial x :=
    match x with
    | b :: c :: spatial => Some [b; c; product spatial]
    | _ => None
    end;
  reshape_like x y := if product x =? product y then Some y else None;
  expand_dims x d := Some (x ++ replicate (Z.to_nat d) 1);
  tensor_add x y := broadcast x y;
  cat_channels x y := cat1 x y
|}.

End Shapes.

(** ** Definitions used in the statements *)

Definition sample_args (cs : list Z) (use_time use_res : bool) : ConvSet.args :=
  {| ConvSet.channel_sequence := cs;
     ConvSet.kernel_sequence := [3; 3];
     ConvSet.padding_sequence := [1; 1];
     ConvSet.dims := 2;
     ConvSet.stride := 1;
     ConvSet.act_function := None;
     ConvSet.use_time := use_time;
     ConvSet.time_embed_count := 4;
     ConvSet.attention_args := ArgNone;
     ConvSet.use_residual := use_res |}.

Definition run_shape (r : Res ConvSet.t) (batch : list Z) (te : option (list Z))
  : Res (list Z * unit) :=
  match r with
  | Ok c => ConvSet.forward (F := Shapes.framework) c batch te tt
  | Raise e => Raise e
  end.

(** The assertions of [ConvSet.__init__]. *)
Definition ConvSet_args_ok (a : ConvSet.args) : Prop :=
  3 <= len (ConvSet.channel_sequence a)
  ∧ 2 <= len (ConvSet.kernel_sequence a)
  ∧ 2 <= len (ConvSet.padding_sequence a)
  ∧ len (ConvSet.kernel_sequence a) = len (ConvSet.padding_sequence a)
  ∧ len (ConvSet.padding_sequence a) = len (ConvSet.channel_sequence a) - 1.

(** The [i]-th convolution block in closed form. *)
Definition ConvSet_block (a : ConvSet.args) (i : nat) : Sequential :=
  [Conv (lead_arg (ConvSet.dims a))
        (ConvSet.channel_sequence a !!! i)
        (ConvSet.channel_sequence a !!! S i)
        (ConvSet.kernel_sequence a !!! i)
        (Some (ConvSet.padding_sequence a !!! i))
        (if decide (i = 1%nat) then ConvSet.stride a else 1);
   BatchNorm (lead_arg (ConvSet.dims a)) (ConvSet.channel_sequence a !!! S i);
   match ConvSet.act_function a with
   | Some f => Custom f
   | None => ReLU true
   end].

(** The projection of the residual branch in closed form. *)
Definition ConvSet_projection (a : ConvSet.args) : Sequential :=
  [Conv (lead_arg (ConvSet.dims a))
        (ConvSet.channel_sequence a !!! 0%nat)
        (default 0 (last (ConvSet.channel_sequence a)))
        1 None (ConvSet.stride a);
   BatchNorm (lead_arg (ConvSet.dims a))
             (default 0 (last (ConvSet.channel_sequence a)))].

(** The record [ConvSet.init] returns when the assertions hold, in closed
    form. *)
Definition ConvSet_built (a : ConvSet.args) : ConvSet.t :=
  {| ConvSet.dimensions := ConvSet.dims a;
     ConvSet.conv_list :=
       ConvSet_block a <$> seq 0 (length (ConvSet.channel_sequence a) - 1);
     ConvSet.need_time := ConvSet.use_time a;
     ConvSet.embed_adjuster :=
       if ConvSet.use_time a
       then Some [Linear (ConvSet.time_embed_count a)
                         (ConvSet.channel_sequence a !!! 2%nat);
                  ReLU false]
       else None;
     ConvSet.attention := make_attention (ConvSet.attention_args a);
     ConvSet.need_res := ConvSet.use_residual a;
     ConvSet.res_match :=
       if ConvSet.use_residual a then Some (ConvSet_projection a) else None;
     ConvSet.res_act :=
       if ConvSet.use_residual a then Some (ReLU true) else None |}.

(** The leading argument of a call to one of the four factories
    ([conv_function], [bn_function], [mp_function], [conv_trans_func]);
    other layers are not made by a factory. *)
Definition factory_lead (l : Layer) : option (option Z) :=
  match l with
  | Conv ld _ _ _ _ _ => Some ld
  | BatchNorm ld _ => Some ld
  | MaxPool ld _ _ => Some ld
  | ConvTranspose ld _ _ _ _ => Some ld
  | _ => None
  end.

(** A factory call made for [dims] dimensions got no dimensions argument
    when [dims <= 3] and got [dims] first when [dims > 3]. *)
Definition dispatched (dims : Z) (l : Layer) : Prop :=
  ∀ ld, factory_lead l = Some ld →
    (dims <= 3 → ld = None) ∧ (3 < dims → ld = Some dims).

(** Every layer a [ConvSet] holds in its blocks and its projection. *)
Definition ConvSet_layers (c : ConvSet.t) : list Layer :=
  concat (ConvSet.conv_list c) ++ default [] (ConvSet.res_match c).

(** A [ConvSet] with its residual branch switched off: its [forward] is
    the chain of convolution blocks (with time conditioning and attention
    where the [ConvSet] has them). *)
Definition without_residual (c : ConvSet.t) : ConvSet.t :=
  {| ConvSet.dimensions := ConvSet.dimensions c;
     ConvSet.conv_list := ConvSet.conv_list c;
     ConvSet.need_time := ConvSet.need_time c;
     ConvSet.embed_adjuster := ConvSet.embed_adjuster c;
     ConvSet.attention := ConvSet.attention c;
     ConvSet.need_res := false;
     ConvSet.res_match := None;
     ConvSet.res_act := None |}.

(** A [ConvSet] with its attention switched off as well. *)
Definition without_attention (c : ConvSet.t) : ConvSet.t :=
  {| ConvSet.dimensions := ConvSet.dimensions c;
     ConvSet.conv_list := ConvSet.conv_list c;
     ConvSet.need_time := ConvSet.need_time c;
     ConvSet.embed_adjuster := ConvSet.embed_adjuster c;
     ConvSet.attention := None;
     ConvSet.need_res := false;
     ConvSet.res_match := None;
     ConvSet.res_act := None |}.

(** A framework in which every call on a tensor returns. *)
Definition Framework_total {Tensor World : Type} (F : Framework Tensor World)
  : Prop :=
  (∀ l x w, is_Some (apply_layer l x w))
  ∧ (∀ a x y w, is_Some (apply_attention a x y w))
  ∧ (∀ x, is_Some (flatten_spatial x))
  ∧ (∀ x y, is_Some (reshape_like x y))
  ∧ (∀ x d, is_Some (expand_dims x d))
  ∧ (∀ x y, is_Some (tensor_add x y))
  ∧ (∀ x y, is_Some (cat_channels x y)).

(** [m] returns from state [w]. *)
Definition returns {S A : Type} (m : M S A) (w : S) : Prop :=
  ∃ a w', m w = Ok (a, w').

(** Whether an optional attention module is there. *)
Definition has_module (m : option AttentionModule) : bool :=
  match m with
  | Some _ => true
  | None => false
  end.

(** The [UpSample] stage [us] is the one [create_upsampler] returned for
    [cur_index]; it has a gate exactly when [up_attn_args] is a [dict] or
    an [AttentionArgs] and [cur_index > 1], and its [ConvSet] has an
    attention module exactly when [conv_attn_args] is one of these. *)
Definition UNET_up_stage (a : UNET.args) (cur_index : Z) (us : UpSample.t) : Prop :=
  (∃ cur_seq up_attn conv_attn r,
     UNET.create_upsampler a cur_seq cur_index up_attn conv_attn = Ok (us, r))
  ∧ has_module (UpSample.attention us)
    = is_attn_args (UNET.up_attn_args a) && (1 <? cur_index)
  ∧ has_module (ConvSet.attention (UpSample.conv us))
    = is_attn_args (UNET.conv_attn_args a).

(** The framework [F] with another attention. *)
Definition with_attention {Tensor World : Type} (F : Framework Tensor World)
    (att : AttentionModule → Tensor → option Tensor → World
           → option (Tensor * World))
  : Framework Tensor World :=
  {| apply_layer := apply_layer (Framework := F);
     apply_layer_none := apply_layer_none (Framework := F);
     apply_attention := att;
     flatten_spatial := flatten_spatial (Framework := F);
     reshape_like := reshape_like (Framework := F);
     expand_dims := expand_dims (Framework := F);
     tensor_add := tensor_add (Framework := F);
     cat_channels := cat_channels (Framework := F) |}.

(** A [UNET] that holds no attention module at all. *)
Definition UNET_attention_free (u : UNET.t) : Prop :=
  UNET.bottle_neck_attn u = None
  ∧ ConvSet.attention (UNET.bottle_neck u) = None
  ∧ Forall (fun d => ConvSet.attention (DownSample.conv d) = None)
           (UNET.down_samplers u)
  ∧ Forall (fun us => UpSample.attention us = None
                      ∧ ConvSet.attention (UpSample.conv us) = None)
           (UNET.up_samplers u).

(** A two-level [UNET] whose gates are off ([up_attn_args=None]) and
    whose convolution sets get attention from an argument dictionary. *)
Definition conv_attention_unet_args : UNET.args :=
  {| UNET.in_channels := 3;
     UNET.channel_list := [4; 8];
     UNET.arg_in_layer := None;
     UNET.arg_out_layer := None;
     UNET.data_dims := 2;
     UNET.denoise_diff := false;
     UNET.denoise_embed_count := 0;
     UNET.up_drop_perc := 0;
     UNET.up_attn_args := ArgNone;
     UNET.conv_act_fn := None;
     UNET.conv_attn_args := ArgDict ∅;
     UNET.conv_residual := false |}.

(** An attention that always fails. *)
Definition no_attention {Tensor World : Type}
  : AttentionModule → Tensor → option Tensor → World → option (Tensor * World) :=
  fun _ _ _ _ => None.

(** The wiring of the skip connections, said directly. *)
Section SkipWiring.
Context {Tensor World : Type} {F : Framework Tensor World}.
Local Open Scope m_scope.

(** A run of the encoder: each stage stores the output of its
    convolution set, taken before pooling, and hands the pooled tensor to
    the next stage.  [encoder_run te ds x w skips y w'] says that the
    stages [ds], started on [x] in state [w], store [skips] (in stage
    order) and end on [y] in state [w']. *)
Inductive encoder_run (te : option Tensor)
  : list DownSample.t → Tensor → World → list Tensor → Tensor → World → Prop :=
  | encoder_done (x : Tensor) (w : World) :
      encoder_run te [] x w [] x w
  | encoder_stage (d : DownSample.t) (ds : list DownSample.t)
      (x conv_out pooled y : Tensor) (w w1 w2 w3 : World)
      (skips : list Tensor) :
      ConvSet.forward (DownSample.conv d) x te w = Ok (conv_out, w1) →
      call (DownSample.pool d) conv_out w1 = Ok (pooled, w2) →
      DownSample.forward d x te w = Ok ((conv_out, pooled), w2) →
      encoder_run te ds pooled w2 skips y w3 →
      encoder_run te (d :: ds) x w (conv_out :: skips) y w3.

(** An up sampler applied to the skip tensor it is paired with. *)
Definition paired_step (te : option Tensor) (p : UpSample.t * Tensor)
    (cur_up : Tensor) : M World Tensor :=
  UpSample.forward p.1 cur_up p.2 te.

(** The decoder with the pairing written out: the up samplers in order,
    against the stored skip tensors in reverse order, one each. *)
Definition decoder_paired (te : option Tensor) (ups : list UpSample.t)
    (skips : list Tensor) (cur_up : Tensor) : M World Tensor :=
  loopM (paired_step te) (zip ups (reverse skips)) cur_up.

(** [UNET.forward] with the decoder replaced by [decoder_paired]. *)
Definition UNET_forward_paired (u : UNET.t) (batch : Tensor)
    (time_step : option Tensor) : M World Tensor :=
  run! cur_down := call (UNET.in_layer u) batch in
  run! time_embed := UNET.get_time_embed u time_step in
  run! st := loopM (UNET.down_step time_embed) (UNET.down_samplers u)
               ([], cur_down) in
  run! cur_up := ConvSet.forward (UNET.bottle_neck u) st.2 time_embed in
  run! cur_up :=
    match UNET.bottle_neck_attn u with
    | Some a => self_attend a cur_up
    | None => ret cur_up
    end in
  run! out := decoder_paired time_embed (UNET.up_samplers u) st.1 cur_up in
  call (UNET.out_layer u) out.
End SkipWiring.

(** A three-level [UNET] with default options. *)
Definition plain_unet_args : UNET.args :=
  {| UNET.in_channels := 3;
     UNET.channel_list := [4; 8; 16];
     UNET.arg_in_layer := None;
     UNET.arg_out_layer := None;
     UNET.data_dims := 2;
     UNET.denoise_diff := false;
     UNET.denoise_embed_count := 0;
     UNET.up_drop_perc := 0;
     UNET.up_attn_args := ArgNone;
     UNET.conv_act_fn := None;
     UNET.conv_attn_args := ArgNone;
     UNET.conv_residual := false |}.

(** A store with two channel lists and the arguments of a two-layer
    [ResNet] over them. *)
Definition sample_store : gmap nat (list Z) :=
  <[1%nat := [16; 32; 64]]> (<[0%nat := [3; 16; 32]]> ∅).

Definition sample_resnet_args : ResNet.args :=
  {| ResNet.layer_channels_list := [0%nat; 1%nat];
     ResNet.layer_kernels_list := [[3; 3]; [3; 3]];
     ResNet.layer_paddings_list := [[1; 1]; [1; 1]];
     ResNet.layer_set_list := [2; 1];
     ResNet.arg_in_layer := None;
     ResNet.arg_out_layer := None;
     ResNet.data_dims := 2;
     ResNet.denoise_diff := false;
     ResNet.arg_denoise_embed_count := 0;
     ResNet.arg_conv_act_fn := None;
     ResNet.arg_conv_residual := true |}.

(** [a] with another channel sequence. *)
Definition with_channels (a : ConvSet.args) (cs : list Z) : ConvSet.args :=
  {| ConvSet.channel_sequence := cs;
     ConvSet.kernel_sequence := ConvSet.kernel_sequence a;
     ConvSet.padding_sequence := ConvSet.padding_sequence a;
     ConvSet.dims := ConvSet.dims a;
     ConvSet.stride := ConvSet.stride a;
     ConvSet.act_function := ConvSet.act_function a;
     ConvSet.use_time := ConvSet.use_time a;
     ConvSet.time_embed_count := ConvSet.time_embed_count a;
     ConvSet.attention_args := ConvSet.attention_args a;
     ConvSet.use_residual := ConvSet.use_residual a |}.

(** [a] for another number of dimensions. *)
Definition UNET_with_dims (a : UNET.args) (d : Z) : UNET.args :=
  {| UNET.in_channels := UNET.in_channels a;
     UNET.channel_list := UNET.channel_list a;
     UNET.arg_in_layer := UNET.arg_in_layer a;
     UNET.arg_out_layer := UNET.arg_out_layer a;
     UNET.data_dims := d;
     UNET.denoise_diff := UNET.denoise_diff a;
     UNET.denoise_embed_count := UNET.denoise_embed_count a;
     UNET.up_drop_perc := UNET.up_drop_perc a;
     UNET.up_attn_args := UNET.up_attn_args a;
     UNET.conv_act_fn := UNET.conv_act_fn a;
     UNET.conv_attn_args := UNET.conv_attn_args a;
     UNET.conv_residual := UNET.conv_residual a |}.

(** A three-level [UNET] with gates from an argument dictionary. *)
Definition gated_unet_args : UNET.args :=
  {| UNET.in_channels := 3;
     UNET.channel_list := [4; 8; 16];
     UNET.arg_in_layer := None;
     UNET.arg_out_layer := None;
     UNET.data_dims := 2;
     UNET.denoise_diff := false;
     UNET.denoise_embed_count := 0;
     UNET.up_drop_perc := 0;
     UNET.up_attn_args := ArgDict ∅;
     UNET.conv_act_fn := None;
     UNET.conv_attn_args := ArgNone;
     UNET.conv_residual := false |}.

(** ** Definitions used in further statements *)

(** The stride of the convolution that heads a block. *)
Definition block_stride (b : Sequential) : option Z :=
  match b with
  | Conv _ _ _ _ _ st :: _ => Some st
  | _ => None
  end.

(** [max(1, n)] as a number of modules. *)
Definition at_least_one (n : Z) : nat := Z.to_nat (Z.max 1 n).

(** [a] with another channel list. *)
Definition UNET_with_channels (a : UNET.args) (cl : list Z) : UNET.args :=
  {| UNET.in_channels := UNET.in_channels a;
     UNET.channel_list := cl;
     UNET.arg_in_layer := UNET.arg_in_layer a;
     UNET.arg_out_layer := UNET.arg_out_layer a;
     UNET.data_dims := UNET.data_dims a;
     UNET.denoise_diff := UNET.denoise_diff a;
     UNET.denoise_embed_count := UNET.denoise_embed_count a;
     UNET.up_drop_perc := UNET.up_drop_perc a;
     UNET.up_attn_args := UNET.up_attn_args a;
     UNET.conv_act_fn := UNET.conv_act_fn a;
     UNET.conv_attn_args := UNET.conv_attn_args a;
     UNET.conv_residual := UNET.conv_residual a |}.

(** The stride of the second convolution of a [ConvSet], the one that
    gets the constructor's [stride]. *)
Definition second_stride (c : ConvSet.t) : option Z :=
  match ConvSet.conv_list c !! 1%nat with
  | Some b => block_stride b
  | None => None
  end.

(** The input channels of the first convolution of a [ConvSet]. *)
Definition first_in_channels (c : ConvSet.t) : option Z :=
  match ConvSet.conv_list c !! 0%nat with
  | Some (Conv _ c_in _ _ _ _ :: _) => Some c_in
  | _ => None
  end.

(** The output channels of the last convolution of a [ConvSet]. *)
Definition last_out_channels (c : ConvSet.t) : option Z :=
  match last (ConvSet.conv_list c) with
  | Some (Conv _ _ c_out _ _ _ :: _) => Some c_out
  | _ => None
  end.

(** The records the sampler constructors return when the assertions of
    [ConvSet] hold, in closed form. *)
Definition DownSample_built (a : DownSample.args) : DownSample.t :=
  {| DownSample.conv := ConvSet_built (DownSample.conv_args a);
     DownSample.pool := MaxPool (lead_arg (DownSample.dims a)) 2 2 |}.

Definition UpSample_built (a : UpSample.args) : UpSample.t :=
  {| UpSample.attention := make_attention (UpSample.attention_args a);
     UpSample.upscaler :=
       [ConvTranspose (lead_arg (UpSample.dims a))
          (UpSample.channel_sequence a !!! 0%nat)
          (default 0 (last (UpSample.channel_sequence a))) 2 2;
        BatchNorm (lead_arg (UpSample.dims a))
          (default 0 (last (UpSample.channel_sequence a)));
        ReLU true]
       ++ (if UpSample.positive_rate (UpSample.up_drop_perc a)
           then [Dropout (UpSample.up_drop_perc a)] else []);
     UpSample.conv := ConvSet_built (UpSample.conv_args a) |}.

(** [channel_list[i]] for an index in range. *)
Definition channel_at (a : UNET.args) (i : Z) : Z :=
  UNET.channel_list a !!! Z.to_nat i.

(** [cur_seq] of the down sampler built in pass [i], of the bottleneck,
    and of the up sampler built for [cur_index = i]. *)
Definition UNET_down_seq (a : UNET.args) (i : Z) : list Z :=
  [if i =? 0 then UNET.in_channels a else channel_at a (i - 1);
   channel_at a i; channel_at a i].

Definition UNET_neck_seq (a : UNET.args) : list Z :=
  [channel_at a (len (UNET.channel_list a) - 2);
   channel_at a (len (UNET.channel_list a) - 1);
   channel_at a (len (UNET.channel_list a) - 1)].

Definition UNET_up_seq (a : UNET.args) (i : Z) : list Z :=
  [channel_at a i; channel_at a (i - 1); channel_at a (i - 1)].

(** The arguments of the call to [ConvSet] for the bottleneck. *)
Definition UNET_neck_args (a : UNET.args) : ConvSet.args :=
  {| ConvSet.channel_sequence := UNET_neck_seq a;
     ConvSet.kernel_sequence := [3; 3];
     ConvSet.padding_sequence := [1; 1];
     ConvSet.dims := UNET.data_dims a;
     ConvSet.stride := 1;
     ConvSet.act_function := UNET.conv_act_fn a;
     ConvSet.use_time := UNET.denoise_diff a;
     ConvSet.time_embed_count := UNET.denoise_embed_count a;
     ConvSet.attention_args := ArgNone;
     ConvSet.use_residual := UNET.conv_residual a |}.

(** [conv_attn_args] after [create_downsampler] or [create_upsampler] ran
    on a [cur_seq] ending in [z] (first component), and the [cur_conv_attn]
    it passed on (second component). *)
Definition conv_attn_for (conv_attn : attn_args) (z : Z) : attn_args * attn_args :=
  if is_attn_args conv_attn
  then (set_attn_channels conv_attn z z (z / 2),
        set_attn_channels conv_attn z z (z / 2))
  else (conv_attn, ArgNone).

(** [up_attn_args] after [create_upsampler] ran for [cur_index] on
    [[c0; c1; c1]], and the [cur_up_attn] it passed on. *)
Definition gate_for (up_attn : attn_args) (cur_index c0 c1 : Z)
  : attn_args * attn_args :=
  if is_attn_args up_attn && (1 <? cur_index)
  then (set_attn_channels up_attn c0 c1 c1, set_attn_channels up_attn c0 c1 c1)
  else (up_attn, ArgNone).

(** [up_attn_args] after the bottleneck attention was set up. *)
Definition neck_attn_for (a : UNET.args) : attn_args :=
  if is_attn_args (UNET.up_attn_args a)
  then set_attn_channels (UNET.up_attn_args a)
         (channel_at a (len (UNET.channel_list a) - 1))
         (channel_at a (len (UNET.channel_list a) - 1))
         (channel_at a (len (UNET.channel_list a) - 1) / 2)
  else UNET.up_attn_args a.

(** The keyword arguments an argument object holds. *)
Definition attn_kwargs (x : attn_args) : kwargs :=
  match x with
  | ArgDict d => d
  | ArgData r => asdict r
  | _ => ∅
  end.

(** The three keys the constructors assign. *)
Definition channel_keys : list string :=
  ["enc_channels"; "skip_channels"; "spatial_inter_channels"].

(** Every [ConvSet] of a [UNET]: those of the down samplers, the
    bottleneck, those of the up samplers. *)
Definition UNET_conv_sets (u : UNET.t) : list ConvSet.t :=
  (DownSample.conv <$> UNET.down_samplers u)
  ++ [UNET.bottle_neck u]
  ++ (UpSample.conv <$> UNET.up_samplers u).

(** The down sampler of pass [i] and the up sampler of [cur_index = i],
    up to the argument objects they were given. *)
Definition UNET_down_stage_built (a : UNET.args) (i : Z) (d : DownSample.t) : Prop :=
  ∃ attn, d = DownSample_built (UNET.down_args a (UNET_down_seq a i) attn).

Definition UNET_up_stage_built (a : UNET.args) (i : Z) (us : UpSample.t) : Prop :=
  ∃ up conv_attn,
    is_attn_args up = is_attn_args (UNET.up_attn_args a)
    ∧ (∀ key, key ∉ channel_keys →
         attn_kwargs up !! key = attn_kwargs (UNET.up_attn_args a) !! key)
    ∧ us = UpSample_built
             (UNET.up_args a (UNET_up_seq a i)
                (gate_for up i (channel_at a i) (channel_at a (i - 1))).2
                conv_attn).

(** [x] is [y] up to the three channel keys: the same kind of object,
    the same object when it is no argument dictionary, and the same value
    under every other key. *)
Definition same_but_channels (x y : attn_args) : Prop :=
  is_attn_args x = is_attn_args y
  ∧ (is_attn_args y = false → x = y)
  ∧ ∀ key, key ∉ channel_keys → attn_kwargs x !! key = attn_kwargs y !! key.

(** The length of an axis after a convolution of kernel 3 and padding 1,
    or of kernel 1 and no padding, with stride [s]. *)
Definition strided (s n : Z) : Z := (n - 1) / s + 1.

(** * Properties *)

(** ** Runs of the model on shapes *)

Example conv_set_shape_plain :
  run_shape (ConvSet.init (sample_args [3; 5; 5] false true)) [2; 3; 8; 8] None
  = Ok ([2; 5; 8; 8], tt).
Proof. vm_compute. reflexivity. Qed.

Example conv_set_shape_time :
  run_shape (ConvSet.init (sample_args [3; 5; 5] true false)) [2; 3; 8; 8]
            (Some [2; 4])
  = Ok ([2; 5; 8; 8], tt).
Proof. vm_compute. reflexivity. Qed.

Example conv_set_shape_mismatch :
  run_shape (ConvSet.init (sample_args [3; 5; 7] true false)) [2; 3; 8; 8]
            (Some [2; 4])
  = Raise FrameworkError.
Proof. vm_compute. reflexivity. Qed.

Example conv_set_shape_broadcast :
  run_shape (ConvSet.init (sample_args [3; 5; 1] true false)) [2; 3; 8; 8]
            (Some [2; 4])
  = Ok ([2; 1; 8; 8], tt).
Proof. vm_compute. reflexivity. Qed.

(** ** Indexing and the monads *)

Lemma len_nonneg {A : Type} (l : list A) : 0 <= len l.
Proof. unfold len. lia. Qed.

Lemma py_index_nat (l : list Z) (n : nat) (x : Z) :
  l !! n = Some x → py_index l (Z.of_nat n) = Ok x.
Proof.
  intros H. pose proof (lookup_lt_Some _ _ _ H) as Hlt.
  unfold py_index, len.
  destruct (Z.ltb_spec (Z.of_nat n) 0) as [Hneg|_]; [lia|].
  destruct (Z.leb_spec 0 (Z.of_nat n)); [|lia].
  destruct (Z.ltb_spec (Z.of_nat n) (Z.of_nat (length l))); [|lia].
  simpl. rewrite Nat2Z.id, H. reflexivity.
Qed.

Lemma py_index_from_end (l : list Z) (k : nat) (x : Z) :
  (k < length l)%nat →
  l !! (length l - S k)%nat = Some x →
  py_index l (- Z.of_nat (S k)) = Ok x.
Proof.
  intros Hk H. unfold py_index, len.
  destruct (Z.ltb_spec (- Z.of_nat (S k)) 0) as [_|Hpos]; [|lia].
  destruct (Z.leb_spec 0 (Z.of_nat (length l) + - Z.of_nat (S k))); [|lia].
  destruct (Z.ltb_spec (Z.of_nat (length l) + - Z.of_nat (S k))
                       (Z.of_nat (length l))); [|lia].
  simpl.
  replace (Z.to_nat (Z.of_nat (length l) + - Z.of_nat (S k)))
    with (length l - S k)%nat by lia.
  rewrite H. reflexivity.
Qed.

Lemma py_index_last (l : list Z) (x : Z) :
  last l = Some x → py_index l (-1) = Ok x.
Proof.
  intros H. rewrite last_lookup in H.
  assert (0 < length l)%nat as Hpos.
  { destruct l; simpl in *; [discriminate | lia]. }
  apply (py_index_from_end l 0 x); [lia|].
  replace (length l - 1)%nat with (Nat.pred (length l)) by lia. exact H.
Qed.

Lemma py_index_inv (l : list Z) (i x : Z) :
  py_index l i = Ok x →
  ∃ n : nat, l !! n = Some x
    ∧ Z.of_nat n = (if i <? 0 then len l + i else i).
Proof.
  unfold py_index. set (j := if i <? 0 then len l + i else i).
  destruct (Z.leb_spec 0 j); simpl; [|discriminate].
  destruct (Z.ltb_spec j (len l)); [|discriminate].
  destruct (l !! Z.to_nat j) eqn:E; [|discriminate].
  intros [= ->]. exists (Z.to_nat j). split; [assumption | lia].
Qed.

Lemma mapM_Ok_fmap {A B : Type} (f : A → Res B) (g : A → B) (l : list A) :
  (∀ x, x ∈ l → f x = Ok (g x)) → mapM f l = Ok (g <$> l).
Proof.
  induction l as [|x l IH]; intros H; simpl; [reflexivity|].
  rewrite (H x) by constructor. simpl.
  rewrite IH; [reflexivity|]. intros y Hy. apply H. by constructor.
Qed.

Lemma elem_of_py_range (n i : Z) :
  i ∈ py_range n ↔ 0 <= i < n.
Proof.
  unfold py_range. rewrite list_elem_of_fmap. split.
  - intros (k & -> & Hk). apply elem_of_seq in Hk. lia.
  - intros H. exists (Z.to_nat i). split; [lia|]. apply elem_of_seq. lia.
Qed.

Lemma length_py_range (n : Z) : length (py_range n) = Z.to_nat n.
Proof. unfold py_range. by rewrite length_fmap, length_seq. Qed.

Lemma lookup_py_range (n : Z) (k : nat) :
  (k < Z.to_nat n)%nat → py_range n !! k = Some (Z.of_nat k).
Proof.
  intros H. unfold py_range. rewrite list_lookup_fmap.
  rewrite lookup_seq_lt by assumption. reflexivity.
Qed.

(** ** ConvSet: what the constructor builds *)

Lemma lead_arg_low (d : Z) : d <= 3 → lead_arg d = None.
Proof. intros H. unfold lead_arg. destruct (Z.leb_spec d 3); [reflexivity | lia]. Qed.

Lemma lead_arg_high (d : Z) : 3 < d → lead_arg d = Some d.
Proof. intros H. unfold lead_arg. destruct (Z.leb_spec d 3); [lia | reflexivity]. Qed.

Lemma py_index_total (l : list Z) (n : nat) :
  (n < length l)%nat → py_index l (Z.of_nat n) = Ok (l !!! n).
Proof.
  intros H. apply py_index_nat. by apply list_lookup_lookup_total_lt.
Qed.

Lemma py_index_last_total (l : list Z) :
  (0 < length l)%nat → py_index l (-1) = Ok (default 0 (last l)).
Proof.
  intros H. apply py_index_last.
  destruct (last l) eqn:E; [reflexivity|].
  apply last_None in E. subst l. simpl in H. lia.
Qed.

Lemma conv_block_closed (a : ConvSet.args) (i : nat) :
  (S i < length (ConvSet.channel_sequence a))%nat →
  (i < length (ConvSet.kernel_sequence a))%nat →
  (i < length (ConvSet.padding_sequence a))%nat →
  ConvSet.conv_block a (Z.of_nat i) = Ok (ConvSet_block a i).
Proof.
  intros Hc Hk Hp. unfold ConvSet.conv_block, ConvSet_block.
  replace (Z.of_nat i + 1) with (Z.of_nat (S i)) by lia.
  rewrite !py_index_total by lia.
  assert ((if Z.of_nat i =? 1 then ConvSet.stride a else 1)
          = (if decide (i = 1%nat) then ConvSet.stride a else 1)) as ->.
  { destruct (Z.eqb_spec (Z.of_nat i) 1), (decide (i = 1%nat)); (reflexivity || lia). }
  unfold lead_arg.
  destruct (ConvSet.dims a <=? 3), (ConvSet.act_function a); reflexivity.
Qed.

Lemma ConvSet_init_built (a : ConvSet.args) :
  ConvSet_args_ok a → ConvSet.init a = Ok (ConvSet_built a).
Proof.
  intros (Hc & Hk & Hp & Hkp & Hpc). unfold len in *.
  unfold ConvSet.init, len.
  destruct (Z.leb_spec 3 (Z.of_nat (length (ConvSet.channel_sequence a)))); [|lia].
  destruct (Z.leb_spec 2 (Z.of_nat (length (ConvSet.kernel_sequence a)))); [|lia].
  destruct (Z.leb_spec 2 (Z.of_nat (length (ConvSet.padding_sequence a)))); [|lia].
  rewrite (proj2 (Z.eqb_eq _ _) Hkp), (proj2 (Z.eqb_eq _ _) Hpc). simpl.
  rewrite (mapM_Ok_fmap _ (fun i => ConvSet_block a (Z.to_nat i))).
  2:{ intros i Hi. apply elem_of_py_range in Hi.
      rewrite <- (Z2Nat.id i) at 1 by lia. apply conv_block_closed; lia. }
  simpl.
  assert ((fun i => ConvSet_block a (Z.to_nat i))
            <$> py_range (Z.of_nat (length (ConvSet.channel_sequence a)) - 1)
          = ConvSet_block a <$> seq 0 (length (ConvSet.channel_sequence a) - 1))
    as ->.
  { unfold py_range. rewrite <- list_fmap_compose.
    replace (Z.to_nat (Z.of_nat (length (ConvSet.channel_sequence a)) - 1))
      with (length (ConvSet.channel_sequence a) - 1)%nat by lia.
    apply list_fmap_ext. intros k x _. simpl. by rewrite Nat2Z.id. }
  unfold ConvSet_built, ConvSet.make_res_match, ConvSet_projection, lead_arg.
  change 2 with (Z.of_nat 2). change 0 with (Z.of_nat 0).
  rewrite !py_index_total by lia.
  rewrite !py_index_last_total by lia.
  destruct (ConvSet.use_time a), (ConvSet.use_residual a),
    (ConvSet.dims a <=? 3); reflexivity.
Qed.

Lemma ConvSet_init_rejects (a : ConvSet.args) :
  ¬ ConvSet_args_ok a → ConvSet.init a = Raise AssertionError.
Proof.
  intros Hbad. unfold ConvSet_args_ok in Hbad. unfold ConvSet.init.
  destruct (Z.leb_spec 3 (len (ConvSet.channel_sequence a))); [|reflexivity].
  destruct (Z.leb_spec 2 (len (ConvSet.kernel_sequence a))); [|reflexivity].
  destruct (Z.leb_spec 2 (len (ConvSet.padding_sequence a))); [|reflexivity].
  destruct (Z.eqb_spec (len (ConvSet.kernel_sequence a))
                       (len (ConvSet.padding_sequence a))); [|reflexivity].
  destruct (Z.eqb_spec (len (ConvSet.padding_sequence a))
                       (len (ConvSet.channel_sequence a) - 1)); [|reflexivity].
  exfalso. apply Hbad. repeat split; assumption.
Qed.

Lemma ConvSet_init_inv (a : ConvSet.args) (c : ConvSet.t) :
  ConvSet.init a = Ok c → ConvSet_args_ok a ∧ c = ConvSet_built a.
Proof.
  intros H.
  destruct (decide (3 <= len (ConvSet.channel_sequence a)
    ∧ 2 <= len (ConvSet.kernel_sequence a)
    ∧ 2 <= len (ConvSet.padding_sequence a)
    ∧ len (ConvSet.kernel_sequence a) = len (ConvSet.padding_sequence a)
    ∧ len (ConvSet.padding_sequence a) = len (ConvSet.channel_sequence a) - 1))
    as [Hok|Hbad].
  - split; [exact Hok|]. rewrite (ConvSet_init_built a Hok) in H. congruence.
  - rewrite (ConvSet_init_rejects a Hbad) in H. discriminate.
Qed.



(** ** Dimensionality dispatch *)

Lemma dispatched_lead (dims : Z) (l : Layer) :
  (∀ ld, factory_lead l = Some ld → ld = lead_arg dims) → dispatched dims l.
Proof.
  intros H ld Hld. rewrite (H ld Hld). split; intros Hd.
  - by apply lead_arg_low.
  - by apply lead_arg_high.
Qed.

Lemma ConvSet_block_dispatched (a : ConvSet.args) (i : nat) :
  Forall (dispatched (ConvSet.dims a)) (ConvSet_block a i).
Proof.
  unfold ConvSet_block.
  constructor; [|constructor; [|constructor; [|constructor]]].
  - apply dispatched_lead. by intros ld [= <-].
  - apply dispatched_lead. by intros ld [= <-].
  - apply dispatched_lead. destruct (ConvSet.act_function a); by intros ld [=].
Qed.

Lemma ConvSet_built_dispatched (a : ConvSet.args) :
  Forall (dispatched (ConvSet.dims a)) (ConvSet_layers (ConvSet_built a)).
Proof.
  unfold ConvSet_layers. apply Forall_app. split.
  - apply Forall_concat. simpl. apply Forall_fmap, Forall_forall.
    intros i _. apply ConvSet_block_dispatched.
  - simpl. destruct (ConvSet.use_residual a); simpl; [|constructor].
    unfold ConvSet_projection.
    constructor; [|constructor; [|constructor]];
      apply dispatched_lead; by intros ld [= <-].
Qed.

Lemma DownSample_init_inv (a : DownSample.args) (d : DownSample.t) :
  DownSample.init a = Ok d →
  ConvSet_args_ok (DownSample.conv_args a)
  ∧ d = {| DownSample.conv := ConvSet_built (DownSample.conv_args a);
           DownSample.pool := MaxPool (lead_arg (DownSample.dims a)) 2 2 |}.
Proof.
  unfold DownSample.init. intros H.
  destruct (ConvSet.init (DownSample.conv_args a)) as [c|e] eqn:E;
    simpl in H; [|discriminate].
  apply ConvSet_init_inv in E as [Hok ->]. split; [exact Hok|].
  injection H as <-. unfold lead_arg.
  destruct (DownSample.dims a <=? 3); reflexivity.
Qed.

(** The transposed convolution and the normalization at the head of the
    upscaler, and the dropout at its end, in closed form. *)
Lemma UpSample_init_inv (a : UpSample.args) (u : UpSample.t) :
  UpSample.init a = Ok u →
  ConvSet_args_ok (UpSample.conv_args a)
  ∧ u = {| UpSample.attention := make_attention (UpSample.attention_args a);
           UpSample.upscaler :=
             [ConvTranspose (lead_arg (UpSample.dims a))
                (UpSample.channel_sequence a !!! 0%nat)
                (default 0 (last (UpSample.channel_sequence a))) 2 2;
              BatchNorm (lead_arg (UpSample.dims a))
                (default 0 (last (UpSample.channel_sequence a)));
              ReLU true]
             ++ (if UpSample.positive_rate (UpSample.up_drop_perc a)
                 then [Dropout (UpSample.up_drop_perc a)] else []);
           UpSample.conv := ConvSet_built (UpSample.conv_args a) |}.
Proof.
  unfold UpSample.init. intros H.
  destruct (ConvSet.init (UpSample.conv_args a)) as [c|e] eqn:E.
  - apply ConvSet_init_inv in E as [Hok ->]. split; [exact Hok|].
    destruct Hok as (Hc & _). unfold len in Hc. simpl in Hc.
    change 0 with (Z.of_nat 0) in H.
    rewrite !py_index_total, !py_index_last_total in H by lia.
    unfold lead_arg.
    destruct (UpSample.dims a <=? 3),
      (UpSample.positive_rate (UpSample.up_drop_perc a));
      simpl in H; injection H as <-; reflexivity.
  - exfalso.
    destruct (UpSample.dims a <=? 3);
      repeat (match type of H with
              | context [py_index ?l ?i] => destruct (py_index l i); simpl in H
              end);
      try discriminate;
      destruct (UpSample.positive_rate (UpSample.up_drop_perc a));
      simpl in H; discriminate.
Qed.


(** ** The monad of [forward] *)

Section MonadLaws.
Context {S A B C : Type}.

Lemma bind_ret_l (a : A) (f : A → M S B) (w : S) :
  bind (ret a) f w = f a w.
Proof. reflexivity. Qed.

Lemma bind_ret_r (m : M S A) (w : S) : bind m ret w = m w.
Proof. unfold bind, ret. destruct (m w) as [[a w']|e]; reflexivity. Qed.

Lemma bind_assoc (m : M S A) (f : A → M S B) (g : B → M S C) (w : S) :
  bind (bind m f) g w = bind m (fun x => bind (f x) g) w.
Proof. unfold bind. destruct (m w) as [[a w']|e]; reflexivity. Qed.

Lemma bind_ext (m : M S A) (f g : A → M S B) (w : S) :
  (∀ a w', f a w' = g a w') → bind m f w = bind m g w.
Proof. intros H. unfold bind. destruct (m w) as [[a w']|e]; [apply H | reflexivity]. Qed.

Lemma bind_Ok (m : M S A) (f : A → M S B) (w w1 : S) (a : A) :
  m w = Ok (a, w1) → bind m f w = f a w1.
Proof. intros H. unfold bind. by rewrite H. Qed.

Lemma bind_Raise (m : M S A) (f : A → M S B) (w : S) (e : exn) :
  m w = Raise e → bind m f w = Raise e.
Proof. intros H. unfold bind. by rewrite H. Qed.

Lemma bind_Ok_inv (m : M S A) (f : A → M S B) (w w2 : S) (b : B) :
  bind m f w = Ok (b, w2) →
  ∃ a w1, m w = Ok (a, w1) ∧ f a w1 = Ok (b, w2).
Proof.
  unfold bind. destruct (m w) as [[a w1]|e]; [|discriminate].
  intros H. by exists a, w1.
Qed.
End MonadLaws.

(** ** ConvSet: the residual branch *)

Section ConvSetForward.
Context {Tensor World : Type} {F : Framework Tensor World}.
Local Open Scope m_scope.

Lemma ConvSet_forward_residual (c : ConvSet.t) (batch : Tensor)
    (te : option Tensor) (w : World) :
  ConvSet.forward c batch te w
  = (run! chain := ConvSet.forward (without_residual c) batch te in
     if ConvSet.need_res c then ConvSet.add_residual c batch chain
     else ret chain) w.
Proof.
  unfold ConvSet.forward. simpl.
  repeat (rewrite bind_assoc; apply bind_ext; intros ? ?).
  reflexivity.
Qed.

Lemma ConvSet_forward_attention (c : ConvSet.t) (batch : Tensor)
    (te : option Tensor) (w : World) :
  ConvSet.forward c batch te w
  = (run! x := ConvSet.forward (without_attention c) batch te in
     run! y := match ConvSet.attention c with
               | Some a => self_attend a x
               | None => ret x
               end in
     if ConvSet.need_res c then ConvSet.add_residual c batch y
     else ret y) w.
Proof.
  unfold ConvSet.forward. simpl.
  repeat (rewrite bind_assoc; apply bind_ext; intros ? ?).
  reflexivity.
Qed.
End ConvSetForward.

(** C6: residual wiring is optional.  With [use_residual=True] the
    constructor builds [res_match], a kernel-size-1 convolution from
    [channel_sequence[0]] to [channel_sequence[-1]] with the constructor's
    stride followed by batch normalization, and [forward] returns
    [ReLU(chain + res_match(batch))], where [chain] is the output of the
    conv chain; with [use_residual=False] no residual branch is built and
    [forward] returns the output of the conv chain. *)
Theorem ConvSet_residual_wiring (a : ConvSet.args) (c : ConvSet.t) :
  ConvSet.init a = Ok c →
  (ConvSet.use_residual a = true →
     ∃ c_first c_last ld,
       ConvSet.channel_sequence a !! 0%nat = Some c_first
       ∧ last (ConvSet.channel_sequence a) = Some c_last
       ∧ ConvSet.res_match c
         = Some [Conv ld c_first c_last 1 None (ConvSet.stride a);
                 BatchNorm ld c_last]
       ∧ ConvSet.res_act c = Some (ReLU true)
       ∧ ∀ (Tensor World : Type) (F : Framework Tensor World)
           (batch : Tensor) (te : option Tensor) (w : World),
           ConvSet.forward c batch te w
           = (run! chain := ConvSet.forward (without_residual c) batch te in
              run! res := call_seq [Conv ld c_first c_last 1 None (ConvSet.stride a);
                                    BatchNorm ld c_last] batch in
              run! sum := pure_op (tensor_add chain res) in
              call (ReLU true) sum)%M w)
  ∧ (ConvSet.use_residual a = false →
     ConvSet.res_match c = None
     ∧ ConvSet.res_act c = None
     ∧ ∀ (Tensor World : Type) (F : Framework Tensor World)
         (batch : Tensor) (te : option Tensor) (w : World),
         ConvSet.forward c batch te w
         = ConvSet.forward (without_residual c) batch te w).
Proof.
  intros H. apply ConvSet_init_inv in H as [Hok ->].
  destruct Hok as (Hc & _). unfold len in Hc.
  split; intros Hres.
  - exists (ConvSet.channel_sequence a !!! 0%nat),
      (default 0 (last (ConvSet.channel_sequence a))),
      (lead_arg (ConvSet.dims a)).
    split; [apply list_lookup_lookup_total_lt; lia|].
    split.
    { destruct (last (ConvSet.channel_sequence a)) eqn:E; [reflexivity|].
      apply last_None in E. rewrite E in Hc. simpl in Hc. lia. }
    simpl. rewrite Hres. split; [reflexivity|]. split; [reflexivity|].
    intros Tensor World F batch te w.
    rewrite ConvSet_forward_residual. apply bind_ext. intros chain w'.
    unfold ConvSet.add_residual. simpl. rewrite Hres. reflexivity.
  - simpl. rewrite Hres. split; [reflexivity|]. split; [reflexivity|].
    intros Tensor World F batch te w.
    rewrite ConvSet_forward_residual. simpl. rewrite Hres.
    apply bind_ret_r.
Qed.

Lemma ConvSet_residual_wiring_witness :
  ConvSet.res_match (ConvSet_built (sample_args [3; 5; 5] false true))
  = Some [Conv None 3 5 1 None 1; BatchNorm None 5]
  ∧ ConvSet.forward (F := Symbolic)
      (ConvSet_built (sample_args [3; 5; 5] false true)) (Input "x") None 0%nat
    = Ok (TCall (ReLU true)
            (TAdd
               (TCall (ReLU true) (TCall (BatchNorm None 5)
                  (TCall (Conv None 5 5 3 (Some 1) 1)
                     (TCall (ReLU true) (TCall (BatchNorm None 5)
                        (TCall (Conv None 3 5 3 (Some 1) 1) (Input "x")))))))
               (TCall (BatchNorm None 5) (TCall (Conv None 3 5 1 None 1) (Input "x")))),
          9%nat).
Proof.
  destruct (ConvSet_residual_wiring (sample_args [3; 5; 5] false true)
              (ConvSet_built (sample_args [3; 5; 5] false true)))
    as [H _]; [vm_compute; reflexivity|].
  destruct (H eq_refl) as (c0 & cl & ld & H0 & Hl & Hm & _ & Hf).
  split; [reflexivity|].
  rewrite Hf. vm_compute in H0, Hl. injection H0 as <-. injection Hl as <-.
  vm_compute in Hm. injection Hm as <-.
  vm_compute. reflexivity.
Defined.

(** ** Total frameworks *)

Lemma returns_bind {S A B : Type} (m : M S A) (f : A → M S B) (w : S) :
  returns m w → (∀ a w', returns (f a) w') → returns (bind m f) w.
Proof.
  intros (a & w' & Hm) Hf. unfold returns. rewrite (bind_Ok _ _ _ _ _ Hm).
  apply Hf.
Qed.

Lemma returns_ret {S A : Type} (a : A) (w : S) : returns (ret a) w.
Proof. by exists a, w. Qed.

Lemma returns_stateful {S A : Type} (f : S → option (A * S)) (w : S) :
  is_Some (f w) → returns (stateful f) w.
Proof.
  intros [[a w'] H]. exists a, w'. unfold stateful. by rewrite H.
Qed.

Lemma returns_pure_op {S A : Type} (o : option A) (w : S) :
  is_Some o → returns (pure_op o) w.
Proof. intros [a ->]. by exists a, w. Qed.

Section Total.
Context {Tensor World : Type} {F : Framework Tensor World}.
Hypothesis Htotal : Framework_total F.

Lemma call_returns (l : Layer) (x : Tensor) (w : World) : returns (call l x) w.
Proof. apply returns_stateful, Htotal. Qed.

Lemma call_seq_returns (ls : Sequential) (x : Tensor) (w : World) :
  returns (call_seq ls x) w.
Proof.
  revert x w. induction ls as [|l ls IH]; intros x w; simpl.
  - apply returns_ret.
  - apply returns_bind; [apply call_returns | intros; apply IH].
Qed.

Lemma call_blocks_returns (bs : list Sequential) (x : Tensor) (w : World) :
  returns (call_blocks bs x) w.
Proof.
  revert x w. induction bs as [|b bs IH]; intros x w; simpl.
  - apply returns_ret.
  - apply returns_bind; [apply call_seq_returns | intros; apply IH].
Qed.

Lemma self_attend_returns (a : AttentionModule) (x : Tensor) (w : World) :
  returns (self_attend a x) w.
Proof.
  unfold self_attend.
  apply returns_bind; [apply returns_pure_op, Htotal|]. intros.
  apply returns_bind; [apply returns_stateful, Htotal|]. intros.
  apply returns_pure_op, Htotal.
Qed.

(** [forward] of a constructed [ConvSet] returns whenever it is given
    the time embedding it needs. *)
Lemma ConvSet_forward_returns (a : ConvSet.args) (batch : Tensor)
    (te : option Tensor) (w : World) :
  ConvSet_args_ok a →
  (ConvSet.use_time a = true → is_Some te) →
  returns (ConvSet.forward (ConvSet_built a) batch te) w.
Proof.
  intros (Hc & _) Hte. unfold len in Hc.
  unfold ConvSet.forward, ConvSet.add_time, ConvSet.add_residual. simpl.
  destruct (length (ConvSet.channel_sequence a) - 1)%nat as [|n] eqn:En; [lia|].
  simpl.
  apply returns_bind; [by eexists _, _|]. intros.
  apply returns_bind; [apply call_seq_returns|]. intros.
  apply returns_bind.
  { destruct (ConvSet.use_time a); [|apply returns_ret].
    destruct (Hte eq_refl) as [t ->].
    apply returns_bind; [apply (call_seq_returns (_ :: _))|]. intros.
    apply returns_bind; [apply returns_pure_op, Htotal|]. intros.
    apply returns_pure_op, Htotal. }
  intros. apply returns_bind; [apply call_blocks_returns|]. intros.
  apply returns_bind.
  { destruct (make_attention _); [apply self_attend_returns | apply returns_ret]. }
  intros. destruct (ConvSet.use_residual a); [|apply returns_ret].
  apply returns_bind; [apply (call_seq_returns (_ :: _))|]. intros.
  apply returns_bind; [apply returns_pure_op, Htotal|]. intros.
  apply call_returns.
Qed.
End Total.

Lemma Symbolic_total : Framework_total Symbolic.
Proof. repeat split; intros; simpl; by eexists. Qed.

(** ** ConvSet: the time embedding *)

Lemma ConvSet_forward_no_time {Tensor World : Type} {F : Framework Tensor World}
    (c : ConvSet.t) (first : Sequential) (batch : Tensor) (w : World) :
  ConvSet.conv_list c !! 0%nat = Some first →
  ConvSet.need_time c = true →
  ConvSet.forward c batch None w
  = match call_seq first batch w with
    | Ok _ => Raise AssertionError
    | Raise e => Raise e
    end.
Proof.
  intros H1 H2. unfold ConvSet.forward, module_at. rewrite H1, H2.
  unfold bind, lift_res, ConvSet.add_time, raise.
  destruct (call_seq first batch w) as [[y w1]|e]; reflexivity.
Qed.

(** C3: for every [ConvSet] built with [use_time=True], [forward] with
    [time_embed=None] runs the first convolution block and then raises
    [AssertionError]: it never returns, the projection of the time
    embedding is never run, and the error is [AssertionError] whenever the
    first block accepts the batch.  With [use_time=False], [forward]
    never looks at [time_embed]: its result is the one for
    [time_embed=None], and it returns whenever the framework's calls
    do. *)
Theorem ConvSet_time_assertion (a : ConvSet.args) (c : ConvSet.t) :
  ConvSet.init a = Ok c →
  (ConvSet.use_time a = true →
     ∃ first, ConvSet.conv_list c !! 0%nat = Some first
     ∧ ∀ (Tensor World : Type) (F : Framework Tensor World)
         (batch : Tensor) (w : World),
         ConvSet.forward c batch None w
         = match call_seq first batch w with
           | Ok _ => Raise AssertionError
           | Raise e => Raise e
           end
         ∧ (Framework_total F →
            ConvSet.forward c batch None w = Raise AssertionError))
  ∧ (ConvSet.use_time a = false →
     ∀ (Tensor World : Type) (F : Framework Tensor World)
       (batch : Tensor) (te : option Tensor) (w : World),
       ConvSet.forward c batch te w = ConvSet.forward c batch None w
       ∧ (Framework_total F → returns (ConvSet.forward c batch None) w)).
Proof.
  intros H. apply ConvSet_init_inv in H as [Hok ->].
  pose proof Hok as (Hc & _). unfold len in Hc.
  split; intros Htime.
  - exists (ConvSet_block a 0). split.
    { simpl. rewrite list_lookup_fmap, lookup_seq_lt by lia. reflexivity. }
    intros Tensor World F batch w.
    assert (ConvSet.forward (ConvSet_built a) batch None w
            = match call_seq (ConvSet_block a 0) batch w with
              | Ok _ => Raise AssertionError
              | Raise e => Raise e
              end) as Heq.
    { apply ConvSet_forward_no_time; [|exact Htime].
      simpl. rewrite list_lookup_fmap, lookup_seq_lt by lia. reflexivity. }
    split; [exact Heq|]. intros Htot. rewrite Heq.
    destruct (call_seq_returns Htot (ConvSet_block a 0) batch w) as (y & w1 & ->).
    reflexivity.
  - intros Tensor World F batch te w. split.
    + unfold ConvSet.forward. simpl. rewrite Htime. reflexivity.
    + intros Htot. apply ConvSet_forward_returns; [assumption.. |].
      rewrite Htime. discriminate.
Qed.

(** ** UNET and ResNet: what the constructors return *)

Lemma Res_bind_Ok_inv {A B : Type} (c : Res A) (k : A → Res B) (b : B) :
  Res_bind c k = Ok b → ∃ a, c = Ok a ∧ k a = Ok b.
Proof. destruct c as [a|e]; simpl; [|discriminate]. intros H. by exists a. Qed.

Tactic Notation "inv_res" hyp(H) "as" ident(x) ident(E) :=
  apply Res_bind_Ok_inv in H as (x & E & H).

Lemma UNET_init_inv (a : UNET.args) (u : UNET.t) (st : attn_args * attn_args) :
  UNET.init a = Ok (u, st) →
  ∃ downs neck up_attn ups,
    foldM (UNET.down_pass a) (py_range (len (UNET.channel_list a) - 1))
          ([], UNET.conv_attn_args a) = Ok downs
    ∧ foldM (UNET.up_pass a) (py_range_down (len (UNET.channel_list a) - 1) 0)
            ([], (up_attn, downs.2)) = Ok ups
    ∧ is_attn_args up_attn = is_attn_args (UNET.up_attn_args a)
    ∧ 2 <= len (UNET.channel_list a)
    ∧ UNET.need_denoise u = UNET.denoise_diff a
    ∧ UNET.time_embeds u
      = (if UNET.denoise_diff a
         then Some [DiffPosEmbeds (UNET.denoise_embed_count a) 10000;
                    Linear (UNET.denoise_embed_count a) (UNET.denoise_embed_count a);
                    ReLU true]
         else None)
    ∧ UNET.down_samplers u = downs.1
    ∧ UNET.bottle_neck u = neck
    ∧ ConvSet.attention neck = None
    ∧ UNET.bottle_neck_attn u = make_attention up_attn
    ∧ UNET.up_samplers u = ups.1
    ∧ st = ups.2.
Proof.
  unfold UNET.init. intros H.
  inv_res H as downs Edowns.
  inv_res H as b0 Eb0. inv_res H as b1 Eb1. inv_res H as b2 Eb2.
  inv_res H as neck Eneck.
  inv_res H as up_attn Eattn.
  inv_res H as ups Eups.
  injection H as <- <-.
  exists downs, neck, up_attn, ups. simpl.
  repeat split; try assumption; try reflexivity.
  3:{ apply ConvSet_init_inv in Eneck as [_ ->]. reflexivity. }
  - destruct (is_attn_args (UNET.up_attn_args a)) eqn:Ea.
    + inv_res Eattn as e Ee. inv_res Eattn as k Ek. inv_res Eattn as h Eh.
      injection Eattn as <-.
      destruct (UNET.up_attn_args a); simpl in *; congruence.
    + injection Eattn as <-. exact Ea.
  - apply py_index_inv in Eb0 as (n & Hn & Heq). simpl in Heq.
    apply lookup_lt_Some in Hn. unfold len in *. lia.
Qed.

Lemma ResNet_init_time (a : ResNet.args) (r : ResNet.t) (s s' : build_state) :
  ResNet.init a s = Ok (r, s') →
  ResNet.need_denoise r = ResNet.denoise_diff a
  ∧ ResNet.time_embeds r
    = (if ResNet.denoise_diff a
       then Some [DiffPosEmbeds (ResNet.arg_denoise_embed_count a) 10000;
                  Linear (ResNet.arg_denoise_embed_count a)
                         (ResNet.arg_denoise_embed_count a);
                  ReLU true]
       else None).
Proof.
  unfold ResNet.init. intros H.
  apply bind_Ok_inv in H as (? & s1 & _ & H).
  apply bind_Ok_inv in H as (st & s2 & _ & H).
  unfold ret in H. injection H as <- _. split; reflexivity.
Qed.

(** ** Time conditioning is optional *)

(** C2: a [UNET] and a [ResNet] built with [denoise_diff=False] have no
    time-embedding module, and the result of [forward] (output and
    framework state, or the exception) is the same for any two values of
    [time_step], from the same framework state and on the same batch. *)
Theorem time_step_ignored_without_denoise :
  (∀ (a : UNET.args) (u : UNET.t) st,
     UNET.init a = Ok (u, st) → UNET.denoise_diff a = false →
     UNET.time_embeds u = None
     ∧ ∀ (Tensor World : Type) (F : Framework Tensor World)
         (batch : Tensor) (time_step1 time_step2 : option Tensor) (w : World),
         UNET.forward u batch time_step1 w = UNET.forward u batch time_step2 w)
  ∧ (∀ (a : ResNet.args) (r : ResNet.t) (s s' : build_state),
     ResNet.init a s = Ok (r, s') → ResNet.denoise_diff a = false →
     ResNet.time_embeds r = None
     ∧ ∀ (Tensor World : Type) (F : Framework Tensor World)
         (batch : Tensor) (time_step1 time_step2 : option Tensor) (w : World),
         ResNet.forward r batch time_step1 w = ResNet.forward r batch time_step2 w).
Proof.
  split.
  - intros a u st H Hd.
    apply UNET_init_inv in H
      as (downs & neck & up_attn & ups & _ & _ & _ & _ & Hneed & Htime & _).
    rewrite Hd in Hneed, Htime. split; [exact Htime|].
    intros Tensor World F batch t1 t2 w.
    unfold UNET.forward, UNET.get_time_embed. rewrite Hneed. reflexivity.
  - intros a r s s' H Hd.
    apply ResNet_init_time in H as [Hneed Htime].
    rewrite Hd in Hneed, Htime. split; [exact Htime|].
    intros Tensor World F batch t1 t2 w.
    unfold ResNet.forward, ResNet.get_time_embed. rewrite Hneed. reflexivity.
Qed.

(** ** Loops that build a network *)

Lemma foldM_app {A St : Type} (step : St → A → Res St) (xs ys : list A) (st : St) :
  foldM step (xs ++ ys) st = Res_bind (foldM step xs st) (foldM step ys).
Proof.
  revert st. induction xs as [|x xs IH]; intros st; simpl; [reflexivity|].
  destruct (step st x) as [st'|e]; simpl; [apply IH | reflexivity].
Qed.

(** A loop whose passes each append one module: the modules built are in
    the order of the loop, one for each pass. *)
Lemma foldM_collect {A St B : Type} (step : St → A → Res St)
    (proj : St → list B) (I : St → Prop) (Q : A → B → Prop) (xs : list A) :
  (∀ st x st', x ∈ xs → I st → step st x = Ok st' →
     I st' ∧ ∃ b, proj st' = proj st ++ [b] ∧ Q x b) →
  ∀ st st', I st → foldM step xs st = Ok st' →
    I st' ∧ ∃ bs, proj st' = proj st ++ bs ∧ Forall2 Q xs bs.
Proof.
  induction xs as [|x xs IH]; intros Hstep st st' HI H; simpl in H.
  - injection H as <-. split; [exact HI|]. exists []. split.
    + by rewrite app_nil_r.
    + constructor.
  - apply Res_bind_Ok_inv in H as (st1 & E & H).
    destruct (Hstep st x st1) as (HI1 & b & Hb & HQ);
      [by constructor | exact HI | exact E |].
    destruct (IH (fun s y s' Hy => Hstep s y s' (list_elem_of_further _ _ _ Hy))
                st1 st' HI1 H) as (HI' & bs & Hbs & HQs).
    split; [exact HI'|]. exists (b :: bs). split.
    + rewrite Hbs, Hb, <- app_assoc. reflexivity.
    + by constructor.
Qed.

Lemma foldM_total {A St : Type} (step : St → A → Res St) (xs : list A) :
  (∀ st x, x ∈ xs → ∃ st', step st x = Ok st') →
  ∀ st, ∃ st', foldM step xs st = Ok st'.
Proof.
  induction xs as [|x xs IH]; intros Hstep st; simpl.
  - by exists st.
  - destruct (Hstep st x) as [st1 ->]; [by constructor|]. simpl.
    apply IH. intros s y Hy. apply Hstep. by constructor.
Qed.

Lemma py_index_3_first (x y z : Z) : py_index [x; y; z] 0 = Ok x.
Proof. reflexivity. Qed.

Lemma py_index_3_last (x y z : Z) : py_index [x; y; z] (-1) = Ok z.
Proof. reflexivity. Qed.

Lemma is_attn_args_set (x : attn_args) (e k h : Z) :
  is_attn_args (set_attn_channels x e k h) = is_attn_args x.
Proof. by destruct x. Qed.

Lemma make_attention_is_Some (x : attn_args) :
  is_attn_args x = true → is_Some (make_attention x).
Proof. destruct x; simpl; intros H; try discriminate; by eexists. Qed.

Lemma make_attention_None (x : attn_args) :
  is_attn_args x = false → make_attention x = None.
Proof. destruct x; simpl; intros H; try discriminate; reflexivity. Qed.

(** [prepare_conv_attn] on a three-channel sequence. *)
Lemma prepare_conv_attn_3 (attn : attn_args) (x y z : Z) :
  prepare_conv_attn attn [x; y; z]
  = Ok (if is_attn_args attn
        then (set_attn_channels attn z z (z / 2),
              set_attn_channels attn z z (z / 2))
        else (attn, ArgNone)).
Proof.
  unfold prepare_conv_attn. destruct (is_attn_args attn); [|reflexivity].
  rewrite !py_index_3_last. reflexivity.
Qed.

Lemma three_channels_ok (a : ConvSet.args) (x y z : Z) :
  ConvSet.channel_sequence a = [x; y; z] →
  ConvSet.kernel_sequence a = [3; 3] →
  ConvSet.padding_sequence a = [1; 1] →
  ConvSet_args_ok a.
Proof.
  intros Hc Hk Hp. unfold ConvSet_args_ok, len. rewrite Hc, Hk, Hp. simpl. lia.
Qed.

Lemma DownSample_init_built (a : DownSample.args) :
  ConvSet_args_ok (DownSample.conv_args a) →
  DownSample.init a
  = Ok {| DownSample.conv := ConvSet_built (DownSample.conv_args a);
          DownSample.pool := MaxPool (lead_arg (DownSample.dims a)) 2 2 |}.
Proof.
  intros Hok. unfold DownSample.init. rewrite (ConvSet_init_built _ Hok).
  simpl. unfold lead_arg. destruct (DownSample.dims a <=? 3); reflexivity.
Qed.

Lemma UpSample_init_returns (a : UpSample.args) :
  ConvSet_args_ok (UpSample.conv_args a) → ∃ u, UpSample.init a = Ok u.
Proof.
  intros Hok. unfold UpSample.init. rewrite (ConvSet_init_built _ Hok).
  destruct Hok as (Hc & _). unfold len in Hc. simpl in Hc.
  change 0 with (Z.of_nat 0).
  rewrite !py_index_total, !py_index_last_total by lia.
  destruct (UpSample.dims a <=? 3); simpl; by eexists.
Qed.

Lemma create_downsampler_returns (a : UNET.args) (x y z : Z) (attn : attn_args) :
  ∃ r, UNET.create_downsampler a [x; y; z] attn = Ok r.
Proof.
  unfold UNET.create_downsampler. rewrite prepare_conv_attn_3. simpl.
  rewrite DownSample_init_built; [by eexists|].
  by apply (three_channels_ok _ x y z).
Qed.

Lemma create_upsampler_returns (a : UNET.args) (x y z i : Z)
    (up_attn conv_attn : attn_args) :
  ∃ r, UNET.create_upsampler a [x; y; z] i up_attn conv_attn = Ok r.
Proof.
  unfold UNET.create_upsampler.
  rewrite py_index_3_first, !py_index_3_last, prepare_conv_attn_3.
  destruct (is_attn_args up_attn && (1 <? i)); simpl.
  all: match goal with
       | |- context [UpSample.init ?args] =>
           destruct (UpSample_init_returns args) as [u ->];
           [by apply (three_channels_ok _ x y z) | by eexists]
       end.
Qed.

Lemma down_pass_returns (a : UNET.args) (st : list DownSample.t * attn_args) (i : Z) :
  0 <= i < len (UNET.channel_list a) - 1 →
  ∃ st', UNET.down_pass a st i = Ok st'.
Proof.
  intros Hi. unfold UNET.down_pass, len in *.
  assert (∃ c, py_index (UNET.channel_list a) i = Ok c) as [c Hc].
  { exists (UNET.channel_list a !!! Z.to_nat i).
    rewrite <- (Z2Nat.id i) at 1 by lia. apply py_index_total. lia. }
  assert (∃ c0, (if i =? 0 then Ok (UNET.in_channels a)
                 else py_index (UNET.channel_list a) (i - 1)) = Ok c0) as [c0 Hc0].
  { destruct (Z.eqb_spec i 0); [by eexists|].
    exists (UNET.channel_list a !!! Z.to_nat (i - 1)).
    rewrite <- (Z2Nat.id (i - 1)) at 1 by lia. apply py_index_total. lia. }
  rewrite Hc0, Hc. simpl.
  destruct (create_downsampler_returns a c0 c c st.2) as [r ->]. by eexists.
Qed.

Lemma up_pass_returns (a : UNET.args)
    (st : list UpSample.t * (attn_args * attn_args)) (i : Z) :
  1 <= i <= len (UNET.channel_list a) - 1 →
  ∃ st', UNET.up_pass a st i = Ok st'.
Proof.
  intros Hi. unfold UNET.up_pass, len in *.
  assert (∃ c, py_index (UNET.channel_list a) i = Ok c) as [c Hc].
  { exists (UNET.channel_list a !!! Z.to_nat i).
    rewrite <- (Z2Nat.id i) at 1 by lia. apply py_index_total. lia. }
  assert (∃ c1, py_index (UNET.channel_list a) (i - 1) = Ok c1) as [c1 Hc1].
  { exists (UNET.channel_list a !!! Z.to_nat (i - 1)).
    rewrite <- (Z2Nat.id (i - 1)) at 1 by lia. apply py_index_total. lia. }
  rewrite Hc, Hc1. simpl.
  destruct (create_upsampler_returns a c c1 c1 i st.2.1 st.2.2) as [r ->].
  by eexists.
Qed.

Lemma elem_of_py_range_down (start stop i : Z) :
  i ∈ py_range_down start stop ↔ stop < i <= start.
Proof.
  unfold py_range_down. rewrite list_elem_of_fmap. split.
  - intros (k & -> & Hk). apply elem_of_seq in Hk. lia.
  - intros H. exists (Z.to_nat (start - i)). split; [lia|].
    apply elem_of_seq. lia.
Qed.

Lemma length_py_range_down (start stop : Z) :
  length (py_range_down start stop) = Z.to_nat (start - stop).
Proof. unfold py_range_down. by rewrite length_fmap, length_seq. Qed.

Lemma lookup_py_range_down (start stop : Z) (k : nat) :
  (k < Z.to_nat (start - stop))%nat →
  py_range_down start stop !! k = Some (start - Z.of_nat k).
Proof.
  intros H. unfold py_range_down. rewrite list_lookup_fmap.
  rewrite lookup_seq_lt by assumption. reflexivity.
Qed.

Lemma has_module_make_attention (x : attn_args) :
  has_module (make_attention x) = is_attn_args x.
Proof. by destruct x. Qed.

(** One pass of the down loop appends one [DownSample], whose [ConvSet]
    has an attention module exactly when [conv_attn_args] is a [dict] or
    an [AttentionArgs]. *)
Lemma down_pass_inv (a : UNET.args) (st st' : list DownSample.t * attn_args) (i : Z) :
  UNET.down_pass a st i = Ok st' →
  is_attn_args st'.2 = is_attn_args st.2
  ∧ ∃ d, st'.1 = st.1 ++ [d]
      ∧ has_module (ConvSet.attention (DownSample.conv d)) = is_attn_args st.2.
Proof.
  unfold UNET.down_pass. intros H.
  inv_res H as c0 E0. inv_res H as c1 E1. inv_res H as c2 E2.
  inv_res H as r Er. injection H as <-. simpl.
  unfold UNET.create_downsampler in Er. rewrite prepare_conv_attn_3 in Er.
  simpl in Er. inv_res Er as d Ed. injection Er as <-.
  apply DownSample_init_inv in Ed as [_ ->]. simpl.
  split.
  - destruct (is_attn_args st.2) eqn:Ea; simpl; [|exact Ea].
    by rewrite is_attn_args_set.
  - eexists. split; [reflexivity|]. simpl.
    rewrite has_module_make_attention.
    destruct (is_attn_args st.2) eqn:Ea; simpl; [|reflexivity].
    by rewrite is_attn_args_set.
Qed.

(** One pass of the up loop appends one [UpSample]; it has a gate exactly
    when [up_attn_args] is a [dict] or an [AttentionArgs] and
    [cur_index > 1]. *)
Lemma up_pass_inv (a : UNET.args)
    (st st' : list UpSample.t * (attn_args * attn_args)) (i : Z) :
  UNET.up_pass a st i = Ok st' →
  is_attn_args st'.2.1 = is_attn_args st.2.1
  ∧ is_attn_args st'.2.2 = is_attn_args st.2.2
  ∧ ∃ u, st'.1 = st.1 ++ [u]
      ∧ (∃ cur_seq, UNET.create_upsampler a cur_seq i st.2.1 st.2.2 = Ok (u, st'.2))
      ∧ has_module (UpSample.attention u) = is_attn_args st.2.1 && (1 <? i)
      ∧ has_module (ConvSet.attention (UpSample.conv u)) = is_attn_args st.2.2.
Proof.
  unfold UNET.up_pass. intros H.
  inv_res H as c0 E0. inv_res H as c1 E1. inv_res H as c2 E2.
  inv_res H as r Er. injection H as <-. simpl.
  pose proof Er as Er0.
  unfold UNET.create_upsampler in Er.
  rewrite py_index_3_first, !py_index_3_last, prepare_conv_attn_3 in Er.
  inv_res Er as gate Eg. simpl in Er. inv_res Er as u Eu.
  injection Er as Er. rewrite <- Er in Er0 |- *. clear Er r.
  apply UpSample_init_inv in Eu as [_ ->]. simpl.
  assert (is_attn_args gate.1 = is_attn_args st.2.1
          ∧ is_attn_args gate.2 = is_attn_args st.2.1 && (1 <? i)) as [Hg1 Hg2].
  { destruct (is_attn_args st.2.1 && (1 <? i)) eqn:Eb;
      simpl in Eg; injection Eg as <-; simpl.
    - rewrite is_attn_args_set. apply andb_true_iff in Eb as [-> _]. by split.
    - by split. }
  split; [exact Hg1|].
  split.
  { destruct (is_attn_args st.2.2) eqn:Ea; simpl; [|exact Ea].
    by rewrite is_attn_args_set. }
  eexists. split; [reflexivity|].
  split; [eexists; exact Er0|]. simpl.
  rewrite !has_module_make_attention.
  split; [exact Hg2|].
  destruct (is_attn_args st.2.2) eqn:Ea; simpl; [|reflexivity].
  by rewrite is_attn_args_set.
Qed.

(** The constructor of [UNET] returns for every channel list of length at
    least two. *)
Lemma UNET_init_returns (a : UNET.args) :
  2 <= len (UNET.channel_list a) → ∃ r, UNET.init a = Ok r.
Proof.
  intros HL. unfold UNET.init.
  destruct (foldM_total (UNET.down_pass a)
              (py_range (len (UNET.channel_list a) - 1))) with (st := ([] : list DownSample.t, UNET.conv_attn_args a))
    as [downs ->].
  { intros st i Hi. apply elem_of_py_range in Hi. by apply down_pass_returns. }
  simpl. unfold len in HL.
  rewrite (py_index_from_end _ 1 (UNET.channel_list a !!! (length (UNET.channel_list a) - 2)%nat))
    by (try apply list_lookup_lookup_total_lt; lia).
  rewrite !py_index_last_total by lia. simpl.
  rewrite ConvSet_init_built by (by eapply three_channels_ok). simpl.
  assert (∃ up_attn,
    (if is_attn_args (UNET.up_attn_args a)
     then Ok (set_attn_channels (UNET.up_attn_args a)
                (default 0 (last (UNET.channel_list a)))
                (default 0 (last (UNET.channel_list a)))
                (default 0 (last (UNET.channel_list a)) / 2))
     else Ok (UNET.up_attn_args a)) = Ok up_attn) as [up_attn ->].
  { destruct (is_attn_args (UNET.up_attn_args a)); by eexists. }
  simpl.
  destruct (foldM_total (UNET.up_pass a)
              (py_range_down (len (UNET.channel_list a) - 1) 0))
    with (st := ([] : list UpSample.t, (up_attn, downs.2)))
    as [ups ->].
  { intros st i Hi. apply elem_of_py_range_down in Hi. apply up_pass_returns. lia. }
  simpl. by eexists.
Qed.

(** The modules of a constructed [UNET], stage by stage: the down
    samplers are built for [i = 0 .. L-2], the up samplers for
    [cur_index = L-1 .. 1]. *)
Lemma UNET_init_structure (a : UNET.args) (u : UNET.t) st :
  UNET.init a = Ok (u, st) →
  Forall2 (fun (i : Z) d =>
             has_module (ConvSet.attention (DownSample.conv d))
             = is_attn_args (UNET.conv_attn_args a))
          (py_range (len (UNET.channel_list a) - 1)) (UNET.down_samplers u)
  ∧ Forall2 (UNET_up_stage a)
            (py_range_down (len (UNET.channel_list a) - 1) 0)
            (UNET.up_samplers u)
  ∧ has_module (UNET.bottle_neck_attn u) = is_attn_args (UNET.up_attn_args a)
  ∧ ConvSet.attention (UNET.bottle_neck u) = None.
Proof.
  intros H.
  apply UNET_init_inv in H
    as (downs & neck & up_attn & ups & Hd & Hu & Hup & _ & _ & _ & -> & -> & Hn
        & -> & -> & _).
  eapply (foldM_collect _ fst
            (fun s => is_attn_args s.2 = is_attn_args (UNET.conv_attn_args a))
            (fun (i : Z) d =>
               has_module (ConvSet.attention (DownSample.conv d))
               = is_attn_args (UNET.conv_attn_args a))) in Hd;
    [| |reflexivity].
  2:{ intros s i s' _ HI Hs. apply down_pass_inv in Hs as (Hs1 & d & Hs2 & Hs3).
      split; [congruence|]. exists d. split; [exact Hs2 | congruence]. }
  destruct Hd as (Hd2 & ds & Hds & HQd). simpl in Hds. rewrite Hds.
  eapply (foldM_collect _ fst
            (fun s => is_attn_args s.2.1 = is_attn_args (UNET.up_attn_args a)
                      ∧ is_attn_args s.2.2 = is_attn_args (UNET.conv_attn_args a))
            (UNET_up_stage a)) in Hu;
    [| |by split].
  2:{ intros s i s' _ [HI1 HI2] Hs.
      apply up_pass_inv in Hs as (Hs1 & Hs2 & us & Hs3 & [cur_seq Hs6] & Hs4 & Hs5).
      split; [split; congruence|]. exists us.
      split; [exact Hs3|]. unfold UNET_up_stage.
      split; [by eexists _, _, _, _|]. split; congruence. }
  destruct Hu as (_ & us & Hus & HQu). simpl in Hus. rewrite Hus.
  split; [exact HQd|]. split; [exact HQu|]. split; [|exact Hn].
  rewrite has_module_make_attention. exact Hup.
Qed.

Lemma UNET_init_lengths (a : UNET.args) (u : UNET.t) st :
  UNET.init a = Ok (u, st) →
  len (UNET.down_samplers u) = len (UNET.channel_list a) - 1
  ∧ len (UNET.up_samplers u) = len (UNET.channel_list a) - 1.
Proof.
  intros H. pose proof (UNET_init_structure _ _ _ H) as (Hd & Hu & _).
  apply UNET_init_inv in H as (_ & _ & _ & _ & _ & _ & _ & HL & _).
  apply Forall2_length in Hd, Hu.
  rewrite length_py_range in Hd. rewrite length_py_range_down in Hu.
  unfold len in *. lia.
Qed.

(** ** The gate of the topmost up sampler *)

(** C10: in a [UNET] built with [up_attn_args] a [dict] or an
    [AttentionArgs], the up sampler at position [k] of [up_samplers] is
    the one built with [cur_index = L - 1 - k]; the last one, built with
    [cur_index == 1] and applied last by [forward], has no gate
    ([attention] is [None]), and every one built with [cur_index > 1] has
    an [Attention] module as its gate. *)
Theorem UNET_topmost_upsampler_ungated (a : UNET.args) (u : UNET.t) st :
  UNET.init a = Ok (u, st) →
  is_attn_args (UNET.up_attn_args a) = true →
  (∃ top, last (UNET.up_samplers u) = Some top
     ∧ UpSample.attention top = None
     ∧ ∃ cur_seq up_attn conv_attn r,
         UNET.create_upsampler a cur_seq 1 up_attn conv_attn = Ok (top, r))
  ∧ ∀ (k : nat) (us : UpSample.t),
      UNET.up_samplers u !! k = Some us →
      ∃ cur_index, cur_index = len (UNET.channel_list a) - 1 - Z.of_nat k
        ∧ 1 <= cur_index
        ∧ (∃ cur_seq up_attn conv_attn r,
             UNET.create_upsampler a cur_seq cur_index up_attn conv_attn
             = Ok (us, r))
        ∧ (cur_index = 1 → UpSample.attention us = None)
        ∧ (1 < cur_index → ∃ m, UpSample.attention us = Some m).
Proof.
  intros H Hattn.
  pose proof (UNET_init_structure _ _ _ H) as (_ & Hu & _).
  pose proof (UNET_init_lengths _ _ _ H) as (_ & Hlen).
  apply UNET_init_inv in H as (_ & _ & _ & _ & _ & _ & _ & HL & _).
  unfold len in *.
  assert (∀ (k : nat) us, UNET.up_samplers u !! k = Some us →
            UNET_up_stage a (Z.of_nat (length (UNET.channel_list a)) - 1 - Z.of_nat k) us
            ∧ (k < length (UNET.up_samplers u))%nat) as Hstage.
  { intros k us Hk. pose proof (lookup_lt_Some _ _ _ Hk) as Hlt.
    split; [|exact Hlt].
    destruct (Forall2_lookup_r _ _ _ _ _ Hu Hk) as (i & Hi & HQ).
    rewrite lookup_py_range_down in Hi by lia.
    injection Hi as <-. exact HQ. }
  split.
  - destruct (UNET.up_samplers u !! (length (UNET.up_samplers u) - 1)%nat)
      as [top|] eqn:Etop.
    2:{ apply lookup_ge_None in Etop. lia. }
    exists top. split.
    { rewrite last_lookup.
      replace (Nat.pred (length (UNET.up_samplers u)))
        with (length (UNET.up_samplers u) - 1)%nat by lia.
      exact Etop. }
    destruct (Hstage _ _ Etop) as ((Hbuilt & Hgate & _) & _).
    replace (Z.of_nat (length (UNET.channel_list a)) - 1
             - Z.of_nat (length (UNET.up_samplers u) - 1)) with 1 in * by lia.
    split; [|exact Hbuilt].
    rewrite Hattn in Hgate. simpl in Hgate.
    destruct (UpSample.attention top); [discriminate | reflexivity].
  - intros k us Hk. destruct (Hstage _ _ Hk) as ((Hbuilt & Hgate & _) & Hlt).
    eexists. split; [reflexivity|]. split; [lia|]. split; [exact Hbuilt|].
    rewrite Hattn in Hgate. simpl in Hgate. split; intros Hc.
    + rewrite Hc in Hgate. simpl in Hgate.
      destruct (UpSample.attention us); [discriminate | reflexivity].
    + destruct (Z.ltb_spec 1 (Z.of_nat (length (UNET.channel_list a)) - 1
                                - Z.of_nat k)); [|lia].
      destruct (UpSample.attention us) as [m|]; [by exists m | discriminate].
Qed.

(** ** Attention *)

Lemma bind_cong {S A B : Type} (m1 m2 : M S A) (k1 k2 : A → M S B) (w : S) :
  m1 w = m2 w → (∀ a w', k1 a w' = k2 a w') → bind m1 k1 w = bind m2 k2 w.
Proof.
  intros Hm Hk. unfold bind. rewrite Hm.
  destruct (m2 w) as [[a w']|e]; [apply Hk | reflexivity].
Qed.

Lemma loopM_cong {World A St : Type} (step1 step2 : A → St → M World St)
    (ms : list A) (st : St) (w : World) :
  (∀ m s w', m ∈ ms → step1 m s w' = step2 m s w') →
  loopM step1 ms st w = loopM step2 ms st w.
Proof.
  revert st w. induction ms as [|m ms IH]; intros st w H; simpl; [reflexivity|].
  apply bind_cong; [apply H; by constructor|].
  intros s w'. apply IH. intros m' s' w'' Hm. apply H. by constructor.
Qed.

(** Modules without attention do not depend on what attention computes. *)
Section WithoutAttention.
Context {Tensor World : Type} (F : Framework Tensor World).
Variable att : AttentionModule → Tensor → option Tensor → World
               → option (Tensor * World).

Lemma call_seq_with_attention (ls : Sequential) (x : Tensor) (w : World) :
  call_seq (F := with_attention F att) ls x w = call_seq (F := F) ls x w.
Proof.
  revert x w. induction ls as [|l ls IH]; intros x w; simpl; [reflexivity|].
  apply bind_cong; [reflexivity | intros; apply IH].
Qed.

Lemma call_blocks_with_attention (bs : list Sequential) (x : Tensor) (w : World) :
  call_blocks (F := with_attention F att) bs x w = call_blocks (F := F) bs x w.
Proof.
  revert x w. induction bs as [|b bs IH]; intros x w; simpl; [reflexivity|].
  apply bind_cong; [apply call_seq_with_attention | intros; apply IH].
Qed.

Lemma call_opt_seq_with_attention (m : option Sequential) (x : Tensor) (w : World) :
  call_opt_seq (F := with_attention F att) m x w = call_opt_seq (F := F) m x w.
Proof. destruct m; [apply call_seq_with_attention | reflexivity]. Qed.

Lemma call_seq_arg_with_attention (ls : Sequential) (x : option Tensor) (w : World) :
  call_seq_arg (F := with_attention F att) ls x w = call_seq_arg (F := F) ls x w.
Proof.
  destruct x as [t|]; simpl.
  - apply bind_cong; [apply call_seq_with_attention | reflexivity].
  - destruct ls as [|l ls]; [reflexivity|].
    apply bind_cong; [reflexivity|]. intros y w'.
    apply bind_cong; [apply call_seq_with_attention | reflexivity].
Qed.

Lemma ConvSet_forward_with_attention (c : ConvSet.t) (batch : Tensor)
    (te : option Tensor) (w : World) :
  ConvSet.attention c = None →
  ConvSet.forward (F := with_attention F att) c batch te w
  = ConvSet.forward (F := F) c batch te w.
Proof.
  intros Hnone. unfold ConvSet.forward. rewrite Hnone.
  apply bind_cong; [reflexivity|]. intros first w1.
  apply bind_cong; [apply call_seq_with_attention|]. intros y w2.
  apply bind_cong.
  { destruct (ConvSet.need_time c); [|reflexivity].
    unfold ConvSet.add_time. destruct te as [t|]; [|reflexivity].
    apply bind_cong; [apply call_opt_seq_with_attention | reflexivity]. }
  intros z w3.
  apply bind_cong; [apply call_blocks_with_attention|]. intros v w4.
  apply bind_cong; [reflexivity|]. intros v' w5.
  destruct (ConvSet.need_res c); [|reflexivity].
  unfold ConvSet.add_residual.
  apply bind_cong; [apply call_opt_seq_with_attention | reflexivity].
Qed.

Lemma DownSample_forward_with_attention (d : DownSample.t) (batch : Tensor)
    (te : option Tensor) (w : World) :
  ConvSet.attention (DownSample.conv d) = None →
  DownSample.forward (F := with_attention F att) d batch te w
  = DownSample.forward (F := F) d batch te w.
Proof.
  intros Hnone. unfold DownSample.forward.
  apply bind_cong; [by apply ConvSet_forward_with_attention | reflexivity].
Qed.

Lemma UpSample_forward_with_attention (u : UpSample.t) (cur skip : Tensor)
    (te : option Tensor) (w : World) :
  UpSample.attention u = None →
  ConvSet.attention (UpSample.conv u) = None →
  UpSample.forward (F := with_attention F att) u cur skip te w
  = UpSample.forward (F := F) u cur skip te w.
Proof.
  intros Hgate Hnone. unfold UpSample.forward. rewrite Hgate.
  apply bind_cong; [reflexivity|]. intros s w1.
  apply bind_cong; [apply call_seq_with_attention|]. intros y w2.
  apply bind_cong; [reflexivity|]. intros z w3.
  by apply ConvSet_forward_with_attention.
Qed.

Lemma UNET_forward_with_attention (u : UNET.t) (batch : Tensor)
    (time_step : option Tensor) (w : World) :
  UNET_attention_free u →
  UNET.forward (F := with_attention F att) u batch time_step w
  = UNET.forward (F := F) u batch time_step w.
Proof.
  intros (Hneck_attn & Hneck & Hdowns & Hups). unfold UNET.forward.
  rewrite Hneck_attn.
  apply bind_cong; [reflexivity|]. intros x w1.
  apply bind_cong.
  { unfold UNET.get_time_embed. destruct (UNET.need_denoise u); [|reflexivity].
    destruct (UNET.time_embeds u); [|reflexivity].
    apply call_seq_arg_with_attention. }
  intros te w2.
  apply bind_cong.
  { apply loopM_cong. intros d s w' Hd. unfold UNET.down_step.
    apply bind_cong; [|reflexivity].
    apply DownSample_forward_with_attention.
    rewrite Forall_forall in Hdowns. by apply Hdowns. }
  intros st w3.
  apply bind_cong; [by apply ConvSet_forward_with_attention|]. intros y w4.
  apply bind_cong; [reflexivity|]. intros z w5.
  apply bind_cong; [|reflexivity].
  apply loopM_cong. intros us s w' Hus. unfold UNET.up_step.
  apply bind_cong; [reflexivity|]. intros p w6.
  apply bind_cong; [|reflexivity].
  rewrite Forall_forall in Hups. destruct (Hups us Hus) as [Hg Hc].
  by apply UpSample_forward_with_attention.
Qed.
End WithoutAttention.



(** ** Skip connections *)

Lemma bind_cong_Ok {S A B : Type} (m1 m2 : M S A) (k1 k2 : A → M S B) (w : S) :
  m1 w = m2 w →
  (∀ a w', m2 w = Ok (a, w') → k1 a w' = k2 a w') →
  bind m1 k1 w = bind m2 k2 w.
Proof.
  intros Hm Hk. unfold bind. rewrite Hm.
  destruct (m2 w) as [[a w']|e]; [by apply Hk | reflexivity].
Qed.

Lemma py_pop_snoc {A : Type} (l : list A) (x : A) :
  py_pop (l ++ [x]) = Ok (x, l).
Proof. unfold py_pop. by rewrite last_snoc, removelast_last. Qed.

Lemma snoc_of_length {A : Type} (l : list A) (n : nat) :
  length l = S n → ∃ l' x, l = l' ++ [x] ∧ length l' = n.
Proof.
  intros H. destruct l as [|y l] using rev_ind; [discriminate|].
  exists l, y. split; [reflexivity|]. rewrite length_app in H. simpl in H. lia.
Qed.

Section SkipWiringFacts.
Context {Tensor World : Type} {F : Framework Tensor World}.
Local Open Scope m_scope.

Lemma encoder_run_length (te : option Tensor) (ds : list DownSample.t)
    (x y : Tensor) (w w' : World) (skips : list Tensor) :
  encoder_run te ds x w skips y w' → length skips = length ds.
Proof. induction 1; simpl; congruence. Qed.

(** The skip stored by stage [i] is the output of that stage's
    convolution set on the stage's input. *)
Lemma encoder_run_lookup (te : option Tensor) (ds : list DownSample.t)
    (x y : Tensor) (w w' : World) (skips : list Tensor) :
  encoder_run te ds x w skips y w' →
  ∀ (i : nat) (d : DownSample.t), ds !! i = Some d →
    ∃ x_i w_i skip pooled w_c w_p,
      skips !! i = Some skip
      ∧ ConvSet.forward (DownSample.conv d) x_i te w_i = Ok (skip, w_c)
      ∧ call (DownSample.pool d) skip w_c = Ok (pooled, w_p)
      ∧ DownSample.forward d x_i te w_i = Ok ((skip, pooled), w_p).
Proof.
  induction 1 as [|d0 ds x conv_out pooled y w w1 w2 w3 skips Hc Hp Hf Hrun IH];
    intros i d Hi.
  - discriminate.
  - destruct i as [|i]; simpl in Hi.
    + injection Hi as <-. by exists x, w, conv_out, pooled, w1, w2.
    + destruct (IH i d Hi) as (x_i & w_i & skip & p & w_c & w_p & H1 & H2).
      by exists x_i, w_i, skip, p, w_c, w_p.
Qed.

Lemma down_loop_run (te : option Tensor) (ds : list DownSample.t)
    (skips0 skips : list Tensor) (x y : Tensor) (w w' : World) :
  loopM (UNET.down_step te) ds (skips0, x) w = Ok ((skips, y), w') →
  ∃ outs, skips = skips0 ++ outs ∧ encoder_run te ds x w outs y w'.
Proof.
  revert skips0 x w. induction ds as [|d ds IH]; intros skips0 x w H.
  - simpl in H. injection H as <- <- <-. exists [].
    split; [by rewrite app_nil_r | constructor].
  - simpl in H. apply bind_Ok_inv in H as (st1 & w1 & Hstep & Hloop).
    unfold UNET.down_step in Hstep. simpl in Hstep.
    apply bind_Ok_inv in Hstep as ([conv_out pooled] & w2 & Hf & Hret).
    injection Hret as <- <-. simpl in Hloop.
    pose proof Hf as Hf'. unfold DownSample.forward in Hf'.
    apply bind_Ok_inv in Hf' as (c & wc & Hc & Hrest).
    apply bind_Ok_inv in Hrest as (p & wp & Hp & Hret).
    injection Hret as -> -> ->.
    destruct (IH _ _ _ Hloop) as (outs & -> & Hrun).
    exists (conv_out :: outs). split.
    + by rewrite <- app_assoc.
    + by apply (encoder_stage te d ds x conv_out pooled y w wc w2 w').
Qed.

(** The decoder pops the stored skips last in, first out: with as many
    skips as up samplers, the loop over [up_samplers] is the paired
    decoder, and it leaves the list of skips empty. *)
Lemma up_loop_paired (te : option Tensor) (ups : list UpSample.t)
    (skips : list Tensor) (cur : Tensor) (w : World) :
  length skips = length ups →
  loopM (UNET.up_step te) ups (skips, cur) w
  = (run! out := decoder_paired te ups skips cur in ret ([], out)) w.
Proof.
  unfold decoder_paired.
  revert skips cur w. induction ups as [|us ups IH]; intros skips cur w Hlen.
  - destruct skips; [reflexivity | discriminate].
  - simpl in Hlen. destruct (snoc_of_length _ _ Hlen) as (skips' & s & -> & Hlen').
    rewrite reverse_snoc. simpl. unfold UNET.up_step at 1. simpl.
    rewrite py_pop_snoc. rewrite bind_assoc.
    unfold paired_step at 1. simpl.
    unfold bind at 1. simpl. rewrite !bind_assoc.
    apply bind_cong; [reflexivity|]. intros c w1. simpl.
    rewrite bind_ret_l. by apply IH.
Qed.

Lemma UNET_forward_is_paired (u : UNET.t) (batch : Tensor)
    (time_step : option Tensor) (w : World) :
  length (UNET.down_samplers u) = length (UNET.up_samplers u) →
  UNET.forward u batch time_step w = UNET_forward_paired u batch time_step w.
Proof.
  intros Hlen. unfold UNET.forward, UNET_forward_paired.
  apply bind_cong; [reflexivity|]. intros x w1.
  apply bind_cong; [reflexivity|]. intros te w2.
  apply bind_cong_Ok; [reflexivity|]. intros [skips y] w3 Hdown.
  apply down_loop_run in Hdown as (outs & -> & Hrun).
  apply encoder_run_length in Hrun. simpl.
  apply bind_cong; [reflexivity|]. intros c w4.
  apply bind_cong; [reflexivity|]. intros c' w5.
  assert (length outs = length (UNET.up_samplers u)) as Hout by congruence.
  rewrite (bind_cong _ _ _ _ _ (up_loop_paired te _ outs c' w5 Hout)
             (fun a w' => eq_refl)).
  rewrite bind_assoc. apply bind_cong; [reflexivity|]. intros out w6.
  reflexivity.
Qed.
End SkipWiringFacts.



(** ** ResNet: the channel lists are updated in place *)

Lemma lift_res_Ok_inv {S A : Type} (r : Res A) (a : A) (s s' : S) :
  lift_res r s = Ok (a, s') → r = Ok a ∧ s' = s.
Proof.
  unfold lift_res. destruct r as [a0|e]; [|discriminate].
  intros [= -> ->]. by split.
Qed.

Lemma make_conv_set_inv (a : ResNet.args) (l : nat) (ks ps : list Z) (stride : Z)
    (s s' : build_state) (c : ConvSet.t) :
  ResNet.make_conv_set a l ks ps stride s = Ok (c, s') →
  s' = s
  ∧ ∃ v, s.1 !! l = Some v
      ∧ ConvSet_args_ok (ResNet.conv_args a v ks ps stride s.2)
      ∧ c = ConvSet_built (ResNet.conv_args a v ks ps stride s.2).
Proof.
  unfold ResNet.make_conv_set. intros H.
  apply bind_Ok_inv in H as (v & s1 & Hv & H).
  unfold read_list in Hv. destruct (s.1 !! l) as [v0|] eqn:E; [|discriminate].
  injection Hv as <- <-.
  apply bind_Ok_inv in H as (attn & s2 & Hattn & H).
  unfold get_attn in Hattn. injection Hattn as <- <-.
  unfold lift_res in H.
  destruct (ConvSet.init _) as [c0|e] eqn:Ec; [|discriminate].
  injection H as <- <-. apply ConvSet_init_inv in Ec as [Hok ->].
  split; [reflexivity|]. by exists v0.
Qed.

(** The loop that builds the remaining sets of a layer leaves the store
    alone, and builds each set from the list as it then is. *)
Lemma more_sets_inv (a : ResNet.args) (l : nat) (ks ps : list Z) (xs : list Z)
    (acc sets : list ConvSet.t) (s s' : build_state) :
  foldS (fun set_list (_ : Z) =>
           bind (ResNet.make_conv_set a l ks ps 1)
                (fun c => ret (set_list ++ [c]))) xs acc s = Ok (sets, s') →
  s' = s
  ∧ ∃ more, sets = acc ++ more
      ∧ ∀ c, c ∈ more →
          ∃ v, s.1 !! l = Some v
            ∧ c = ConvSet_built (ResNet.conv_args a v ks ps 1 s.2).
Proof.
  revert acc s. induction xs as [|x xs IH]; intros acc s H; simpl in H.
  - injection H as <- <-. split; [reflexivity|]. exists [].
    split; [by rewrite app_nil_r|]. intros c Hc. by apply elem_of_nil in Hc.
  - apply bind_Ok_inv in H as (acc1 & s1 & Hstep & H).
    apply bind_Ok_inv in Hstep as (c & s2 & Hc & Hret).
    injection Hret as <- <-.
    apply make_conv_set_inv in Hc as (-> & v & Hv & _ & ->).
    destruct (IH _ _ H) as (-> & more & -> & Hmore).
    split; [reflexivity|]. exists (ConvSet_built (ResNet.conv_args a v ks ps 1 s.2) :: more).
    split; [by rewrite <- app_assoc|].
    intros c Hc. apply elem_of_cons in Hc as [->|Hc]; [by exists v | by apply Hmore].
Qed.

Lemma py_setitem_first (v : list Z) (x : Z) :
  (0 < length v)%nat → py_setitem v 0 x = Ok (<[0%nat := x]> v).
Proof.
  intros H. unfold py_setitem, len. simpl.
  destruct (Z.ltb_spec 0 (Z.of_nat (length v))); [reflexivity | lia].
Qed.

(** [create_resnet_layer]: the first set is built from the channel list
    as the caller gave it; then the list's first entry is overwritten, in
    the store, with its last entry; the remaining sets are built from the
    list so changed. *)
Lemma create_resnet_layer_inv (a : ResNet.args) (l : nat) (ks ps : list Z)
    (set_count stride : Z) (s s' : build_state) (sets : list ConvSet.t) :
  ResNet.create_resnet_layer a l ks ps set_count stride s = Ok (sets, s') →
  ∃ v x first more,
    s.1 !! l = Some v
    ∧ (3 <= length v)%nat
    ∧ last v = Some x
    ∧ s'.1 = <[l := <[0%nat := x]> v]> s.1
    ∧ is_attn_args s'.2 = is_attn_args s.2
    ∧ sets = first :: more
    ∧ first = ConvSet_built (ResNet.conv_args a v ks ps stride s'.2)
    ∧ ∀ c, c ∈ more →
        c = ConvSet_built (ResNet.conv_args a (<[0%nat := x]> v) ks ps 1 s'.2).
Proof.
  unfold ResNet.create_resnet_layer. intros H.
  apply bind_Ok_inv in H as (attn & s0 & Hattn & H).
  unfold get_attn in Hattn. injection Hattn as <- <-.
  apply bind_Ok_inv in H as ([] & s1 & Hprep & H).
  assert (s1.1 = s.1 ∧ is_attn_args s1.2 = is_attn_args s.2) as [Hs1 Ha1].
  { destruct (is_attn_args s.2) eqn:Ea.
    - apply bind_Ok_inv in Hprep as (v & s2 & Hv & Hprep).
      unfold read_list in Hv. destruct (s.1 !! l); [|discriminate].
      injection Hv as <- <-.
      apply bind_Ok_inv in Hprep as (e & s2 & He & Hprep).
      apply lift_res_Ok_inv in He as [_ ->].
      apply bind_Ok_inv in Hprep as (k & s2 & Hk & Hprep).
      apply lift_res_Ok_inv in Hk as [_ ->].
      apply bind_Ok_inv in Hprep as (h & s2 & Hh & Hprep).
      apply lift_res_Ok_inv in Hh as [_ ->].
      unfold put_attn in Hprep. injection Hprep as <-. simpl.
      split; [reflexivity|]. by rewrite is_attn_args_set.
    - injection Hprep as <-. by split. }
  apply bind_Ok_inv in H as (first & s2 & Hfirst & H).
  apply make_conv_set_inv in Hfirst as (-> & v & Hv & Hok & ->).
  apply bind_Ok_inv in H as (v' & s2 & Hv' & H).
  unfold read_list in Hv'. rewrite Hv in Hv'. injection Hv' as <- <-.
  destruct Hok as (Hlen & _). unfold len in Hlen. simpl in Hlen.
  apply bind_Ok_inv in H as (x & s2 & Hx & H).
  apply lift_res_Ok_inv in Hx as [Hx ->].
  rewrite py_index_last_total in Hx by lia. injection Hx as <-.
  apply bind_Ok_inv in H as (v' & s2 & Hset & H).
  apply lift_res_Ok_inv in Hset as [Hset ->].
  rewrite py_setitem_first in Hset by lia. injection Hset as <-.
  apply bind_Ok_inv in H as ([] & s2 & Hw & H).
  unfold write_list in Hw. injection Hw as <-.
  apply more_sets_inv in H as (-> & more & -> & Hmore).
  simpl in *.
  exists v, (default 0 (last v)), (ConvSet_built (ResNet.conv_args a v ks ps stride s1.2)), more.
  rewrite Hs1 in Hv. split; [exact Hv|]. split; [lia|].
  split.
  { destruct (last v) eqn:El; [reflexivity|]. apply last_None in El.
    subst v. simpl in Hlen. lia. }
  split; [by rewrite Hs1|]. split; [exact Ha1|]. split; [reflexivity|].
  split; [reflexivity|].
  intros c Hc. destruct (Hmore c Hc) as (v2 & Hv2 & ->).
  rewrite lookup_insert_eq in Hv2. by injection Hv2 as <-.
Qed.

Lemma zip4_locs {B C D : Type} (la : list nat) (lb : list B) (lc : list C)
    (ld : list D) :
  length la = length lb → length lb = length lc → length lc = length ld →
  (fun p : nat * B * C * D => p.1.1.1) <$> zip4 la lb lc ld = la.
Proof.
  revert lb lc ld. induction la as [|x la IH]; intros lb lc ld H1 H2 H3.
  - reflexivity.
  - destruct lb as [|y lb]; [discriminate|].
    destruct lc as [|z lc]; [discriminate|].
    destruct ld as [|t ld]; [discriminate|].
    simpl. f_equal. apply IH; simpl in *; lia.
Qed.

Lemma last_insert_first (v : list Z) (x : Z) :
  (2 <= length v)%nat → last (<[0%nat := x]> v) = last v.
Proof.
  intros H. destruct v as [|a [|b v]]; simpl in H; try lia. reflexivity.
Qed.

(** The effect of the loop over the layers on the store: every channel
    list it visits ends with its first entry equal to its original last
    entry, and no other list changes. *)
Lemma layers_loop_store (a : ResNet.args)
    (ps : list (nat * list Z * list Z * Z))
    (st st' : list (list ConvSet.t) * bool) (s s' : build_state) :
  foldS (ResNet.layer_pass a) ps st s = Ok (st', s') →
  ∀ l : nat,
    (l ∈ (fun p : nat * list Z * list Z * Z => p.1.1.1) <$> ps →
       ∃ v x, s.1 !! l = Some v ∧ (3 <= length v)%nat ∧ last v = Some x
         ∧ s'.1 !! l = Some (<[0%nat := x]> v))
    ∧ (l ∉ (fun p : nat * list Z * list Z * Z => p.1.1.1) <$> ps →
       s'.1 !! l = s.1 !! l).
Proof.
  revert st s. induction ps as [|[[[l0 ks] pads] n] ps IH]; intros st s H l.
  - simpl in H. injection H as <- <-. split.
    + intros Hl. by apply elem_of_nil in Hl.
    + reflexivity.
  - simpl in H. apply bind_Ok_inv in H as (st1 & s1 & Hpass & H).
    unfold ResNet.layer_pass in Hpass.
    apply bind_Ok_inv in Hpass as (layer & s2 & Hlayer & Hret).
    injection Hret as <- <-.
    apply create_resnet_layer_inv in Hlayer
      as (v0 & x0 & first & more & Hv0 & Hlen0 & Hx0 & Hs2 & _).
    destruct (IH _ _ H l) as [IHin IHout]. simpl. split.
    + intros Hl.
      destruct (decide (l ∈ (fun p : nat * list Z * list Z * Z => p.1.1.1) <$> ps))
        as [Hrest|Hrest].
      * destruct (IHin Hrest) as (v & x & Hv & Hlen & Hx & Hs').
        rewrite Hs2 in Hv. destruct (decide (l = l0)) as [->|Hne].
        -- rewrite lookup_insert_eq in Hv. injection Hv as <-.
           rewrite length_insert in Hlen.
           rewrite last_insert_first in Hx by lia.
           rewrite Hx0 in Hx. injection Hx as <-.
           exists v0, x0. repeat split; try assumption.
           rewrite Hs'. by rewrite list_insert_insert_eq.
        -- rewrite lookup_insert_ne in Hv by done.
           by exists v, x.
      * apply elem_of_cons in Hl as [->|Hl]; [|contradiction].
        exists v0, x0. repeat split; try assumption.
        rewrite (IHout Hrest), Hs2. by rewrite lookup_insert_eq.
    + intros Hl. apply not_elem_of_cons in Hl as [Hne Hrest].
      rewrite (IHout Hrest), Hs2. by rewrite lookup_insert_ne.
Qed.

(** C9: [create_resnet_layer] updates its [channel_sequence] argument in
    place: after the first [ConvSet] of the layer is built from the list
    as given, [channel_sequence[0]] is set to [channel_sequence[-1]], and
    the remaining sets are built from the list so changed.  So when the
    constructor of [ResNet] returns, every list of the caller's
    [layer_channels_list] has its first entry equal to its last entry (the
    list is the original one with entry 0 overwritten), and no other list
    of the store has changed. *)
Theorem ResNet_channel_lists_updated (a : ResNet.args) (r : ResNet.t)
    (s s' : build_state) :
  ResNet.init a s = Ok (r, s') →
  (∀ l : nat, l ∈ ResNet.layer_channels_list a →
     ∃ v x, s.1 !! l = Some v
       ∧ last v = Some x
       ∧ s'.1 !! l = Some (<[0%nat := x]> v)
       ∧ head (<[0%nat := x]> v) = Some x
       ∧ last (<[0%nat := x]> v) = Some x)
  ∧ (∀ l : nat, l ∉ ResNet.layer_channels_list a → s'.1 !! l = s.1 !! l)
  ∧ (∀ (l : nat) ks ps set_count stride (s0 s1 : build_state) sets,
       ResNet.create_resnet_layer a l ks ps set_count stride s0 = Ok (sets, s1) →
       ∃ v x first more,
         s0.1 !! l = Some v
         ∧ last v = Some x
         ∧ s1.1 = <[l := <[0%nat := x]> v]> s0.1
         ∧ sets = first :: more
         ∧ first = ConvSet_built (ResNet.conv_args a v ks ps stride s1.2)
         ∧ ∀ c, c ∈ more →
             c = ConvSet_built
                   (ResNet.conv_args a (<[0%nat := x]> v) ks ps 1 s1.2)).
Proof.
  intros H. unfold ResNet.init in H.
  apply bind_Ok_inv in H as ([] & s1 & Hassert & H).
  apply lift_res_Ok_inv in Hassert as [Hassert ->].
  unfold py_assert in Hassert.
  destruct (_ && _) eqn:Hlens in Hassert; [|discriminate]. clear Hassert.
  apply andb_true_iff in Hlens as [Hlens H3].
  apply andb_true_iff in Hlens as [H1 H2].
  apply Z.eqb_eq in H1, H2, H3. unfold len in *.
  apply bind_Ok_inv in H as (st & s2 & Hloop & H).
  injection H as _ <-.
  pose proof (layers_loop_store _ _ _ _ _ _ Hloop) as Hstore.
  rewrite zip4_locs in Hstore by lia.
  split; [|split].
  - intros l Hl. destruct (Hstore l) as [Hin _].
    destruct (Hin Hl) as (v & x & Hv & Hlen & Hx & Hs').
    exists v, x. repeat split; try assumption.
    + destruct v; simpl in *; [lia | reflexivity].
    + rewrite last_insert_first by lia. exact Hx.
  - intros l Hl. destruct (Hstore l) as [_ Hout]. by apply Hout.
  - intros l ks ps n stride s0 s1 sets Hlayer.
    apply create_resnet_layer_inv in Hlayer
      as (v & x & first & more & Hv & _ & Hx & Hs1 & _ & Hsets & Hfirst & Hmore).
    by exists v, x, first, more.
Qed.

Lemma ResNet_channel_lists_updated_witness :
  ∃ r s',
    ResNet.init sample_resnet_args (sample_store, ArgNone) = Ok (r, s')
    ∧ s'.1 !! 0%nat = Some [32; 16; 32]
    ∧ s'.1 !! 1%nat = Some [64; 32; 64].
Proof.
  destruct (ResNet.init sample_resnet_args (sample_store, ArgNone))
    as [[r s']|e] eqn:E; [|vm_compute in E; discriminate].
  exists r, s'. split; [reflexivity|].
  destruct (ResNet_channel_lists_updated _ _ _ _ E) as (Hin & _ & _).
  split.
  - destruct (Hin 0%nat) as (v & x & Hv & Hx & Hs' & _).
    + simpl. apply list_elem_of_here.
    + vm_compute in Hv. injection Hv as <-.
      vm_compute in Hx. injection Hx as <-. exact Hs'.
  - destruct (Hin 1%nat) as (v & x & Hv & Hx & Hs' & _).
    + simpl. apply list_elem_of_further, list_elem_of_here.
    + vm_compute in Hv. injection Hv as <-.
      vm_compute in Hx. injection Hx as <-. exact Hs'.
Defined.

(** ** Shapes: the time embedding and the channel axis *)

Lemma broadcast_axis_left (a b : Z) :
  Shapes.broadcast_axis a b = Some a → a = b ∨ b = 1.
Proof.
  unfold Shapes.broadcast_axis.
  destruct (Z.eqb_spec a b); [by left|].
  destruct (Z.eqb_spec a 1); [intros [= ->]; by left|].
  destruct (Z.eqb_spec b 1); [by right | discriminate].
Qed.

Lemma broadcast_rev_lookup (x y z : list Z) :
  length x = length y →
  Shapes.broadcast_rev x y = Some z →
  length z = length x
  ∧ ∀ (i : nat) a b, x !! i = Some a → y !! i = Some b →
      ∃ d, z !! i = Some d ∧ Shapes.broadcast_axis a b = Some d.
Proof.
  revert y z. induction x as [|a x IH]; intros y z Hlen H.
  - destruct y; [|discriminate]. simpl in H. injection H as <-.
    split; [reflexivity|]. intros i a b Hi. discriminate.
  - destruct y as [|b y]; [discriminate|]. simpl in H.
    destruct (Shapes.broadcast_axis a b) as [d|] eqn:Ed; [|discriminate].
    destruct (Shapes.broadcast_rev x y) as [r|] eqn:Er; [|discriminate].
    injection H as <-. simpl in Hlen.
    destruct (IH y r) as [Hl Hi]; [lia | exact Er |].
    split; [simpl; lia|].
    intros [|i] a' b' Ha Hb; simpl in *.
    + injection Ha as <-. injection Hb as <-. by exists d.
    + by apply Hi.
Qed.

(** Adding two tensors of the same rank broadcasts axis by axis. *)
Lemma broadcast_lookup (x y z : list Z) :
  length x = length y →
  Shapes.broadcast x y = Some z →
  ∀ (i : nat) a b, x !! i = Some a → y !! i = Some b →
    ∃ d, z !! i = Some d ∧ Shapes.broadcast_axis a b = Some d.
Proof.
  intros Hlen H i a b Ha Hb. unfold Shapes.broadcast in H.
  destruct (Shapes.broadcast_rev (reverse x) (reverse y)) as [r|] eqn:Er;
    [|discriminate].
  simpl in H. injection H as <-.
  assert (length (reverse x) = length (reverse y)) as Hrev
    by (rewrite !length_reverse; exact Hlen).
  destruct (broadcast_rev_lookup _ _ _ Hrev Er) as [Hl Hi].
  rewrite length_reverse in Hl.
  pose proof (lookup_lt_Some _ _ _ Ha) as Hlt.
  destruct (Hi (length x - S i)%nat a b) as (d & Hd & Hax).
  - rewrite reverse_lookup by lia.
    replace (length x - S (length x - S i))%nat with i by lia. exact Ha.
  - rewrite reverse_lookup by lia.
    replace (length y - S (length x - S i))%nat with i by lia. exact Hb.
  - exists d. split; [|exact Hax].
    rewrite reverse_lookup by lia.
    replace (length r - S i)%nat with (length x - S i)%nat by lia. exact Hd.
Qed.

Lemma windows_length (k p st : Z) (sp sp' : list Z) :
  Shapes.windows k p st sp = Some sp' → length sp' = length sp.
Proof.
  revert sp'. induction sp as [|n sp IH]; intros sp' H; simpl in H.
  - by injection H as <-.
  - destruct (Shapes.window k p st n); [|discriminate].
    destruct (Shapes.windows k p st sp) as [ms|]; [|discriminate].
    injection H as <-. simpl. f_equal. by apply IH.
Qed.

Lemma call_shape_inv (l : Layer) (x y : list Z) (w w' : unit) :
  call (F := Shapes.framework) l x w = Ok (y, w') →
  Shapes.layer_shape l x = Some y.
Proof.
  unfold call, stateful. simpl.
  destruct (Shapes.layer_shape l x); [|discriminate]. by intros [= <- _].
Qed.

(** A convolution block maps a batch of its input channels to a batch of
    its output channels, with as many spatial axes. *)
Lemma conv_block_shape (a : ConvSet.args) (i : nat) (x y : list Z) (w w' : unit) :
  call_seq (F := Shapes.framework) (ConvSet_block a i) x w = Ok (y, w') →
  ∃ b sp sp',
    x = b :: (ConvSet.channel_sequence a !!! i) :: sp
    ∧ y = b :: (ConvSet.channel_sequence a !!! S i) :: sp'
    ∧ length sp' = length sp.
Proof.
  unfold ConvSet_block. simpl. intros H.
  apply bind_Ok_inv in H as (y1 & w1 & H1 & H).
  apply bind_Ok_inv in H as (y2 & w2 & H2 & H).
  apply bind_Ok_inv in H as (y3 & w3 & H3 & H).
  injection H as <- <-.
  apply call_shape_inv in H1, H2, H3.
  destruct x as [|b [|c sp]]; try discriminate. simpl in H1.
  destruct (Z.eqb_spec c (ConvSet.channel_sequence a !!! i)); [|discriminate].
  destruct (Shapes.windows _ _ _ sp) as [sp'|] eqn:Ew; [|discriminate].
  injection H1 as <-. simpl in H2. rewrite Z.eqb_refl in H2.
  injection H2 as <-.
  assert (y3 = b :: ConvSet.channel_sequence a !!! S i :: sp') as ->.
  { destruct (ConvSet.act_function a); simpl in H3; by injection H3 as <-. }
  exists b, sp, sp'. subst c. repeat split. by eapply windows_length.
Qed.

Lemma time_embedding_needs_channels (a : ConvSet.args)
    (batch : list Z) (tb tn : Z) (out : list Z) (w w' : unit) :
  ConvSet_args_ok a →
  ConvSet.use_time a = true →
  len batch = ConvSet.dims a + 2 →
  ConvSet.forward (F := Shapes.framework) (ConvSet_built a) batch
                  (Some [tb; tn]) w = Ok (out, w') →
  ConvSet.channel_sequence a !!! 1%nat = ConvSet.channel_sequence a !!! 2%nat
  ∨ ConvSet.channel_sequence a !!! 2%nat = 1.
Proof.
  intros (Hc & _) Htime Hrank H. unfold len in *.
  unfold ConvSet.forward in H. simpl in H. rewrite Htime in H.
  destruct (length (ConvSet.channel_sequence a) - 1)%nat as [|[|m]] eqn:En;
    [lia | lia |].
  simpl in H.
  apply bind_Ok_inv in H as (first & w0 & Hfirst & H).
  injection Hfirst as <- <-.
  apply bind_Ok_inv in H as (y & w1 & Hy & H).
  apply conv_block_shape in Hy as (b & sp & sp' & -> & -> & Hsp).
  apply bind_Ok_inv in H as (z & w2 & Hz & H).
  unfold ConvSet.add_time in Hz. simpl in Hz. try rewrite Htime in Hz.
  simpl in Hz.
  apply bind_Ok_inv in Hz as (adj & w3 & Hadj & Hz).
  apply bind_Ok_inv in Hadj as (adj1 & w4 & Hlin & Hadj).
  apply call_shape_inv in Hlin. simpl in Hlin.
  destruct (tn =? ConvSet.time_embed_count a); [|discriminate].
  injection Hlin as <-.
  apply bind_Ok_inv in Hadj as (adj2 & w5 & Hrelu & Hadj).
  apply call_shape_inv in Hrelu. simpl in Hrelu. injection Hrelu as <-.
  injection Hadj as <- <-.
  apply bind_Ok_inv in Hz as (adj3 & w6 & Hexp & Hz).
  simpl in Hexp. injection Hexp as <- <-.
  unfold pure_op in Hz. simpl in Hz.
  destruct (Shapes.broadcast _ _) as [z0|] eqn:Eb in Hz; [|discriminate].
  injection Hz as <- <-.
  assert (∃ d, z0 !! 1%nat = Some d
            ∧ Shapes.broadcast_axis (ConvSet.channel_sequence a !!! 1%nat)
                (ConvSet.channel_sequence a !!! 2%nat) = Some d) as (d & Hd & Hax).
  { eapply (broadcast_lookup _ _ _ _ Eb 1%nat); reflexivity. }
  apply bind_Ok_inv in H as (v & w7 & Hv & _).
  apply bind_Ok_inv in Hv as (v1 & w8 & Hv1 & _).
  apply conv_block_shape in Hv1 as (b' & sp1 & sp1' & -> & _).
  simpl in Hd. injection Hd as <-.
  by apply broadcast_axis_left.
  Unshelve.
  simpl in *. rewrite length_replicate. lia.
Qed.




(** ** Instances of the theorems *)

Lemma time_step_ignored_without_denoise_witness :
  ∃ u st,
    UNET.init plain_unet_args = Ok (u, st)
    ∧ UNET.time_embeds u = None
    ∧ UNET.forward (F := Symbolic) u (Input "x") None 0%nat
      = UNET.forward (F := Symbolic) u (Input "x") (Some (Input "t")) 0%nat.
Proof.
  destruct (UNET.init plain_unet_args) as [[u st]|e] eqn:E;
    [|vm_compute in E; discriminate].
  exists u, st. split; [reflexivity|].
  destruct time_step_ignored_without_denoise as [H _].
  destruct (H plain_unet_args u st E eq_refl) as [Hnone Hsame].
  split; [exact Hnone | apply Hsame].
Defined.

Lemma ConvSet_time_assertion_witness :
  ConvSet.forward (F := Symbolic)
    (ConvSet_built (sample_args [3; 5; 5] true false)) (Input "x") None 0%nat
  = Raise AssertionError
  ∧ returns (ConvSet.forward (F := Symbolic)
               (ConvSet_built (sample_args [3; 5; 5] false false))
               (Input "x") None) 0%nat.
Proof.
  split.
  - destruct (ConvSet_time_assertion (sample_args [3; 5; 5] true false)
                (ConvSet_built (sample_args [3; 5; 5] true false)))
      as [H _]; [vm_compute; reflexivity|].
    destruct (H eq_refl) as (first & _ & Hf).
    destruct (Hf term nat Symbolic (Input "x") 0%nat) as [_ Htot].
    apply Htot, Symbolic_total.
  - destruct (ConvSet_time_assertion (sample_args [3; 5; 5] false false)
                (ConvSet_built (sample_args [3; 5; 5] false false)))
      as [_ H]; [vm_compute; reflexivity|].
    destruct (H eq_refl term nat Symbolic (Input "x") None 0%nat) as [_ Htot].
    apply Htot, Symbolic_total.
Defined.



Lemma UNET_topmost_upsampler_ungated_witness :
  ∃ u st top,
    UNET.init gated_unet_args = Ok (u, st)
    ∧ last (UNET.up_samplers u) = Some top
    ∧ UpSample.attention top = None.
Proof.
  destruct (UNET.init gated_unet_args) as [[u st]|e] eqn:E;
    [|vm_compute in E; discriminate].
  destruct (UNET_topmost_upsampler_ungated gated_unet_args u st E eq_refl)
    as ((top & Hlast & Hnone & _) & _).
  exists u, st, top. split; [reflexivity|]. split; [exact Hlast | exact Hnone].
Defined.

(** * Further properties of the constructors and of [forward] *)

(** ** Short channel lists *)

Lemma py_range_nonpos (n : Z) : n <= 0 → py_range n = [].
Proof.
  intros H. unfold py_range. replace (Z.to_nat n) with 0%nat by lia. reflexivity.
Qed.

Lemma py_index_out_of_range (l : list Z) (i : Z) :
  i < - len l ∨ len l <= i → py_index l i = Raise IndexError.
Proof.
  intros H. unfold py_index, len in *.
  destruct (Z.ltb_spec i 0).
  - destruct (Z.leb_spec 0 (Z.of_nat (length l) + i)); [lia | reflexivity].
  - destruct (Z.leb_spec 0 i); [|reflexivity].
    destruct (Z.ltb_spec i (Z.of_nat (length l))); [lia | reflexivity].
Qed.

Lemma UNET_init_short_channel_list_aux (a : UNET.args) :
  len (UNET.channel_list a) < 2 → UNET.init a = Raise IndexError.
Proof.
  intros H. unfold UNET.init.
  rewrite py_range_nonpos by lia. simpl.
  rewrite py_index_out_of_range; [reflexivity|]. lia.
Qed.



(** ** Errors of the sampler constructors *)



(** ** Strides *)

(** X3: in a constructed [ConvSet] only the second convolution (the block
    with [i == 1]) gets the constructor's [stride]; every other block has
    stride 1. *)
Theorem ConvSet_stride_on_second_block (a : ConvSet.args) (c : ConvSet.t) :
  ConvSet.init a = Ok c →
  ∀ (i : nat) (b : Sequential), ConvSet.conv_list c !! i = Some b →
    block_stride b = Some (if decide (i = 1%nat) then ConvSet.stride a else 1).
Proof.
  intros H i b Hb. apply ConvSet_init_inv in H as [_ ->]. simpl in Hb.
  rewrite list_lookup_fmap in Hb.
  destruct (seq 0 (length (ConvSet.channel_sequence a) - 1) !! i) as [j|] eqn:Ej;
    [|discriminate].
  apply lookup_seq in Ej as [-> _]. simpl in Hb. injection Hb as <-.
  reflexivity.
Qed.

Lemma ConvSet_stride_on_second_block_witness :
  block_stride (ConvSet_block (ResNet.conv_args sample_resnet_args [3; 16; 32]
                                 [3; 3] [1; 1] 2 ArgNone) 1)
  = Some 2.
Proof.
  apply (ConvSet_stride_on_second_block
           (ResNet.conv_args sample_resnet_args [3; 16; 32] [3; 3] [1; 1] 2 ArgNone)
           (ConvSet_built (ResNet.conv_args sample_resnet_args [3; 16; 32]
                             [3; 3] [1; 1] 2 ArgNone))
           ltac:(vm_compute; reflexivity) 1%nat).
  reflexivity.
Defined.

(** ** ResNet: layers and sets *)

Lemma built_second_stride (a : ConvSet.args) :
  ConvSet_args_ok a → second_stride (ConvSet_built a) = Some (ConvSet.stride a).
Proof.
  intros (Hc & _). unfold len in Hc. unfold second_stride. simpl.
  rewrite list_lookup_fmap, lookup_seq_lt by lia. reflexivity.
Qed.

Lemma built_first_in_channels (a : ConvSet.args) :
  ConvSet_args_ok a →
  first_in_channels (ConvSet_built a) = Some (ConvSet.channel_sequence a !!! 0%nat).
Proof.
  intros (Hc & _). unfold len in Hc. unfold first_in_channels. simpl.
  rewrite list_lookup_fmap, lookup_seq_lt by lia. reflexivity.
Qed.

Lemma built_last_out_channels (a : ConvSet.args) :
  ConvSet_args_ok a →
  last_out_channels (ConvSet_built a) = last (ConvSet.channel_sequence a).
Proof.
  intros (Hc & _). unfold len in Hc. unfold last_out_channels. simpl.
  rewrite fmap_last, last_lookup, length_seq, lookup_seq_lt by lia. simpl.
  rewrite last_lookup.
  replace (S (Nat.pred (length (ConvSet.channel_sequence a) - 1)))
    with (Nat.pred (length (ConvSet.channel_sequence a))) by lia.
  symmetry. apply list_lookup_lookup_total_lt. lia.
Qed.

(** The loop over [range(set_count - 1)] adds one set for each pass. *)
Lemma more_sets_length (a : ResNet.args) (l : nat) (ks ps : list Z) (xs : list Z)
    (acc sets : list ConvSet.t) (s s' : build_state) :
  foldS (fun set_list (_ : Z) =>
           bind (ResNet.make_conv_set a l ks ps 1)
                (fun c => ret (set_list ++ [c]))) xs acc s = Ok (sets, s') →
  length sets = (length acc + length xs)%nat.
Proof.
  revert acc s. induction xs as [|x xs IH]; intros acc s H; simpl in H.
  - injection H as <- <-. simpl. lia.
  - apply bind_Ok_inv in H as (acc1 & s1 & Hstep & H).
    apply bind_Ok_inv in Hstep as (c & s2 & Hc & Hret).
    injection Hret as <- <-.
    rewrite (IH _ _ H), length_app. simpl. lia.
Qed.

(** The assertions of [ConvSet] hold for every layer that is built. *)
Lemma create_resnet_layer_lengths (a : ResNet.args) (l : nat) (ks ps : list Z)
    (set_count stride : Z) (s s' : build_state) (sets : list ConvSet.t) :
  ResNet.create_resnet_layer a l ks ps set_count stride s = Ok (sets, s') →
  ∃ v, s.1 !! l = Some v
    ∧ ∀ st attn w, length w = length v →
        ConvSet_args_ok (ResNet.conv_args a w ks ps st attn).
Proof.
  unfold ResNet.create_resnet_layer. intros H.
  apply bind_Ok_inv in H as (attn0 & s0 & Hattn & H).
  unfold get_attn in Hattn. injection Hattn as <- <-.
  apply bind_Ok_inv in H as ([] & s1 & Hprep & H).
  assert (s1.1 = s.1) as Hs1.
  { destruct (is_attn_args s.2).
    - apply bind_Ok_inv in Hprep as (v & s2 & Hv & Hprep).
      unfold read_list in Hv. destruct (s.1 !! l); [|discriminate].
      injection Hv as <- <-.
      apply bind_Ok_inv in Hprep as (e & s2 & He & Hprep).
      apply lift_res_Ok_inv in He as [_ ->].
      apply bind_Ok_inv in Hprep as (k & s2 & Hk & Hprep).
      apply lift_res_Ok_inv in Hk as [_ ->].
      apply bind_Ok_inv in Hprep as (h & s2 & Hh & Hprep).
      apply lift_res_Ok_inv in Hh as [_ ->].
      unfold put_attn in Hprep. by injection Hprep as <-.
    - by injection Hprep as <-. }
  apply bind_Ok_inv in H as (first & s2 & Hfirst & _).
  apply make_conv_set_inv in Hfirst as (_ & v & Hv & Hok & _).
  rewrite Hs1 in Hv. exists v. split; [exact Hv|].
  destruct Hok as (Hc & Hk & Hp & Hkp & Hpc). unfold len in *. simpl in *.
  intros st attn w Hw. unfold ConvSet_args_ok, len. simpl.
  repeat split; lia.
Qed.

Lemma create_resnet_layer_shape (a : ResNet.args) (l : nat) (ks ps : list Z)
    (set_count stride : Z) (s s' : build_state) (sets : list ConvSet.t) :
  ResNet.create_resnet_layer a l ks ps set_count stride s = Ok (sets, s') →
  length sets = at_least_one set_count
  ∧ (∃ first, sets !! 0%nat = Some first ∧ second_stride first = Some stride)
  ∧ ∀ (k : nat) c, sets !! S k = Some c → second_stride c = Some 1.
Proof.
  intros H. pose proof H as H0.
  apply create_resnet_layer_inv in H
    as (v & x & first & more & Hv & Hlen & Hx & _ & _ & -> & -> & Hmore).
  destruct (create_resnet_layer_lengths _ _ _ _ _ _ _ _ _ H0) as (v' & Hv' & Hok).
  rewrite Hv in Hv'. injection Hv' as <-.
  split; [|split].
  - unfold ResNet.create_resnet_layer in H0.
    apply bind_Ok_inv in H0 as (attn0 & s0 & _ & H0).
    apply bind_Ok_inv in H0 as (? & s1 & _ & H0).
    apply bind_Ok_inv in H0 as (c & s2 & _ & H0).
    apply bind_Ok_inv in H0 as (v2 & s3 & _ & H0).
    apply bind_Ok_inv in H0 as (x2 & s4 & _ & H0).
    apply bind_Ok_inv in H0 as (v3 & s5 & _ & H0).
    apply bind_Ok_inv in H0 as (? & s6 & _ & H0).
    apply more_sets_length in H0. rewrite H0, length_py_range.
    unfold at_least_one. simpl. lia.
  - exists (ConvSet_built (ResNet.conv_args a v ks ps stride s'.2)).
    split; [reflexivity|]. rewrite built_second_stride; [reflexivity|].
    by apply Hok.
  - intros k c Hc. simpl in Hc.
    rewrite (Hmore c) by (eapply list_elem_of_lookup_2; exact Hc).
    rewrite built_second_stride; [reflexivity|].
    apply Hok. by rewrite length_insert.
Qed.

(** X4: [create_resnet_layer] always builds at least one [ConvSet]:
    it returns [max(1, set_count)] sets, the first with the given
    [stride] on its second convolution and the others with stride 1. *)
Theorem create_resnet_layer_sets (a : ResNet.args) (l : nat) (ks ps : list Z)
    (set_count stride : Z) (s s' : build_state) (sets : list ConvSet.t) :
  ResNet.create_resnet_layer a l ks ps set_count stride s = Ok (sets, s') →
  length sets = at_least_one set_count
  ∧ (∃ first, sets !! 0%nat = Some first ∧ second_stride first = Some stride)
  ∧ ∀ (k : nat) c, sets !! S k = Some c → second_stride c = Some 1.
Proof.
  intros H.
  destruct (create_resnet_layer_shape _ _ _ _ _ _ _ _ _ H) as (Hlen & Hfirst & Hrest).
  split; [exact Hlen|]. split; [exact Hfirst | exact Hrest].
Qed.

Lemma create_resnet_layer_sets_witness :
  ∃ sets s',
    ResNet.create_resnet_layer sample_resnet_args 0%nat [3; 3] [1; 1] 0 2
      (sample_store, ArgNone) = Ok (sets, s')
    ∧ length sets = 1%nat.
Proof.
  destruct (ResNet.create_resnet_layer sample_resnet_args 0%nat [3; 3] [1; 1] 0 2
              (sample_store, ArgNone)) as [[sets s']|e] eqn:E;
    [|vm_compute in E; discriminate].
  exists sets, s'. split; [reflexivity|].
  destruct (create_resnet_layer_sets _ _ _ _ _ _ _ _ _ E) as (Hlen & _).
  exact Hlen.
Defined.

(** The layers the loop of [ResNet.__init__] builds: one for each entry of
    the zipped lists, with [max(1, set_count)] sets; the first layer ever
    built has stride 1 on its first set, every later one stride 2. *)
Lemma layers_loop_structure (a : ResNet.args)
    (ps : list (nat * list Z * list Z * Z))
    (st st' : list (list ConvSet.t) * bool) (s s' : build_state) :
  foldS (ResNet.layer_pass a) ps st s = Ok (st', s') →
  ∃ layers,
    st'.1 = st.1 ++ layers
    ∧ length layers = length ps
    ∧ ∀ (j : nat) p layer, ps !! j = Some p → layers !! j = Some layer →
        length layer = at_least_one p.2
        ∧ ∃ first, layer !! 0%nat = Some first
            ∧ second_stride first
              = Some (if (j =? 0)%nat && negb st.2 then 1 else 2).
Proof.
  revert st s. induction ps as [|[[[l0 ks] pads] n] ps IH]; intros st s H.
  - simpl in H. injection H as <- <-. exists []. rewrite app_nil_r.
    split; [reflexivity|]. split; [reflexivity|]. intros j p layer Hp. discriminate.
  - simpl in H. apply bind_Ok_inv in H as (st1 & s1 & Hpass & H).
    unfold ResNet.layer_pass in Hpass.
    apply bind_Ok_inv in Hpass as (layer0 & s2 & Hlayer & Hret).
    injection Hret as <- <-.
    apply create_resnet_layer_shape in Hlayer as (Hlen0 & Hfirst0 & _).
    destruct (IH _ _ H) as (layers & Hst' & Hlen & Hlayers). simpl in *.
    exists (layer0 :: layers). split; [by rewrite Hst', <- app_assoc|].
    split; [simpl; lia|].
    intros [|j] p layer Hp Hl; simpl in *.
    + injection Hp as <-. injection Hl as <-. split; [exact Hlen0|].
      destruct (negb st.2); exact Hfirst0.
    + destruct (Hlayers j p layer Hp Hl) as (H1 & first & H2 & H3).
      split; [exact H1|]. exists first. split; [exact H2|].
      rewrite H3. by rewrite andb_false_r.
Qed.

Lemma zip4_lookup_counts {A B C : Type} (la : list A) (lb : list B) (lc : list C)
    (ld : list Z) (j : nat) (p : A * B * C * Z) :
  zip4 la lb lc ld !! j = Some p → ld !! j = Some p.2.
Proof.
  revert lb lc ld j. induction la as [|x la IH]; intros lb lc ld j H.
  - discriminate.
  - destruct lb as [|y lb]; [discriminate|].
    destruct lc as [|z lc]; [discriminate|].
    destruct ld as [|t ld]; [discriminate|].
    destruct j as [|j]; simpl in *.
    + by injection H as <-.
    + by eapply IH.
Qed.

Lemma zip4_length {A B C D : Type} (la : list A) (lb : list B) (lc : list C)
    (ld : list D) :
  length la = length lb → length lb = length lc → length lc = length ld →
  length (zip4 la lb lc ld) = length la.
Proof.
  revert lb lc ld. induction la as [|x la IH]; intros lb lc ld H1 H2 H3.
  - reflexivity.
  - destruct lb as [|y lb]; [discriminate|].
    destruct lc as [|z lc]; [discriminate|].
    destruct ld as [|t ld]; [discriminate|].
    simpl. f_equal. apply IH; simpl in *; lia.
Qed.

(** What [ResNet.__init__] leaves of its assertion and of its loop. *)
Lemma ResNet_init_loop (a : ResNet.args) (r : ResNet.t) (s s' : build_state) :
  ResNet.init a s = Ok (r, s') →
  length (ResNet.layer_channels_list a) = length (ResNet.layer_kernels_list a)
  ∧ length (ResNet.layer_kernels_list a) = length (ResNet.layer_paddings_list a)
  ∧ length (ResNet.layer_paddings_list a) = length (ResNet.layer_set_list a)
  ∧ ∃ flag,
      foldS (ResNet.layer_pass a)
            (zip4 (ResNet.layer_channels_list a) (ResNet.layer_kernels_list a)
                  (ResNet.layer_paddings_list a) (ResNet.layer_set_list a))
            ([], false) s = Ok ((ResNet.res_net_layers r, flag), s').
Proof.
  intros H. unfold ResNet.init in H.
  apply bind_Ok_inv in H as ([] & s1 & Hassert & H).
  apply lift_res_Ok_inv in Hassert as [Hassert ->].
  unfold py_assert in Hassert.
  destruct (_ && _) eqn:Hlens in Hassert; [|discriminate]. clear Hassert.
  apply andb_true_iff in Hlens as [Hlens H3].
  apply andb_true_iff in Hlens as [H1 H2].
  apply Z.eqb_eq in H1, H2, H3. unfold len in *.
  apply bind_Ok_inv in H as ([layers flag] & s2 & Hloop & H).
  injection H as <- <-. simpl.
  repeat split; try lia. by exists flag.
Qed.

(** X5: the constructor of [ResNet] raises [AssertionError] unless its
    four lists have the same length.  When it returns, it has built one
    layer for each entry of [layer_channels_list]; layer [j] holds
    [max(1, layer_set_list[j])] sets, and the second convolution of its
    first set has stride 1 in the first layer and stride 2 in every other
    layer. *)
Theorem ResNet_init_layers (a : ResNet.args) :
  (¬ (len (ResNet.layer_channels_list a) = len (ResNet.layer_kernels_list a)
      ∧ len (ResNet.layer_kernels_list a) = len (ResNet.layer_paddings_list a)
      ∧ len (ResNet.layer_paddings_list a) = len (ResNet.layer_set_list a)) →
   ∀ s, ResNet.init a s = Raise AssertionError)
  ∧ ∀ r s s', ResNet.init a s = Ok (r, s') →
      length (ResNet.res_net_layers r) = length (ResNet.layer_channels_list a)
      ∧ ∀ (j : nat) layer n,
          ResNet.res_net_layers r !! j = Some layer →
          ResNet.layer_set_list a !! j = Some n →
          length layer = at_least_one n
          ∧ ∃ first, layer !! 0%nat = Some first
              ∧ second_stride first = Some (if (j =? 0)%nat then 1 else 2).
Proof.
  split.
  - intros Hbad s. unfold ResNet.init.
    destruct (_ && _) eqn:Hlens; [|reflexivity].
    exfalso. apply Hbad.
    apply andb_true_iff in Hlens as [Hlens H3].
    apply andb_true_iff in Hlens as [H1 H2].
    apply Z.eqb_eq in H1, H2, H3. by repeat split.
  - intros r s s' H.
    apply ResNet_init_loop in H as (H1 & H2 & H3 & flag & Hloop).
    apply layers_loop_structure in Hloop as (layers & Hst & Hlen & Hlayers).
    simpl in Hst. subst layers.
    rewrite zip4_length in Hlen by assumption.
    split; [exact Hlen|].
    intros j layer n Hj Hn.
    assert (is_Some (zip4 (ResNet.layer_channels_list a) (ResNet.layer_kernels_list a)
                          (ResNet.layer_paddings_list a) (ResNet.layer_set_list a) !! j))
      as [p Hp].
    { apply lookup_lt_is_Some. rewrite zip4_length by assumption.
      rewrite <- Hlen. by eapply lookup_lt_Some. }
    pose proof (zip4_lookup_counts _ _ _ _ _ _ Hp) as Hp2.
    rewrite Hn in Hp2. injection Hp2 as ->.
    destruct (Hlayers j p layer Hp Hj) as (Hl & first & Hf & Hs).
    split; [exact Hl|]. exists first. split; [exact Hf|].
    rewrite Hs. simpl. by rewrite andb_true_r.
Qed.

Lemma ResNet_init_layers_witness :
  ∃ r s',
    ResNet.init sample_resnet_args (sample_store, ArgNone) = Ok (r, s')
    ∧ length (ResNet.res_net_layers r) = 2%nat.
Proof.
  destruct (ResNet.init sample_resnet_args (sample_store, ArgNone))
    as [[r s']|e] eqn:E; [|vm_compute in E; discriminate].
  exists r, s'. split; [reflexivity|].
  destruct (ResNet_init_layers sample_resnet_args) as [_ H].
  destruct (H _ _ _ E) as [Hlen _]. exact Hlen.
Defined.

(** ** ResNet: [forward] is one chain *)

Lemma loopM_app {World A St : Type} (step : A → St → M World St)
    (xs ys : list A) (st : St) (w : World) :
  loopM step (xs ++ ys) st w = bind (loopM step xs st) (loopM step ys) w.
Proof.
  revert st w. induction xs as [|x xs IH]; intros st w; simpl; [reflexivity|].
  rewrite bind_assoc. apply bind_ext. intros st' w'. apply IH.
Qed.

Section ResNetChain.
Context {Tensor World : Type} {F : Framework Tensor World}.
Local Open Scope m_scope.

Lemma run_sections_concat (te : option Tensor) (layers : list (list ConvSet.t))
    (x : Tensor) (w : World) :
  loopM (ResNet.run_section te) layers x w
  = loopM (fun conv_set y => ConvSet.forward conv_set y te) (concat layers) x w.
Proof.
  revert x w. induction layers as [|layer layers IH]; intros x w; simpl.
  - reflexivity.
  - rewrite loopM_app. apply bind_ext. intros y w'. apply IH.
Qed.

(** X6: the nested loops of [ResNet.forward] apply every [ConvSet] of
    every layer, in order, as one chain: [forward] is the input layer, the
    time embedding, the sets of [res_net_layers] concatenated, and the
    output layer; how the sets are grouped into layers does not change the
    result. *)
Theorem ResNet_forward_chain (r : ResNet.t) (batch : Tensor)
    (time_step : option Tensor) (w : World) :
  ResNet.forward r batch time_step w
  = (run! batch_in := call (ResNet.in_layer r) batch in
     run! time_embed := ResNet.get_time_embed r time_step in
     run! batch_res :=
       loopM (fun conv_set y => ConvSet.forward conv_set y time_embed)
             (concat (ResNet.res_net_layers r)) batch_in in
     call (ResNet.out_layer r) batch_res) w.
Proof.
  unfold ResNet.forward.
  apply bind_ext. intros batch_in w1.
  apply bind_ext. intros te w2.
  apply bind_cong; [apply run_sections_concat | reflexivity].
Qed.
End ResNetChain.

(** ** ResNet: building again from the same lists *)

Lemma insert_first_settled (v : list Z) (x : Z) :
  head v = Some x → <[0%nat := x]> v = v.
Proof. destruct v; simpl; [discriminate|]. by intros [= ->]. Qed.

(** On a channel list whose first entry already equals its last entry,
    [create_resnet_layer] leaves the store as it is, and every set it
    builds has as many input channels as output channels. *)
Lemma create_resnet_layer_settled (a : ResNet.args) (l : nat) (ks ps : list Z)
    (set_count stride : Z) (s s' : build_state) (sets : list ConvSet.t)
    (v : list Z) (x : Z) :
  ResNet.create_resnet_layer a l ks ps set_count stride s = Ok (sets, s') →
  s.1 !! l = Some v → head v = Some x → last v = Some x →
  s'.1 = s.1
  ∧ ∀ c, c ∈ sets →
      first_in_channels c = Some x ∧ last_out_channels c = Some x.
Proof.
  intros H Hv Hhead Hlast.
  destruct (create_resnet_layer_lengths _ _ _ _ _ _ _ _ _ H) as (v1 & Hv1 & Hok).
  rewrite Hv in Hv1. injection Hv1 as <-.
  apply create_resnet_layer_inv in H
    as (v2 & x2 & first & more & Hv2 & Hlen & Hx2 & Hs' & _ & -> & -> & Hmore).
  rewrite Hv in Hv2. injection Hv2 as <-.
  rewrite Hlast in Hx2. injection Hx2 as <-.
  rewrite (insert_first_settled v x Hhead) in Hs', Hmore.
  split; [rewrite Hs'; by apply insert_id|].
  assert (∀ st attn,
            first_in_channels (ConvSet_built (ResNet.conv_args a v ks ps st attn))
            = Some x
            ∧ last_out_channels (ConvSet_built (ResNet.conv_args a v ks ps st attn))
              = Some x) as Hbuilt.
  { intros st attn.
    rewrite built_first_in_channels, built_last_out_channels by by apply Hok.
    simpl. split; [|exact Hlast].
    f_equal. destruct v; simpl in *; [discriminate|]. by injection Hhead. }
  intros c Hc. apply elem_of_cons in Hc as [->|Hc].
  - apply Hbuilt.
  - rewrite (Hmore c Hc). apply Hbuilt.
Qed.

Lemma layers_loop_settled (a : ResNet.args)
    (ps : list (nat * list Z * list Z * Z))
    (st st' : list (list ConvSet.t) * bool) (s s' : build_state) :
  foldS (ResNet.layer_pass a) ps st s = Ok (st', s') →
  (∀ l : nat, l ∈ (fun p : nat * list Z * list Z * Z => p.1.1.1) <$> ps →
     ∃ v x, s.1 !! l = Some v ∧ head v = Some x ∧ last v = Some x) →
  s'.1 = s.1
  ∧ ∃ layers, st'.1 = st.1 ++ layers
      ∧ ∀ layer c, layer ∈ layers → c ∈ layer →
          ∃ x, first_in_channels c = Some x ∧ last_out_channels c = Some x.
Proof.
  revert st s. induction ps as [|[[[l0 ks] pads] n] ps IH]; intros st s H Hset.
  - simpl in H. injection H as <- <-. split; [reflexivity|].
    exists []. split; [by rewrite app_nil_r|].
    intros layer c Hl. by apply elem_of_nil in Hl.
  - simpl in H. apply bind_Ok_inv in H as (st1 & s1 & Hpass & H).
    unfold ResNet.layer_pass in Hpass.
    apply bind_Ok_inv in Hpass as (layer0 & s2 & Hlayer & Hret).
    injection Hret as <- <-.
    destruct (Hset l0) as (v & x & Hv & Hhead & Hlast); [simpl; by left|].
    destruct (create_resnet_layer_settled _ _ _ _ _ _ _ _ _ _ _ Hlayer Hv Hhead Hlast)
      as [Hs2 Hsets].
    destruct (IH _ _ H) as (Hs' & layers & Hst' & Hlayers).
    { intros l Hl. rewrite Hs2. apply Hset. simpl. by right. }
    split; [congruence|].
    exists (layer0 :: layers). simpl in *.
    split; [by rewrite Hst', <- app_assoc|].
    intros layer c Hl Hc. apply elem_of_cons in Hl as [->|Hl].
    + exists x. by apply Hsets.
    + by eapply Hlayers.
Qed.

(** X7: the lists of [layer_channels_list] keep the change the first
    construction made.  A second [ResNet] built from the same lists does
    not change them again, and is a different network: each of its sets,
    the first of every layer included, takes as many input channels as it
    gives output channels, the last entry of its channel list. *)
Theorem ResNet_built_again (a : ResNet.args) (r r2 : ResNet.t)
    (s s' s2 : build_state) :
  ResNet.init a s = Ok (r, s') →
  ResNet.init a s' = Ok (r2, s2) →
  s2.1 = s'.1
  ∧ ∀ layer c, layer ∈ ResNet.res_net_layers r2 → c ∈ layer →
      ∃ x, first_in_channels c = Some x ∧ last_out_channels c = Some x.
Proof.
  intros H1 H2.
  apply ResNet_init_loop in H1 as (E1 & E2 & E3 & flag & Hloop1).
  apply ResNet_init_loop in H2 as (_ & _ & _ & flag2 & Hloop2).
  pose proof (layers_loop_store _ _ _ _ _ _ Hloop1) as Hstore.
  destruct (layers_loop_settled _ _ _ _ _ _ Hloop2) as (Hs2 & layers & Hst & Hlayers).
  - intros l Hl. destruct (Hstore l) as [Hin _].
    destruct (Hin Hl) as (v & x & Hv & Hlen & Hx & Hs').
    exists (<[0%nat := x]> v), x. split; [exact Hs'|]. split.
    + destruct v; simpl in *; [lia | reflexivity].
    + rewrite last_insert_first by lia. exact Hx.
  - split; [exact Hs2|]. simpl in Hst. subst layers. exact Hlayers.
Qed.

Lemma ResNet_built_again_witness :
  ∃ r r2 s' s2,
    ResNet.init sample_resnet_args (sample_store, ArgNone) = Ok (r, s')
    ∧ ResNet.init sample_resnet_args s' = Ok (r2, s2)
    ∧ s2.1 = s'.1
    ∧ (first_in_channels <$> (ResNet.res_net_layers r !! 0%nat ≫= (.!! 0%nat)))
      = Some (Some 3)
    ∧ (first_in_channels <$> (ResNet.res_net_layers r2 !! 0%nat ≫= (.!! 0%nat)))
      = Some (Some 32).
Proof.
  destruct (ResNet.init sample_resnet_args (sample_store, ArgNone))
    as [[r s']|e] eqn:E; [|vm_compute in E; discriminate].
  destruct (ResNet.init sample_resnet_args s') as [[r2 s2]|e] eqn:E2.
  2:{ vm_compute in E. injection E as <- <-. vm_compute in E2. discriminate. }
  exists r, r2, s', s2. split; [reflexivity|]. split; [exact E2|].
  destruct (ResNet_built_again _ _ _ _ _ _ E E2) as [Hs _].
  split; [exact Hs|].
  vm_compute in E. injection E as <- <-.
  vm_compute in E2. injection E2 as <- <-.
  split; reflexivity.
Defined.

(** ** UNET: the stages in closed form *)

Lemma py_index_nonneg_inv (l : list Z) (i x : Z) :
  0 <= i → py_index l i = Ok x → x = l !!! Z.to_nat i.
Proof.
  intros Hi H. apply py_index_inv in H as (n & Hn & Heq).
  destruct (Z.ltb_spec i 0); [lia|]. subst i. rewrite Nat2Z.id.
  symmetry. by apply list_lookup_total_correct.
Qed.

Lemma UpSample_init_built (a : UpSample.args) :
  ConvSet_args_ok (UpSample.conv_args a) →
  UpSample.init a = Ok (UpSample_built a).
Proof.
  intros Hok. destruct (UpSample_init_returns a Hok) as [u Hu].
  rewrite Hu. by apply UpSample_init_inv in Hu as [_ ->].
Qed.

Lemma down_pass_closed (a : UNET.args) (st st' : list DownSample.t * attn_args)
    (i : Z) :
  0 <= i →
  UNET.down_pass a st i = Ok st' →
  st' = (st.1 ++ [DownSample_built
                    (UNET.down_args a (UNET_down_seq a i)
                       (conv_attn_for st.2 (channel_at a i)).2)],
         (conv_attn_for st.2 (channel_at a i)).1).
Proof.
  intros Hi H. unfold UNET.down_pass in H.
  inv_res H as c0 E0. inv_res H as c1 E1. inv_res H as c2 E2.
  inv_res H as r Er. injection H as <-.
  apply py_index_nonneg_inv in E1, E2; [|lia..]. subst c1 c2.
  assert (c0 = if i =? 0 then UNET.in_channels a else channel_at a (i - 1)) as ->.
  { destruct (Z.eqb_spec i 0); [by injection E0|].
    apply py_index_nonneg_inv in E0; [exact E0 | lia]. }
  unfold UNET.create_downsampler in Er. rewrite prepare_conv_attn_3 in Er.
  simpl in Er. inv_res Er as d Ed. injection Er as <-.
  apply DownSample_init_inv in Ed as [_ ->].
  unfold conv_attn_for, UNET_down_seq, channel_at, DownSample_built.
  destruct (is_attn_args st.2); reflexivity.
Qed.

Lemma up_pass_closed (a : UNET.args)
    (st st' : list UpSample.t * (attn_args * attn_args)) (i : Z) :
  1 <= i →
  UNET.up_pass a st i = Ok st' →
  st' = (st.1 ++ [UpSample_built
                    (UNET.up_args a (UNET_up_seq a i)
                       (gate_for st.2.1 i (channel_at a i) (channel_at a (i - 1))).2
                       (conv_attn_for st.2.2 (channel_at a (i - 1))).2)],
         ((gate_for st.2.1 i (channel_at a i) (channel_at a (i - 1))).1,
          (conv_attn_for st.2.2 (channel_at a (i - 1))).1)).
Proof.
  intros Hi H. unfold UNET.up_pass in H.
  inv_res H as c0 E0. inv_res H as c1 E1. inv_res H as c2 E2.
  inv_res H as r Er. injection H as <-.
  apply py_index_nonneg_inv in E0, E1, E2; [|lia..]. subst c0 c1 c2.
  unfold UNET.create_upsampler in Er.
  rewrite py_index_3_first, !py_index_3_last, prepare_conv_attn_3 in Er.
  inv_res Er as gate Eg. simpl in Er. inv_res Er as u Eu. injection Er as <-.
  apply UpSample_init_inv in Eu as [_ ->].
  unfold gate_for, conv_attn_for, UNET_up_seq, channel_at, UpSample_built.
  destruct (is_attn_args st.2.1 && (1 <? i)), (is_attn_args st.2.2);
    simpl in Eg; injection Eg as <-; reflexivity.
Qed.

(** The constructor of [UNET] with the indexing of the bottleneck done. *)
Lemma UNET_init_closed (a : UNET.args) (u : UNET.t) st :
  UNET.init a = Ok (u, st) →
  2 <= len (UNET.channel_list a)
  ∧ ∃ downs ups,
      foldM (UNET.down_pass a) (py_range (len (UNET.channel_list a) - 1))
            ([], UNET.conv_attn_args a) = Ok downs
      ∧ foldM (UNET.up_pass a) (py_range_down (len (UNET.channel_list a) - 1) 0)
              ([], (neck_attn_for a, downs.2)) = Ok ups
      ∧ UNET.down_samplers u = downs.1
      ∧ UNET.up_samplers u = ups.1
      ∧ UNET.bottle_neck u = ConvSet_built (UNET_neck_args a)
      ∧ UNET.bottle_neck_attn u = make_attention (neck_attn_for a)
      ∧ UNET.need_denoise u = UNET.denoise_diff a
      ∧ UNET.in_layer u
        = match UNET.arg_in_layer a with Some l => Custom l | None => Identity end
      ∧ UNET.out_layer u
        = match UNET.arg_out_layer a with Some l => Custom l | None => Identity end
      ∧ st = ups.2.
Proof.
  intros H.
  destruct (Z.lt_ge_cases (len (UNET.channel_list a)) 2) as [Hshort|HL].
  { rewrite UNET_init_short_channel_list_aux in H by exact Hshort. discriminate. }
  split; [exact HL|]. unfold UNET.init in H.
  inv_res H as downs Edowns.
  inv_res H as b0 Eb0. inv_res H as b1 Eb1. inv_res H as b2 Eb2.
  inv_res H as neck Eneck. inv_res H as up_attn Eattn. inv_res H as ups Eups.
  injection H as <- <-.
  unfold len in HL.
  assert (∀ x, py_index (UNET.channel_list a) (-1) = Ok x →
               x = channel_at a (len (UNET.channel_list a) - 1)) as Hlast.
  { intros x Hx. apply py_index_inv in Hx as (n & Hn & Heq). simpl in Heq.
    unfold channel_at, len in *.
    replace (Z.to_nat (Z.of_nat (length (UNET.channel_list a)) - 1)) with n by lia.
    symmetry. by apply list_lookup_total_correct. }
  apply Hlast in Eb1, Eb2. subst b1 b2.
  assert (b0 = channel_at a (len (UNET.channel_list a) - 2)) as ->.
  { apply py_index_inv in Eb0 as (n & Hn & Heq). simpl in Heq.
    unfold channel_at, len in *.
    replace (Z.to_nat (Z.of_nat (length (UNET.channel_list a)) - 2)) with n by lia.
    symmetry. by apply list_lookup_total_correct. }
  apply ConvSet_init_inv in Eneck as [_ ->].
  assert (up_attn = neck_attn_for a) as ->.
  { unfold neck_attn_for. destruct (is_attn_args (UNET.up_attn_args a)).
    - inv_res Eattn as e Ee. inv_res Eattn as k Ek. inv_res Eattn as h Eh.
      apply Hlast in Ee, Ek, Eh. subst e k h. by injection Eattn.
    - by injection Eattn. }
  exists downs, ups. simpl. repeat split; assumption || reflexivity.
Qed.

Lemma attn_kwargs_set (x : attn_args) (e k h : Z) :
  is_attn_args x = true →
  attn_kwargs (set_attn_channels x e k h)
  = <["spatial_inter_channels" := PyInt h]>
      (<["skip_channels" := PyInt k]>
         (<["enc_channels" := PyInt e]> (attn_kwargs x))).
Proof. destruct x; simpl; intros H; try discriminate; reflexivity. Qed.

Lemma make_attention_kwargs (x : attn_args) :
  is_attn_args x = true → make_attention x = Some (Attention (attn_kwargs x)).
Proof. destruct x; simpl; intros H; try discriminate; reflexivity. Qed.

Lemma attn_kwargs_set_other (x : attn_args) (e k h : Z) (key : string) :
  key ∉ channel_keys →
  attn_kwargs (set_attn_channels x e k h) !! key = attn_kwargs x !! key.
Proof.
  intros Hkey. destruct (is_attn_args x) eqn:Ex.
  - rewrite attn_kwargs_set by exact Ex.
    unfold channel_keys in Hkey.
    rewrite !lookup_insert_ne; [reflexivity|..];
      intros <-; apply Hkey; set_solver.
  - destruct x; simpl in *; try discriminate; reflexivity.
Qed.

Lemma attn_kwargs_set_channels (x : attn_args) (e k h : Z) :
  is_attn_args x = true →
  attn_kwargs (set_attn_channels x e k h) !! "enc_channels" = Some (PyInt e)
  ∧ attn_kwargs (set_attn_channels x e k h) !! "skip_channels" = Some (PyInt k)
  ∧ attn_kwargs (set_attn_channels x e k h) !! "spatial_inter_channels"
    = Some (PyInt h).
Proof.
  intros Hx. rewrite attn_kwargs_set by exact Hx. repeat split.
  - rewrite !lookup_insert_ne by done. apply lookup_insert_eq.
  - rewrite lookup_insert_ne by done. apply lookup_insert_eq.
  - apply lookup_insert_eq.
Qed.

Lemma gate_for_state (up : attn_args) (i c0 c1 : Z) :
  is_attn_args (gate_for up i c0 c1).1 = is_attn_args up
  ∧ ∀ key, key ∉ channel_keys →
      attn_kwargs (gate_for up i c0 c1).1 !! key = attn_kwargs up !! key.
Proof.
  unfold gate_for. destruct (is_attn_args up && (1 <? i)); simpl.
  - split; [by rewrite is_attn_args_set|]. intros key Hkey.
    by apply attn_kwargs_set_other.
  - by split.
Qed.

Lemma conv_attn_for_state (x : attn_args) (z : Z) :
  is_attn_args (conv_attn_for x z).1 = is_attn_args x
  ∧ ∀ key, key ∉ channel_keys →
      attn_kwargs (conv_attn_for x z).1 !! key = attn_kwargs x !! key.
Proof.
  unfold conv_attn_for. destruct (is_attn_args x) eqn:Ex; simpl.
  - split; [by rewrite is_attn_args_set|]. intros key Hkey.
    by apply attn_kwargs_set_other.
  - by split.
Qed.

Lemma neck_attn_for_state (a : UNET.args) :
  is_attn_args (neck_attn_for a) = is_attn_args (UNET.up_attn_args a)
  ∧ ∀ key, key ∉ channel_keys →
      attn_kwargs (neck_attn_for a) !! key
      = attn_kwargs (UNET.up_attn_args a) !! key.
Proof.
  unfold neck_attn_for. destruct (is_attn_args (UNET.up_attn_args a)) eqn:Ex.
  - split; [by rewrite is_attn_args_set|]. intros key Hkey.
    by apply attn_kwargs_set_other.
  - by split.
Qed.

(** The samplers of a constructed [UNET], stage by stage, with their
    channel sequences. *)
Lemma UNET_init_stages (a : UNET.args) (u : UNET.t) st :
  UNET.init a = Ok (u, st) →
  Forall2 (UNET_down_stage_built a)
          (py_range (len (UNET.channel_list a) - 1)) (UNET.down_samplers u)
  ∧ Forall2 (UNET_up_stage_built a)
            (py_range_down (len (UNET.channel_list a) - 1) 0)
            (UNET.up_samplers u).
Proof.
  intros H.
  apply UNET_init_closed in H
    as (HL & downs & ups & Hd & Hu & -> & -> & _).
  split.
  - eapply (foldM_collect _ fst (fun _ => True) (UNET_down_stage_built a)) in Hd;
      [| |exact I].
    + destruct Hd as (_ & ds & -> & HQ). exact HQ.
    + intros s i s' Hi _ Hs. apply elem_of_py_range in Hi.
      apply down_pass_closed in Hs as ->; [|lia].
      split; [exact I|]. eexists. split; [reflexivity|]. by eexists.
  - eapply (foldM_collect _ fst
              (fun s => is_attn_args s.2.1 = is_attn_args (UNET.up_attn_args a)
                        ∧ ∀ key, key ∉ channel_keys →
                            attn_kwargs s.2.1 !! key
                            = attn_kwargs (UNET.up_attn_args a) !! key)
              (UNET_up_stage_built a)) in Hu.
    + destruct Hu as (_ & us & -> & HQ). exact HQ.
    + intros s i s' Hi [HI1 HI2] Hs. apply elem_of_py_range_down in Hi.
      apply up_pass_closed in Hs as ->; [|lia]. simpl.
      destruct (gate_for_state s.2.1 i (channel_at a i) (channel_at a (i - 1)))
        as [Hg1 Hg2].
      split.
      * split; [congruence|]. intros key Hkey. rewrite Hg2 by exact Hkey.
        by apply HI2.
      * eexists. split; [reflexivity|]. exists s.2.1. eexists.
        split; [exact HI1|]. split; [exact HI2 | reflexivity].
    + simpl. apply neck_attn_for_state.
Qed.

(** X8: every [ConvSet] of a constructed [UNET] (in the down samplers, the
    bottleneck and the up samplers) is a double convolution with kernel 3,
    padding 1 and stride 1 whose two convolutions give the same number of
    channels, and with time conditioning its time embedding is projected
    to that number: the channel numbers the time embedding is added to and
    projected to always agree. *)
Theorem UNET_conv_sets_double (a : UNET.args) (u : UNET.t) st :
  UNET.init a = Ok (u, st) →
  ∀ c, c ∈ UNET_conv_sets u →
    ∃ ld x y act,
      ConvSet.conv_list c
      = [[Conv ld x y 3 (Some 1) 1; BatchNorm ld y; act];
         [Conv ld y y 3 (Some 1) 1; BatchNorm ld y; act]]
      ∧ ConvSet.need_time c = UNET.denoise_diff a
      ∧ ConvSet.embed_adjuster c
        = (if UNET.denoise_diff a
           then Some [Linear (UNET.denoise_embed_count a) y; ReLU false]
           else None).
Proof.
  intros H c Hc.
  pose proof (UNET_init_stages _ _ _ H) as [Hd Hu].
  apply UNET_init_closed in H as (_ & _ & _ & _ & _ & _ & _ & Hneck & _).
  unfold UNET_conv_sets in Hc.
  apply elem_of_app in Hc as [Hc|Hc]; [|apply elem_of_app in Hc as [Hc|Hc]].
  - apply list_elem_of_fmap in Hc as (d & -> & Hd').
    apply list_elem_of_lookup in Hd' as [k Hk].
    destruct (Forall2_lookup_r _ _ _ _ _ Hd Hk) as (i & _ & attn & ->).
    eexists _, _, _, _. simpl. split; [reflexivity|]. split; reflexivity.
  - apply list_elem_of_singleton in Hc as ->. rewrite Hneck.
    eexists _, _, _, _. simpl. split; [reflexivity|]. split; reflexivity.
  - apply list_elem_of_fmap in Hc as (us & -> & Hus).
    apply list_elem_of_lookup in Hus as [k Hk].
    destruct (Forall2_lookup_r _ _ _ _ _ Hu Hk) as (i & _ & up & ca & _ & _ & ->).
    eexists _, _, _, _. simpl. split; [reflexivity|]. split; reflexivity.
Qed.

Lemma UNET_conv_sets_double_witness :
  ∃ u st,
    UNET.init plain_unet_args = Ok (u, st)
    ∧ ∃ ld x y act,
        ConvSet.conv_list (UNET.bottle_neck u)
        = [[Conv ld x y 3 (Some 1) 1; BatchNorm ld y; act];
           [Conv ld y y 3 (Some 1) 1; BatchNorm ld y; act]].
Proof.
  destruct (UNET.init plain_unet_args) as [[u st]|e] eqn:E;
    [|vm_compute in E; discriminate].
  exists u, st. split; [reflexivity|].
  destruct (UNET_conv_sets_double _ _ _ E (UNET.bottle_neck u))
    as (ld & x & y & act & Hl & _).
  - unfold UNET_conv_sets. apply elem_of_app. right. apply elem_of_app. left.
    apply list_elem_of_singleton. reflexivity.
  - by exists ld, x, y, act.
Defined.

(** ** UNET: the attention arguments *)



Lemma foldM_invariant {A St : Type} (step : St → A → Res St) (I : St → Prop)
    (xs : list A) :
  (∀ st x st', x ∈ xs → I st → step st x = Ok st' → I st') →
  ∀ st st', I st → foldM step xs st = Ok st' → I st'.
Proof.
  induction xs as [|x xs IH]; intros Hstep st st' HI H; simpl in H.
  - by injection H as <-.
  - apply Res_bind_Ok_inv in H as (st1 & E & H).
    eapply (IH (fun s y s' Hy => Hstep s y s' (list_elem_of_further _ _ _ Hy)));
      [|exact H].
    eapply Hstep; [by constructor | exact HI | exact E].
Qed.

Lemma py_range_down_snoc (start stop : Z) :
  stop < start →
  py_range_down start stop = py_range_down start (stop + 1) ++ [stop + 1].
Proof.
  intros H. unfold py_range_down.
  replace (Z.to_nat (start - stop)) with (S (Z.to_nat (start - (stop + 1)))) by lia.
  rewrite seq_S, fmap_app. simpl. f_equal. f_equal. lia.
Qed.

Lemma same_but_channels_refl (x : attn_args) : same_but_channels x x.
Proof. by repeat split. Qed.

Lemma same_but_channels_trans (x y z : attn_args) :
  same_but_channels x y → same_but_channels y z → same_but_channels x z.
Proof.
  intros (H1 & H2 & H3) (H4 & H5 & H6). split; [congruence|]. split.
  - intros Hz. rewrite <- (H5 Hz). apply H2. rewrite (H5 Hz). exact Hz.
  - intros key Hkey. rewrite H3, H6 by exact Hkey. reflexivity.
Qed.

Lemma same_but_channels_set (x : attn_args) (e k h : Z) :
  is_attn_args x = true → same_but_channels (set_attn_channels x e k h) x.
Proof.
  intros Hx. split; [apply is_attn_args_set|]. split; [congruence|].
  intros key Hkey. by apply attn_kwargs_set_other.
Qed.

Lemma conv_attn_for_same (x : attn_args) (z : Z) :
  same_but_channels (conv_attn_for x z).1 x.
Proof.
  unfold conv_attn_for. destruct (is_attn_args x) eqn:Ex; simpl.
  - by apply same_but_channels_set.
  - apply same_but_channels_refl.
Qed.

Lemma gate_for_same (up : attn_args) (i c0 c1 : Z) :
  same_but_channels (gate_for up i c0 c1).1 up.
Proof.
  unfold gate_for. destruct (is_attn_args up && (1 <? i)) eqn:E; simpl.
  - apply same_but_channels_set. by apply andb_true_iff in E as [-> _].
  - apply same_but_channels_refl.
Qed.

Lemma neck_attn_for_same (a : UNET.args) :
  same_but_channels (neck_attn_for a) (UNET.up_attn_args a).
Proof.
  unfold neck_attn_for. destruct (is_attn_args (UNET.up_attn_args a)) eqn:Ex.
  - by apply same_but_channels_set.
  - apply same_but_channels_refl.
Qed.

Lemma down_loop_same (a : UNET.args) (n : Z) (st st' : list DownSample.t * attn_args) :
  foldM (UNET.down_pass a) (py_range n) st = Ok st' →
  same_but_channels st'.2 st.2.
Proof.
  intros H.
  eapply (foldM_invariant _ (fun s => same_but_channels s.2 st.2)); [| |exact H].
  - intros s i s' Hi HI Hs. apply elem_of_py_range in Hi.
    apply down_pass_closed in Hs as ->; [|lia]. simpl.
    eapply same_but_channels_trans; [apply conv_attn_for_same | exact HI].
  - apply same_but_channels_refl.
Qed.

Lemma up_loop_same (a : UNET.args) (start stop : Z)
    (st st' : list UpSample.t * (attn_args * attn_args)) :
  0 <= stop →
  foldM (UNET.up_pass a) (py_range_down start stop) st = Ok st' →
  same_but_channels st'.2.1 st.2.1 ∧ same_but_channels st'.2.2 st.2.2.
Proof.
  intros Hstop H.
  eapply (foldM_invariant _ (fun s => same_but_channels s.2.1 st.2.1
                                      ∧ same_but_channels s.2.2 st.2.2));
    [| |exact H].
  - intros s i s' Hi [HI1 HI2] Hs. apply elem_of_py_range_down in Hi.
    apply up_pass_closed in Hs as ->; [|lia]. simpl. split.
    + eapply same_but_channels_trans; [apply gate_for_same | exact HI1].
    + eapply same_but_channels_trans; [apply conv_attn_for_same | exact HI2].
  - split; apply same_but_channels_refl.
Qed.



(** ** Shapes: what a UNET needs of its channel list *)

Lemma loopM_Ok_lookup {World A St : Type} (step : A → St → M World St)
    (l : list A) (st st' : St) (w w' : World) :
  loopM step l st w = Ok (st', w') →
  ∀ (k : nat) x, l !! k = Some x → ∃ s w0 r, step x s w0 = Ok r.
Proof.
  revert st w. induction l as [|y l IH]; intros st w H k x Hk.
  - discriminate.
  - simpl in H. apply bind_Ok_inv in H as (st1 & w1 & Hstep & Hrest).
    destruct k as [|k]; simpl in Hk.
    + injection Hk as <-. by exists st, w, (st1, w1).
    + by eapply IH.
Qed.

Lemma self_attend_shape_fails (m : AttentionModule) (x : list Z) (w : unit) r :
  self_attend (F := Shapes.framework) m x w = Ok r → False.
Proof.
  unfold self_attend. destruct r as [o w']. intros H.
  apply bind_Ok_inv in H as (f & w1 & _ & H).
  apply bind_Ok_inv in H as (y & w2 & H & _). discriminate.
Qed.

Lemma gate_skip_shape_fails (m : AttentionModule) (cur skip : list Z) (w : unit) r :
  UpSample.gate_skip (F := Shapes.framework) m cur skip w = Ok r → False.
Proof.
  unfold UpSample.gate_skip. destruct r as [o w']. intros H.
  apply bind_Ok_inv in H as (f & w1 & _ & H).
  apply bind_Ok_inv in H as (g & w2 & _ & H).
  apply bind_Ok_inv in H as (y & w3 & H & _). discriminate.
Qed.

(** The projection of the residual branch maps a batch of its input
    channels to a batch of its output channels. *)
Lemma projection_shape (a : ConvSet.args) (x y : list Z) (w w' : unit) :
  call_seq (F := Shapes.framework) (ConvSet_projection a) x w = Ok (y, w') →
  ∃ b sp sp',
    x = b :: (ConvSet.channel_sequence a !!! 0%nat) :: sp
    ∧ y = b :: default 0 (last (ConvSet.channel_sequence a)) :: sp'
    ∧ length sp' = length sp.
Proof.
  unfold ConvSet_projection. simpl. intros H.
  apply bind_Ok_inv in H as (y1 & w1 & H1 & H).
  apply bind_Ok_inv in H as (y2 & w2 & H2 & H).
  injection H as <- <-.
  apply call_shape_inv in H1, H2.
  destruct x as [|b [|c sp]]; try discriminate. simpl in H1.
  destruct (Z.eqb_spec c (ConvSet.channel_sequence a !!! 0%nat)); [|discriminate].
  destruct (Shapes.windows _ _ _ sp) as [sp'|] eqn:Ew; [|discriminate].
  injection H1 as <-. simpl in H2. rewrite Z.eqb_refl in H2.
  injection H2 as <-.
  exists b, sp, sp'. subst c. repeat split. by eapply windows_length.
Qed.

(** A double convolution without time conditioning takes a batch of
    [channel_sequence[0]] channels and gives one of [channel_sequence[2]]
    channels. *)
Lemma double_conv_shape (a : ConvSet.args) (x y z : Z)
    (inp : list Z) (te : option (list Z)) (out : list Z) (w w' : unit) :
  ConvSet.channel_sequence a = [x; y; z] →
  ConvSet.use_time a = false →
  ConvSet.forward (F := Shapes.framework) (ConvSet_built a) inp te w
  = Ok (out, w') →
  ∃ b sp b' sp', inp = b :: x :: sp ∧ out = b' :: z :: sp'.
Proof.
  intros Hcs Htime H.
  assert (ConvSet.conv_list (ConvSet_built a)
          = [ConvSet_block a 0; ConvSet_block a 1]) as Hlist.
  { simpl. rewrite Hcs. reflexivity. }
  unfold ConvSet.forward in H. rewrite Hlist in H.
  change (ConvSet.need_time (ConvSet_built a)) with (ConvSet.use_time a) in H.
  rewrite Htime in H.
  remember (ConvSet_block a 0) as blk0 eqn:E0.
  remember (ConvSet_block a 1) as blk1 eqn:E1.
  simpl in H.
  apply bind_Ok_inv in H as (first & w0 & Hfirst & H).
  injection Hfirst as <- <-.
  apply bind_Ok_inv in H as (y0 & w1 & Hy0 & H).
  subst blk0. apply conv_block_shape in Hy0 as (b & sp & sp0 & -> & -> & Hsp0).
  apply bind_Ok_inv in H as (y0' & w2 & Hret & H).
  injection Hret as <- <-.
  apply bind_Ok_inv in H as (y1 & w3 & Hy1 & H).
  apply bind_Ok_inv in Hy1 as (y1' & w4 & Hy1 & Hret).
  injection Hret as <- <-.
  subst blk1. apply conv_block_shape in Hy1 as (b1 & sp1 & sp1' & Hin1 & -> & Hsp1).
  rewrite Hcs in *. simpl in Hin1. injection Hin1 as <- <-. simpl.
  apply bind_Ok_inv in H as (y2 & w5 & Hattn & H).
  assert (y2 = b :: z :: sp1') as ->.
  { destruct (make_attention (ConvSet.attention_args a)).
    - exfalso. by eapply self_attend_shape_fails.
    - by injection Hattn as <- _. }
  exists b, sp. simpl.
  destruct (ConvSet.use_residual a) eqn:Eres.
  - unfold ConvSet.add_residual in H. simpl in H. rewrite Eres in H. simpl in H.
    apply bind_Ok_inv in H as (res & w6 & Hres & H).
    apply projection_shape in Hres as (b2 & sp2 & sp2' & Hin2 & -> & Hsp2).
    rewrite Hcs in *. simpl in Hin2. injection Hin2 as <- <-.
    apply bind_Ok_inv in H as (sum & w7 & Hsum & H).
    unfold pure_op in Hsum. simpl in Hsum.
    destruct (Shapes.broadcast _ _) as [s0|] eqn:Eb in Hsum; [|discriminate].
    injection Hsum as <- <-.
    apply call_shape_inv in H. simpl in H. injection H as <-.
    assert (length (b :: z :: sp1') = length (b :: z :: sp2')) as Hlen
      by (simpl; lia).
    destruct (broadcast_lookup _ _ _ Hlen Eb 0%nat b b eq_refl eq_refl)
      as (d0 & Hd0 & _).
    destruct (broadcast_lookup _ _ _ Hlen Eb 1%nat z z eq_refl eq_refl)
      as (d1 & Hd1 & Hax).
    unfold Shapes.broadcast_axis in Hax. rewrite Z.eqb_refl in Hax.
    injection Hax as <-.
    destruct s0 as [|e0 [|e1 s0]]; try discriminate.
    simpl in Hd1. injection Hd1 as ->. by exists e0, s0.
  - injection H as <- _. by exists b, sp1'.
Qed.

(** The upscaler maps a batch of [channel_sequence[0]] channels to one of
    [channel_sequence[-1]] channels. *)
Lemma upscaler_shape (ua : UpSample.args) (cur up : list Z) (w w' : unit) :
  call_seq (F := Shapes.framework) (UpSample.upscaler (UpSample_built ua)) cur w
  = Ok (up, w') →
  ∃ b sp sp',
    cur = b :: (UpSample.channel_sequence ua !!! 0%nat) :: sp
    ∧ up = b :: default 0 (last (UpSample.channel_sequence ua)) :: sp'.
Proof.
  simpl. intros H.
  apply bind_Ok_inv in H as (y1 & w1 & H1 & H).
  apply bind_Ok_inv in H as (y2 & w2 & H2 & H).
  apply bind_Ok_inv in H as (y3 & w3 & H3 & H).
  apply call_shape_inv in H1, H2, H3.
  destruct cur as [|b [|c sp]]; try discriminate. simpl in H1.
  destruct (Z.eqb_spec c (UpSample.channel_sequence ua !!! 0%nat));
    [|discriminate].
  simpl in H1. injection H1 as <-. simpl in H2. rewrite Z.eqb_refl in H2.
  injection H2 as <-. simpl in H3. injection H3 as <-.
  assert (up = b :: default 0 (last (UpSample.channel_sequence ua))
                 :: ((fun n => (n - 1) * 2 + 2) <$> sp)) as ->.
  { destruct (UpSample.positive_rate (UpSample.up_drop_perc ua)); simpl in H.
    - apply bind_Ok_inv in H as (y4 & w4 & H4 & H).
      apply call_shape_inv in H4. simpl in H4. injection H4 as <-.
      by injection H as <- _.
    - by injection H as <- _. }
  subst c. by eexists _, _, _.
Qed.

(** An up sampler without time conditioning returns only on a skip tensor
    whose channels, added to those of the upscaled tensor, are the input
    channels of its convolution set. *)
Lemma upsample_shape (ua : UpSample.args) (c0 c1 c2 : Z)
    (cur skip : list Z) (te : option (list Z)) (out : list Z) (w w' : unit) :
  UpSample.channel_sequence ua = [c0; c1; c2] →
  UpSample.conv_time ua = false →
  UpSample.forward (F := Shapes.framework) (UpSample_built ua) cur skip te w
  = Ok (out, w') →
  ∃ bs cs sks, skip = bs :: cs :: sks ∧ c0 = c2 + cs.
Proof.
  intros Hcs Htime H. unfold UpSample.forward in H.
  apply bind_Ok_inv in H as (skip' & w1 & Hgate & H).
  assert (skip' = skip) as ->.
  { destruct (UpSample.attention (UpSample_built ua)).
    - exfalso. by eapply gate_skip_shape_fails.
    - by injection Hgate as <- _. }
  apply bind_Ok_inv in H as (up & w2 & Hup & H).
  apply upscaler_shape in Hup as (b & sp & sp' & -> & ->).
  rewrite Hcs in H. simpl in H.
  apply bind_Ok_inv in H as (comb & w3 & Hcat & H).
  unfold pure_op in Hcat. simpl in Hcat.
  destruct skip as [|bs [|cs sks]]; try discriminate.
  simpl in Hcat. destruct (decide (b = bs ∧ sp' = sks)); [|discriminate].
  injection Hcat as <- <-.
  apply (double_conv_shape (UpSample.conv_args ua) c0 c1 c2) in H
    as (b1 & sp1 & _ & _ & Hin & _); [|exact Hcs | exact Htime].
  injection Hin as _ Hc _. exists bs, cs, sks. split; [reflexivity | lia].
Qed.

Lemma encoder_run_first {Tensor World : Type} {F : Framework Tensor World}
    (te : option Tensor) (ds : list DownSample.t) (x y : Tensor) (w w' : World)
    (skips : list Tensor) :
  encoder_run te ds x w skips y w' →
  ∀ d, ds !! 0%nat = Some d →
    ∃ s w1, ConvSet.forward (DownSample.conv d) x te w = Ok (s, w1).
Proof.
  destruct 1 as [|d0 ds x conv_out pooled y w w1 w2 w3 skips Hc _ _ _];
    intros d Hd; simpl in Hd; [discriminate|].
  injection Hd as <-. by exists conv_out, w1.
Qed.

Lemma channel_at_lookup (a : UNET.args) (i : nat) (c : Z) :
  UNET.channel_list a !! i = Some c → channel_at a (Z.of_nat i) = c.
Proof.
  intros H. unfold channel_at. rewrite Nat2Z.id.
  by apply list_lookup_total_correct.
Qed.



(** ** Shapes: the residual branch and the stride *)

Lemma windows_same (sp : list Z) :
  Forall (fun n => 0 < n) sp → Shapes.windows 3 1 1 sp = Some sp.
Proof.
  induction 1 as [|n sp Hn _ IH]; simpl; [reflexivity|].
  rewrite IH. unfold Shapes.window.
  replace ((n + 2 * 1 - 3) / 1 + 1) with n by (rewrite Z.div_1_r; lia).
  destruct (Z.ltb_spec 0 n); [reflexivity | lia].
Qed.

Lemma windows_strided (k p s : Z) (sp : list Z) :
  2 * p - k = -1 → 0 < s →
  Forall (fun n => 0 < n) sp →
  Shapes.windows k p s sp = Some (strided s <$> sp).
Proof.
  intros Hkp Hs. induction 1 as [|n sp Hn _ IH]; simpl; [reflexivity|].
  rewrite IH. unfold Shapes.window, strided.
  replace (n + 2 * p - k) with (n - 1) by lia.
  assert (0 <= (n - 1) / s) by (apply Z.div_pos; lia).
  destruct (Z.ltb_spec 0 s); [|lia].
  destruct (Z.ltb_spec 0 ((n - 1) / s + 1)); [reflexivity | lia].
Qed.

Lemma broadcast_rev_same (x : list Z) : Shapes.broadcast_rev x x = Some x.
Proof.
  induction x as [|a x IH]; simpl; [reflexivity|].
  rewrite IH. unfold Shapes.broadcast_axis. by rewrite Z.eqb_refl.
Qed.

Lemma broadcast_same (x : list Z) : Shapes.broadcast x x = Some x.
Proof.
  unfold Shapes.broadcast. rewrite broadcast_rev_same. simpl.
  by rewrite reverse_involutive.
Qed.

Lemma conv_block_returns (a : ConvSet.args) (i : nat) (b : Z) (sp sp' : list Z)
    (w : unit) :
  Shapes.windows (ConvSet.kernel_sequence a !!! i) (ConvSet.padding_sequence a !!! i)
                 (if decide (i = 1%nat) then ConvSet.stride a else 1) sp
  = Some sp' →
  call_seq (F := Shapes.framework) (ConvSet_block a i)
           (b :: ConvSet.channel_sequence a !!! i :: sp) w
  = Ok (b :: ConvSet.channel_sequence a !!! S i :: sp', w).
Proof.
  intros Hw. unfold ConvSet_block. simpl. unfold call, stateful, bind. simpl.
  rewrite Z.eqb_refl, Hw. simpl. rewrite Z.eqb_refl.
  destruct (ConvSet.act_function a); reflexivity.
Qed.

Lemma projection_returns (a : ConvSet.args) (b : Z) (sp sp' : list Z) (w : unit) :
  Shapes.windows 1 0 (ConvSet.stride a) sp = Some sp' →
  call_seq (F := Shapes.framework) (ConvSet_projection a)
           (b :: ConvSet.channel_sequence a !!! 0%nat :: sp) w
  = Ok (b :: default 0 (last (ConvSet.channel_sequence a)) :: sp', w).
Proof.
  intros Hw. unfold ConvSet_projection. simpl. unfold call, stateful, bind. simpl.
  rewrite Z.eqb_refl, Hw. simpl. rewrite Z.eqb_refl. reflexivity.
Qed.


